(** * Traditional horary judgment engine: a shallow embedding

    This development embeds the parts of [backend/horary_engine.py] that the
    specification's testable properties talk about, and settles each property
    against the embedded code.

    Conventions of the embedding.
    - Python [float] values (longitudes, speeds, orbs) are exact rationals
      [Q]; rounding of IEEE doubles is not modelled.  Python [int] values
      (confidence, dignity, houses) are [Z].
    - A Python exception ([KeyError] on [chart.planets[p]], [IndexError],
      [AttributeError]) is the [None] of an [option] result.
    - [cfg()] is an explicit [Config] record; its fields are the settings the
      code reads from the configuration store.
    - Reasoning strings and timing prose are only carried where a property
      mentions them. *)

From Stdlib Require Import ZArith QArith Qround Qabs Qminmax.
From Stdlib Require Import String Ascii List Bool Lia Lqa.
Import ListNotations.

Local Open Scope Z_scope.

(** ** Small numeric and error-handling toolkit *)

Module Py.

(** Exceptions as [option]: a tiny monad with its notation. *)
Definition bind {A B : Type} (m : option A) (k : A -> option B) : option B :=
  match m with
  | Some a => k a
  | None => None
  end.

Definition ret {A : Type} (a : A) : option A := Some a.

(** Comparison of floats, as booleans. *)
Definition Qltb (x y : Q) : bool := negb (Qle_bool y x).
Definition Qleb (x y : Q) : bool := Qle_bool x y.
Definition Qeqb (x y : Q) : bool := Qeq_bool x y.

(** Python's [x % m] on floats, for a positive modulus. *)
Definition Qmod (x m : Q) : Q := (x - m * inject_Z (Qfloor (x / m)))%Q.

(** [abs(x)], [min], [max] on floats. *)
Definition Qabs' (x : Q) : Q := Qabs x.
Definition Qmin' (x y : Q) : Q := if Qleb x y then x else y.
Definition Qmax' (x y : Q) : Q := if Qleb y x then x else y.

(** A float written as an integer. *)
Definition Qz (z : Z) : Q := inject_Z z.

End Py.

Notation "x <- m ;; k" := (Py.bind m (fun x => k))
  (at level 61, m at next level, right associativity).

(** ** Data model *)

(** [class Planet(Enum)]: the seven traditional planets and two chart points. *)
Inductive Planet : Type :=
| SUN | MOON | MERCURY | VENUS | MARS | JUPITER | SATURN | ASC | MC.

Definition Planet_eqb (a b : Planet) : bool :=
  match a, b with
  | SUN, SUN | MOON, MOON | MERCURY, MERCURY | VENUS, VENUS | MARS, MARS
  | JUPITER, JUPITER | SATURN, SATURN | ASC, ASC | MC, MC => true
  | _, _ => false
  end.

(** [Planet.value] *)
Definition Planet_value (p : Planet) : string :=
  match p with
  | SUN => "Sun" | MOON => "Moon" | MERCURY => "Mercury" | VENUS => "Venus"
  | MARS => "Mars" | JUPITER => "Jupiter" | SATURN => "Saturn"
  | ASC => "Ascendant" | MC => "Midheaven"
  end.

(** [class Aspect(Enum)], in declaration order. *)
Inductive Aspect : Type :=
| CONJUNCTION | SEXTILE | SQUARE | TRINE | OPPOSITION.

(** Iteration [for aspect_type in Aspect] follows the declaration order. *)
Definition all_aspects : list Aspect :=
  [CONJUNCTION; SEXTILE; SQUARE; TRINE; OPPOSITION].

Definition Aspect_eqb (a b : Aspect) : bool :=
  match a, b with
  | CONJUNCTION, CONJUNCTION | SEXTILE, SEXTILE | SQUARE, SQUARE
  | TRINE, TRINE | OPPOSITION, OPPOSITION => true
  | _, _ => false
  end.

(** [Aspect.degrees] *)
Definition Aspect_degrees (a : Aspect) : Z :=
  match a with
  | CONJUNCTION => 0 | SEXTILE => 60 | SQUARE => 90
  | TRINE => 120 | OPPOSITION => 180
  end.

(** [Aspect.display_name] *)
Definition Aspect_display_name (a : Aspect) : string :=
  match a with
  | CONJUNCTION => "Conjunction" | SEXTILE => "Sextile" | SQUARE => "Square"
  | TRINE => "Trine" | OPPOSITION => "Opposition"
  end.

(** [class Sign(Enum)] with its start degree and domicile ruler. *)
Inductive Sign : Type :=
| ARIES | TAURUS | GEMINI | CANCER | LEO | VIRGO
| LIBRA | SCORPIO | SAGITTARIUS | CAPRICORN | AQUARIUS | PISCES.

Definition all_signs : list Sign :=
  [ARIES; TAURUS; GEMINI; CANCER; LEO; VIRGO;
   LIBRA; SCORPIO; SAGITTARIUS; CAPRICORN; AQUARIUS; PISCES].

Definition Sign_eqb (a b : Sign) : bool :=
  match a, b with
  | ARIES, ARIES | TAURUS, TAURUS | GEMINI, GEMINI | CANCER, CANCER
  | LEO, LEO | VIRGO, VIRGO | LIBRA, LIBRA | SCORPIO, SCORPIO
  | SAGITTARIUS, SAGITTARIUS | CAPRICORN, CAPRICORN | AQUARIUS, AQUARIUS
  | PISCES, PISCES => true
  | _, _ => false
  end.

Definition Sign_start_degree (s : Sign) : Z :=
  match s with
  | ARIES => 0 | TAURUS => 30 | GEMINI => 60 | CANCER => 90 | LEO => 120
  | VIRGO => 150 | LIBRA => 180 | SCORPIO => 210 | SAGITTARIUS => 240
  | CAPRICORN => 270 | AQUARIUS => 300 | PISCES => 330
  end.

Definition Sign_ruler (s : Sign) : Planet :=
  match s with
  | ARIES => MARS | TAURUS => VENUS | GEMINI => MERCURY | CANCER => MOON
  | LEO => SUN | VIRGO => MERCURY | LIBRA => VENUS | SCORPIO => MARS
  | SAGITTARIUS => JUPITER | CAPRICORN => SATURN | AQUARIUS => SATURN
  | PISCES => JUPITER
  end.

(** [class SolarCondition(Enum)] *)
Inductive SolarCondition : Type :=
| CAZIMI | COMBUSTION | UNDER_BEAMS | FREE.

Definition SolarCondition_eqb (a b : SolarCondition) : bool :=
  match a, b with
  | CAZIMI, CAZIMI | COMBUSTION, COMBUSTION | UNDER_BEAMS, UNDER_BEAMS
  | FREE, FREE => true
  | _, _ => false
  end.

(** [SolarCondition.condition_name] *)
Definition condition_name (c : SolarCondition) : string :=
  match c with
  | CAZIMI => "Cazimi" | COMBUSTION => "Combustion"
  | UNDER_BEAMS => "Under the Beams" | FREE => "Free of Sun"
  end.

(** [@dataclass SolarAnalysis] *)
Record SolarAnalysis : Type := mkSolarAnalysis {
  sa_planet : Planet;
  distance_from_sun : Q;
  sa_condition : SolarCondition;
  exact_cazimi : bool;
  traditional_exception : bool
}.

(** [@dataclass PlanetPosition] *)
Record PlanetPosition : Type := mkPlanetPosition {
  planet : Planet;
  longitude : Q;
  latitude : Q;
  house : Z;
  sign : Sign;
  dignity_score : Z;
  retrograde : bool;
  speed : Q
}.

(** The attributes a [PlanetPosition] instance carries.  The engine never
    assigns any other attribute on these objects, so [hasattr(pos, name)] is
    membership in this list. *)
Definition PlanetPosition_fields : list string :=
  ["planet"; "longitude"; "latitude"; "house"; "sign"; "dignity_score";
   "retrograde"; "speed"]%string.

Definition hasattr_PlanetPosition (name : string) : bool :=
  existsb (String.eqb name) PlanetPosition_fields.

(** [@dataclass AspectInfo]; [exact_time] is a calendar rendering obtained from
    the ephemeris library and is left out. *)
Record AspectInfo : Type := mkAspectInfo {
  planet1 : Planet;
  planet2 : Planet;
  ai_aspect : Aspect;
  ai_orb : Q;
  ai_applying : bool;
  degrees_to_exact : Q
}.

(** [@dataclass LunarAspect]; the ETA prose is left out. *)
Record LunarAspect : Type := mkLunarAspect {
  la_planet : Planet;
  la_aspect : Aspect;
  la_orb : Q;
  degrees_difference : Q;
  perfection_eta_days : option Q;   (* [None] is [float('inf')] *)
  la_applying : bool
}.

(** A Python [dict] keeps insertion order and has unique keys: an association
    list, whose keys are pairwise distinct in every dict the code builds. *)
Definition Planets : Type := list (Planet * PlanetPosition).

Fixpoint planets_get (ps : Planets) (p : Planet) : option PlanetPosition :=
  match ps with
  | [] => None
  | (k, v) :: rest => if Planet_eqb k p then Some v else planets_get rest p
  end.

Definition planets_keys (ps : Planets) : list Planet := map fst ps.

(** [@dataclass HoraryChart], the fields the judgment reads. *)
Record HoraryChart : Type := mkHoraryChart {
  planets : Planets;
  aspects : list AspectInfo;
  houses : list Q;
  house_rulers : list (Z * Planet);
  ascendant : Q;
  midheaven : Q;
  solar_analyses : option (list (Planet * SolarAnalysis));
  moon_last_aspect : option LunarAspect;
  moon_next_aspect : option LunarAspect
}.

Fixpoint house_rulers_get (hr : list (Z * Planet)) (h : Z) : option Planet :=
  match hr with
  | [] => None
  | (k, v) :: rest => if Z.eqb k h then Some v else house_rulers_get rest h
  end.

(** ** Configuration

    [horary_config] is not among the sources; [cfg()] is passed explicitly.
    Every field below is a setting the embedded code reads. *)

Record VoidExceptions : Type := mkVoidExceptions {
  ve_cancer : bool;
  ve_sagittarius : bool;
  ve_taurus : bool
}.

Record Config : Type := mkConfig {
  (* confidence *)
  base_confidence : Z;
  direct_with_mutual_rulership : Z;
  direct_with_mutual_exaltation : Z;
  direct_basic : Z;
  translation_of_light : Z;
  collection_of_light : Z;
  reception_only : Z;
  cazimi_bonus : Z;
  (* dignity *)
  dignity_triplicity : Z;
  (* orbs *)
  orbs_moieties : option (list (string * Q));   (* [None]: no [moieties] attribute *)
  orbs_by_aspect : list (string * Q);           (* [cfg().orbs.__dict__] *)
  sun_orb_bonus : Q;
  moon_orb_bonus : Q;
  void_orb_deg : Q;
  combustion_orb : Q;
  (* timing *)
  timing_precision_days : Q;
  stationary_speed_threshold : Q;
  (* moon *)
  void_rule : string;
  void_exceptions : VoidExceptions;
  require_speed_advantage : bool;
  require_proper_sequence : bool;
  (* radicality *)
  asc_too_early : Q;
  asc_too_late : Q;
  saturn_7th_enabled : bool;
  via_combusta_enabled : bool;
  libra_start : Q;
  scorpio_end : Q
}.

Fixpoint assoc_Q (l : list (string * Q)) (k : string) (default : Q) : Q :=
  match l with
  | [] => default
  | (k', v) :: rest => if String.eqb k' k then v else assoc_Q rest k default
  end.

(** [Aspect.config_key] *)
Definition Aspect_config_key (a : Aspect) : string :=
  match a with
  | CONJUNCTION => "conjunction" | SEXTILE => "sextile" | SQUARE => "square"
  | TRINE => "trine" | OPPOSITION => "opposition"
  end.

(** [Aspect.orb]: the configured orb, [8.0] when the key is missing. *)
Definition Aspect_orb (cfg : Config) (a : Aspect) : Q :=
  assoc_Q (orbs_by_aspect cfg) (Aspect_config_key a) 8.

(** ** Reception calculator ([TraditionalReceptionCalculator]) *)

Inductive Sect : Type := Day | Night.

Definition sect_of (is_day : bool) : Sect := if is_day then Day else Night.

Module Reception.

(** [self.exaltations] *)
Definition exaltations (p : Planet) : option Sign :=
  match p with
  | SUN => Some ARIES | MOON => Some TAURUS | MERCURY => Some VIRGO
  | VENUS => Some PISCES | MARS => Some CAPRICORN | JUPITER => Some CANCER
  | SATURN => Some LIBRA
  | ASC | MC => None
  end.

(** [self.triplicity_rulers]: every sign is a key of the table. *)
Definition triplicity_rulers (s : Sign) (sect : Sect) : Planet :=
  match s, sect with
  | (ARIES | LEO | SAGITTARIUS), Day => SUN
  | (ARIES | LEO | SAGITTARIUS), Night => JUPITER
  | (TAURUS | VIRGO | CAPRICORN), Day => VENUS
  | (TAURUS | VIRGO | CAPRICORN), Night => MOON
  | (GEMINI | LIBRA | AQUARIUS), Day => SATURN
  | (GEMINI | LIBRA | AQUARIUS), Night => MERCURY
  | (CANCER | SCORPIO | PISCES), Day => MARS
  | (CANCER | SCORPIO | PISCES), Night => VENUS
  end.

Inductive Dignity : Type := domicile | exaltation | triplicity.

Definition Dignity_eqb (a b : Dignity) : bool :=
  match a, b with
  | domicile, domicile | exaltation, exaltation | triplicity, triplicity => true
  | _, _ => false
  end.

Definition has_dignity (d : Dignity) (l : list Dignity) : bool :=
  existsb (Dignity_eqb d) l.

(** [_has_triplicity_dignity] *)
Definition _has_triplicity_dignity (p : Planet) (s : Sign) (is_day : bool) : bool :=
  Planet_eqb (triplicity_rulers s (sect_of is_day)) p.

(** [_check_all_dignities] *)
Definition _check_all_dignities
  (receiving_planet : Planet) (received_position : PlanetPosition)
  (is_day : bool) : list Dignity :=
  (if Planet_eqb (Sign_ruler (sign received_position)) receiving_planet
   then [domicile] else [])
  ++ (match exaltations receiving_planet with
      | Some s => if Sign_eqb s (sign received_position) then [exaltation] else []
      | None => []
      end)
  ++ (if _has_triplicity_dignity receiving_planet (sign received_position) is_day
      then [triplicity] else []).

Inductive ReceptionType : Type :=
| none | mutual_rulership | mutual_exaltation | mixed_reception | unilateral.

Definition ReceptionType_eqb (a b : ReceptionType) : bool :=
  match a, b with
  | none, none | mutual_rulership, mutual_rulership
  | mutual_exaltation, mutual_exaltation | mixed_reception, mixed_reception
  | unilateral, unilateral => true
  | _, _ => false
  end.

Definition nonempty {A : Type} (l : list A) : bool :=
  match l with [] => false | _ => true end.

(** [_classify_reception]: the type, and for a unilateral reception the
    dignities of the receiving side. *)
Definition _classify_reception (r12 r21 : list Dignity)
  : ReceptionType * list Dignity :=
  if negb (nonempty r12) && negb (nonempty r21) then (none, [])
  else if has_dignity domicile r12 && has_dignity domicile r21
       then (mutual_rulership, [])
  else if has_dignity exaltation r12 && has_dignity exaltation r21
       then (mutual_exaltation, [])
  else if nonempty r12 && nonempty r21 then (mixed_reception, [])
  else if nonempty r12 then (unilateral, r12)
  else (unilateral, r21).

(** [_calculate_reception_strength] *)
Definition _calculate_reception_strength
  (t : ReceptionType) (dignities : list Dignity) : Z :=
  match t with
  | none => 0
  | mutual_rulership => 10
  | mutual_exaltation => 8
  | mixed_reception => 6
  | unilateral =>
      if has_dignity domicile dignities then 5
      else if has_dignity exaltation dignities then 4
      else if has_dignity triplicity dignities then 3
      else 2
  end.

(** [_calculate_house_position]: the first house whose cusp interval holds the
    longitude, house 1 when none does; a cusp list shorter than twelve raises
    [IndexError]. *)
Fixpoint house_scan (lon : Q) (hs : list Q) (idx : list nat) : option Z :=
  match idx with
  | [] => Some 1
  | i :: rest =>
      c <- nth_error hs i ;;
      n <- nth_error hs (Nat.modulo (i + 1) 12) ;;
      let current_cusp := Py.Qmod c 360 in
      let next_cusp := Py.Qmod n 360 in
      if Py.Qltb next_cusp current_cusp
      then (if Py.Qleb current_cusp lon || Py.Qltb lon next_cusp
            then Some (Z.of_nat i + 1) else house_scan lon hs rest)
      else (if Py.Qleb current_cusp lon && Py.Qltb lon next_cusp
            then Some (Z.of_nat i + 1) else house_scan lon hs rest)
  end.

Definition _calculate_house_position (lon : Q) (hs : list Q) : option Z :=
  house_scan (Py.Qmod lon 360) hs (seq 0 12).

Definition day_houses : list Z := [7; 8; 9; 10; 11; 12].

Definition Z_in (z : Z) (l : list Z) : bool := existsb (Z.eqb z) l.

Record ReceptionData : Type := mkReceptionData {
  rc_type : ReceptionType;
  planet1_receives_planet2 : list Dignity;
  planet2_receives_planet1 : list Dignity;
  day_chart : bool;
  traditional_strength : Z
}.

(** [calculate_comprehensive_reception] *)
Definition calculate_comprehensive_reception
  (chart : HoraryChart) (p1 p2 : Planet) : option ReceptionData :=
  pos1 <- planets_get (planets chart) p1 ;;
  pos2 <- planets_get (planets chart) p2 ;;
  sun_pos <- planets_get (planets chart) SUN ;;
  sun_house <- _calculate_house_position (longitude sun_pos) (houses chart) ;;
  let is_day := Z_in sun_house day_houses in
  let r12 := _check_all_dignities p1 pos2 is_day in
  let r21 := _check_all_dignities p2 pos1 is_day in
  let '(t, details) := _classify_reception r12 r21 in
  Some {| rc_type := t;
          planet1_receives_planet2 := r12;
          planet2_receives_planet1 := r21;
          day_chart := is_day;
          traditional_strength := _calculate_reception_strength t details |}.

End Reception.

(** ** Dignity scorer: triplicity ([_calculate_triplicity_dignity]) *)

Module DignityScorer.

(** The local [triplicity_rulers] table of [_calculate_triplicity_dignity]. *)
Definition triplicity_rulers (s : Sign) (sect : Sect) : Planet :=
  match s, sect with
  | (ARIES | LEO | SAGITTARIUS), Day => SUN
  | (ARIES | LEO | SAGITTARIUS), Night => JUPITER
  | (TAURUS | VIRGO | CAPRICORN), Day => VENUS
  | (TAURUS | VIRGO | CAPRICORN), Night => MOON
  | (GEMINI | LIBRA | AQUARIUS), Day => SATURN
  | (GEMINI | LIBRA | AQUARIUS), Night => MERCURY
  | (CANCER | SCORPIO | PISCES), Day => VENUS
  | (CANCER | SCORPIO | PISCES), Night => MARS
  end.

(** [_calculate_triplicity_dignity] *)
Definition _calculate_triplicity_dignity
  (cfg : Config) (p : Planet) (s : Sign) (sun_pos : PlanetPosition) : Z :=
  let is_day := Reception.Z_in (house sun_pos) Reception.day_houses in
  if Planet_eqb (triplicity_rulers s (sect_of is_day)) p
  then dignity_triplicity cfg
  else 0.

End DignityScorer.

(** ** Sign exit

    [days_to_sign_exit] is imported from [_horary_math], which is not among the
    sources.  The engine functions below take it as a parameter; the engine
    also carries its own replacement for it (the [except ImportError] branch of
    [_days_to_sign_exit]), embedded here as [days_to_sign_exit_fallback]. *)

Definition days_to_sign_exit_fallback (lon spd : Q) : option Q :=
  let degrees_in_sign := Py.Qmod lon 30 in
  let degrees_remaining :=
    if Py.Qltb 0 spd then (30 - degrees_in_sign)%Q else degrees_in_sign in
  if Py.Qeqb spd 0 then None else Some (degrees_remaining / Py.Qabs' spd)%Q.

(** Truthiness of an optional float: [None] and [0.0] are false. *)
Definition truthy (d : option Q) : bool :=
  match d with
  | None => false
  | Some x => negb (Py.Qeqb x 0)
  end.

(** [a > b] where [a] may be [float('inf')] ([None]). *)
Definition inf_gtb (a : option Q) (b : Q) : bool :=
  match a with
  | None => true
  | Some x => Py.Qltb b x
  end.

(** ** Aspect engine ([EnhancedTraditionalAstrologicalCalculator]) *)

(** The two normalising loops [while s > 180: s -= 360] and
    [while s < -180: s += 360], run with fuel computed from the value. *)
Fixpoint while_above (fuel : nat) (s : Q) : Q :=
  match fuel with
  | O => s
  | S f => if Py.Qltb 180 s then while_above f (s - 360)%Q else s
  end.

Fixpoint while_below (fuel : nat) (s : Q) : Q :=
  match fuel with
  | O => s
  | S f => if Py.Qltb s (-180) then while_below f (s + 360)%Q else s
  end.

Definition loop_fuel (s : Q) : nat := S (Z.to_nat (Qceiling (Qabs s / 360))).

Definition normalize180 (s : Q) : Q :=
  let s1 := while_above (loop_fuel s) s in
  while_below (loop_fuel s1) s1.

(** [min(targets, key=...)]: the first element with the least key. *)
Fixpoint min_by (key : Q -> Q) (best : Q) (l : list Q) : Q :=
  match l with
  | [] => best
  | t :: rest => if Py.Qltb (key t) (key best) then min_by key t rest
                 else min_by key best rest
  end.

Definition aspect_targets (a : Aspect) : list Q :=
  let target := Py.Qz (Aspect_degrees a) in
  [target; (- target)%Q]
  ++ (if negb (Z.eqb (Aspect_degrees a) 0) && negb (Z.eqb (Aspect_degrees a) 180)
      then [(target - 360)%Q; (- target + 360)%Q] else []).

Definition closest_target (a : Aspect) (separation : Q) : Q :=
  match aspect_targets a with
  | [] => 0%Q
  | t :: rest => min_by (fun t => Py.Qabs' (separation - t)) t rest
  end.

Section AspectEngine.

Variable cfg : Config.
Variable days_to_sign_exit : Q -> Q -> option Q.

(** [_calculate_moiety_based_orb] *)
Definition _calculate_moiety_based_orb (p1 p2 : Planet) (a : Aspect) : Q :=
  match orbs_moieties cfg with
  | None => 0%Q
  | Some moieties =>
      let moiety1 := assoc_Q moieties (Planet_value p1) 8 in
      let moiety2 := assoc_Q moieties (Planet_value p2) 8 in
      let combined_moiety := (moiety1 + moiety2)%Q in
      match a with
      | CONJUNCTION | OPPOSITION => combined_moiety
      | TRINE | SQUARE => (combined_moiety * (85 # 100))%Q
      | SEXTILE => (combined_moiety * (7 # 10))%Q
      end
  end.

(** The faster and the slower body of [_is_applying_enhanced]. *)
Definition faster_slower (pos1 pos2 : PlanetPosition)
  : PlanetPosition * PlanetPosition :=
  if Py.Qltb (Py.Qabs' (speed pos2)) (Py.Qabs' (speed pos1))
  then (pos1, pos2) else (pos2, pos1).

Definition app_separation (pos1 pos2 : PlanetPosition) : Q :=
  let '(faster, slower) := faster_slower pos1 pos2 in
  normalize180 (longitude faster - longitude slower)%Q.

Definition relative_speed (pos1 pos2 : PlanetPosition) : Q :=
  let '(faster, slower) := faster_slower pos1 pos2 in
  (speed faster - speed slower)%Q.

Definition app_current_orb (pos1 pos2 : PlanetPosition) (a : Aspect) : Q :=
  let separation := app_separation pos1 pos2 in
  Py.Qabs' (separation - closest_target a separation).

(** [days_to_perfect]; [None] is [float('inf')]. *)
Definition app_days_to_perfect (pos1 pos2 : PlanetPosition) (a : Aspect)
  : option Q :=
  let rel := Py.Qabs' (relative_speed pos1 pos2) in
  if Py.Qltb 0 rel then Some (app_current_orb pos1 pos2 a / rel)%Q else None.

Definition app_future_orb (pos1 pos2 : PlanetPosition) (a : Aspect) : Q :=
  let separation := app_separation pos1 pos2 in
  let future_separation :=
    normalize180
      (separation + relative_speed pos1 pos2 * timing_precision_days cfg)%Q in
  Py.Qabs' (future_separation - closest_target a separation).

(** [_is_applying_enhanced] *)
Definition _is_applying_enhanced
  (pos1 pos2 : PlanetPosition) (a : Aspect) : bool :=
  let '(faster, slower) := faster_slower pos1 pos2 in
  let days_to_perfect := app_days_to_perfect pos1 pos2 a in
  let faster_days_to_exit :=
    days_to_sign_exit (longitude faster) (speed faster) in
  let slower_days_to_exit :=
    days_to_sign_exit (longitude slower) (speed slower) in
  if truthy faster_days_to_exit
     && match faster_days_to_exit with
        | Some d => inf_gtb days_to_perfect d
        | None => false
        end
  then false
  else if truthy slower_days_to_exit
          && match slower_days_to_exit with
             | Some d => inf_gtb days_to_perfect d
             | None => false
             end
  then false
  else Py.Qltb (app_future_orb pos1 pos2 a) (app_current_orb pos1 pos2 a).

(** The shorter arc between two longitudes, as the engine computes it. *)
Definition angular_separation (l1 l2 : Q) : Q :=
  let d := Py.Qabs' (l1 - l2) in
  if Py.Qltb 180 d then (360 - d)%Q else d.

(** [_calculate_enhanced_degrees_to_exact], without the calendar time. *)
Definition _calculate_enhanced_degrees_to_exact
  (pos1 pos2 : PlanetPosition) (a : Aspect) : Q :=
  let separation := angular_separation (longitude pos1) (longitude pos2) in
  let orb_from_exact := Py.Qabs' (separation - Py.Qz (Aspect_degrees a)) in
  if Py.Qltb orb_from_exact (1 # 10) then (1 # 10)%Q else orb_from_exact.

(** The orb limit used for one pair and one aspect type. *)
Definition max_orb_for (p1 p2 : Planet) (a : Aspect) : Q :=
  let max_orb := _calculate_moiety_based_orb p1 p2 a in
  if Py.Qeqb max_orb 0
  then
    let m0 := Aspect_orb cfg a in
    let m1 := if Planet_eqb SUN p1 || Planet_eqb SUN p2
              then (m0 + sun_orb_bonus cfg)%Q else m0 in
    if Planet_eqb MOON p1 || Planet_eqb MOON p2
    then (m1 + moon_orb_bonus cfg)%Q else m1
  else max_orb.

(** The inner loop [for aspect_type in Aspect: ... break]. *)
Fixpoint first_aspect_in_orb
  (p1 : Planet) (pos1 : PlanetPosition) (p2 : Planet) (pos2 : PlanetPosition)
  (angle_diff : Q) (types : list Aspect) : list AspectInfo :=
  match types with
  | [] => []
  | a :: rest =>
      let orb_diff := Py.Qabs' (angle_diff - Py.Qz (Aspect_degrees a)) in
      if Py.Qleb orb_diff (max_orb_for p1 p2 a)
      then [ {| planet1 := p1; planet2 := p2; ai_aspect := a;
                ai_orb := orb_diff;
                ai_applying := _is_applying_enhanced pos1 pos2 a;
                degrees_to_exact :=
                  _calculate_enhanced_degrees_to_exact pos1 pos2 a |} ]
      else first_aspect_in_orb p1 pos1 p2 pos2 angle_diff rest
  end.

Definition pair_aspects
  (p1 : Planet) (pos1 : PlanetPosition) (p2 : Planet) (pos2 : PlanetPosition)
  : list AspectInfo :=
  first_aspect_in_orb p1 pos1 p2 pos2
    (angular_separation (longitude pos1) (longitude pos2)) all_aspects.

(** [for planet2 in planet_list[i+1:]] *)
Fixpoint aspects_from
  (p1 : Planet) (pos1 : PlanetPosition) (later : Planets) : list AspectInfo :=
  match later with
  | [] => []
  | (p2, pos2) :: rest =>
      pair_aspects p1 pos1 p2 pos2 ++ aspects_from p1 pos1 rest
  end.

(** [_calculate_enhanced_aspects]; in a dict, [planets[k]] is the value stored
    with the key [k]. *)
Fixpoint _calculate_enhanced_aspects (ps : Planets) : list AspectInfo :=
  match ps with
  | [] => []
  | (p1, pos1) :: rest =>
      aspects_from p1 pos1 rest ++ _calculate_enhanced_aspects rest
  end.

End AspectEngine.

(** ** Void of course ([_is_moon_void_of_course_enhanced]) *)

(** The [void], [exception] entries of the dictionaries the void checks
    return; the reason text is left out. *)
Record VoidCheck : Type := mkVoidCheck {
  void : bool;
  exception : bool
}.

(** [_calculate_aspect_positions] *)
Definition _calculate_aspect_positions
  (planet_longitude : Q) (a : Aspect) (moon_sign : Sign) : list Q :=
  let deg := Py.Qz (Aspect_degrees a) in
  let aspect_positions :=
    [Py.Qmod (planet_longitude + deg) 360; Py.Qmod (planet_longitude - deg) 360] in
  let sign_start := Py.Qz (Sign_start_degree moon_sign) in
  let sign_end := Py.Qz ((Sign_start_degree moon_sign + 30) mod 360) in
  filter
    (fun pos =>
       let pos_normalized := Py.Qmod pos 360 in
       if Py.Qltb sign_start sign_end
       then Py.Qleb sign_start pos_normalized && Py.Qltb pos_normalized sign_end
       else Py.Qleb sign_start pos_normalized || Py.Qltb pos_normalized sign_end)
    aspect_positions.

Section VoidOfCourse.

Variable cfg : Config.

(** Whether one body contributes an entry to [future_aspects]. *)
Definition has_future_aspect_with
  (moon_pos planet_pos : PlanetPosition) : bool :=
  let moon_degree_in_sign := Py.Qmod (longitude moon_pos) 30 in
  let degrees_left_in_sign := (30 - moon_degree_in_sign)%Q in
  existsb
    (fun a =>
       existsb
         (fun target_position =>
            let target_degree_in_sign := Py.Qmod target_position 30 in
            Py.Qltb moon_degree_in_sign target_degree_in_sign
            && Py.Qltb (target_degree_in_sign - moon_degree_in_sign)
                       degrees_left_in_sign)
         (_calculate_aspect_positions (longitude planet_pos) a (sign moon_pos)))
    all_aspects.

Definition sign_exception (s : Sign) : bool :=
  match s with
  | CANCER => ve_cancer (void_exceptions cfg)
  | SAGITTARIUS => ve_sagittarius (void_exceptions cfg)
  | TAURUS => ve_taurus (void_exceptions cfg)
  | _ => false
  end.

(** [_void_by_sign_method] *)
Definition _void_by_sign_method (chart : HoraryChart) : option VoidCheck :=
  moon_pos <- planets_get (planets chart) MOON ;;
  if Py.Qltb (Py.Qabs' (speed moon_pos)) (stationary_speed_threshold cfg)
  then Some {| void := false; exception := false |}
  else
    let has_future_aspects :=
      existsb
        (fun kv => negb (Planet_eqb (fst kv) MOON)
                   && has_future_aspect_with moon_pos (snd kv))
        (planets chart) in
    Some {| void := negb has_future_aspects;
            exception := sign_exception (sign moon_pos) |}.

(** [_void_by_orb_method] *)
Definition _void_by_orb_method (chart : HoraryChart) : option VoidCheck :=
  moon_pos <- planets_get (planets chart) MOON ;;
  let within_orb :=
    existsb
      (fun kv =>
         negb (Planet_eqb (fst kv) MOON)
         && let separation :=
              angular_separation (longitude moon_pos) (longitude (snd kv)) in
            existsb
              (fun a =>
                 Py.Qleb (Py.Qabs' (separation - Py.Qz (Aspect_degrees a)))
                         (void_orb_deg cfg))
              all_aspects)
      (planets chart) in
  Some {| void := negb within_orb; exception := false |}.

Definition lilly_exceptions : list Sign := [CANCER; TAURUS; SAGITTARIUS; PISCES].

(** [_void_lilly_method] *)
Definition _void_lilly_method (chart : HoraryChart) : option VoidCheck :=
  moon_pos <- planets_get (planets chart) MOON ;;
  void_result <- _void_by_sign_method chart ;;
  Some {| void := void void_result;
          exception := existsb (Sign_eqb (sign moon_pos)) lilly_exceptions |}.

(** [_is_moon_void_of_course_enhanced] *)
Definition _is_moon_void_of_course_enhanced (chart : HoraryChart)
  : option VoidCheck :=
  moon_pos <- planets_get (planets chart) MOON ;;
  if String.eqb (void_rule cfg) "by_sign" then _void_by_sign_method chart
  else if String.eqb (void_rule cfg) "by_orb" then _void_by_orb_method chart
  else if String.eqb (void_rule cfg) "lilly" then _void_lilly_method chart
  else _void_by_sign_method chart.

End VoidOfCourse.

(** ** Confidence threshold ([_apply_confidence_threshold]) *)

(** Decimal rendering of an integer, for the f-strings. *)
Fixpoint digits_of (fuel : nat) (n : Z) (acc : string) : string :=
  match fuel with
  | O => acc
  | S f =>
      let d := String (ascii_of_nat (48 + Z.to_nat (n mod 10))) acc in
      if n / 10 =? 0 then d else digits_of f (n / 10) d
  end.

Definition str_of_Z (z : Z) : string :=
  if z <? 0
  then String "-" (digits_of (S (Z.to_nat (Z.log2 (- z)))) (- z) EmptyString)
  else digits_of (S (Z.to_nat (Z.log2 z))) z EmptyString.

(** [_apply_confidence_threshold]: returns the pair and the reasoning list
    after the call (the list is appended to in place). *)
Definition _apply_confidence_threshold
  (result : string) (confidence : Z) (reasoning : list string)
  : (string * Z) * list string :=
  if confidence <? 50 then
    if String.eqb result "YES" then
      if confidence <? 30 then
        (("NO"%string, Z.max confidence 20),
         reasoning ++ [("Very low confidence (" ++ str_of_Z confidence
                        ++ "%) - matter denied")%string])
      else
        (("INCONCLUSIVE"%string, confidence),
         reasoning ++ [("Low confidence (" ++ str_of_Z confidence
                        ++ "%) - matter uncertain")%string])
    else ((result, confidence), reasoning)
  else ((result, confidence), reasoning).

(** ** Question analyzer ([TraditionalHoraryQuestionAnalyzer])

    Question texts are ASCII strings: [str.lower], [re.IGNORECASE], [\w] and
    [\d] are modelled on the ASCII range. *)

Module Text.

Definition is_upper (c : ascii) : bool :=
  let n := nat_of_ascii c in (Nat.leb 65 n && Nat.leb n 90)%bool.

Definition lower_char (c : ascii) : ascii :=
  if is_upper c then ascii_of_nat (nat_of_ascii c + 32) else c.

(** [str.lower()] *)
Fixpoint lower (s : string) : string :=
  match s with
  | EmptyString => EmptyString
  | String c rest => String (lower_char c) (lower rest)
  end.

(** [pat in s] *)
Fixpoint str_in (pat s : string) : bool :=
  String.prefix pat s
  || match s with
     | EmptyString => false
     | String _ rest => str_in pat rest
     end.

Definition is_space (c : ascii) : bool :=
  let n := nat_of_ascii c in
  (Nat.eqb n 32 || (Nat.leb 9 n && Nat.leb n 13) || (Nat.leb 28 n && Nat.leb n 31))%bool.

Fixpoint lstrip (s : string) : string :=
  match s with
  | String c rest => if is_space c then lstrip rest else s
  | EmptyString => EmptyString
  end.

Fixpoint rev_string (s acc : string) : string :=
  match s with
  | EmptyString => acc
  | String c rest => rev_string rest (String c acc)
  end.

(** [str.strip()] *)
Definition strip (s : string) : string :=
  rev_string (lstrip (rev_string (lstrip s) EmptyString)) EmptyString.

Definition is_digit (c : ascii) : bool :=
  let n := nat_of_ascii c in (Nat.leb 48 n && Nat.leb n 57)%bool.

Definition is_lower (c : ascii) : bool :=
  let n := nat_of_ascii c in (Nat.leb 97 n && Nat.leb n 122)%bool.

(** [\w] *)
Definition is_word (c : ascii) : bool :=
  (is_digit c || is_upper c || is_lower c || Nat.eqb (nat_of_ascii c) 95)%bool.

(** The part of the engine's regular expressions that this file needs: a
    literal, or a literal followed by the group [(\w+ \d+)]. *)
Inductive Pattern : Type :=
| Literal (s : string)
| LiteralWordDigits (s : string).

(** [\w+ \d+] anchored at the head of [s]; [seen] tells whether a word
    character has been consumed.  A word run is followed by a space only at
    its end, so the greedy match is the only one. *)
Fixpoint word_space_digit (s : string) (seen : bool) : bool :=
  match s with
  | EmptyString => false
  | String c rest =>
      if is_word c then word_space_digit rest true
      else if (Nat.eqb (nat_of_ascii c) 32 && seen)%bool then
        match rest with
        | String d _ => is_digit d
        | EmptyString => false
        end
      else false
  end.

(** The pattern anchored at the head of a lower-cased subject. *)
Definition match_here (p : Pattern) (s : string) : bool :=
  match p with
  | Literal l => String.prefix (lower l) s
  | LiteralWordDigits l =>
      String.prefix (lower l) s
      && word_space_digit
           (String.substring (String.length l)
              (String.length s - String.length l) s) false
  end.

Fixpoint search_from (p : Pattern) (s : string) : bool :=
  match_here p s
  || match s with
     | EmptyString => false
     | String _ rest => search_from p rest
     end.

(** [re.search(pattern, question, re.IGNORECASE)], as a truth value. *)
Definition re_search_ignorecase (p : Pattern) (question : string) : bool :=
  search_from p (lower question).

End Text.

Module Calendar.

(** [datetime.datetime] *)
Record datetime : Type := mkdatetime {
  year : Z; month : Z; day : Z;
  hour : Z; minute : Z; second : Z; microsecond : Z
}.

(** Day number of a civil date (day 0 is 1970-01-01). *)
Definition days_from_civil (y m d : Z) : Z :=
  let y' := if m <=? 2 then y - 1 else y in
  let era := y' / 400 in
  let yoe := y' - era * 400 in
  let doy := (153 * (if 2 <? m then m - 3 else m + 9) + 2) / 5 + d - 1 in
  let doe := yoe * 365 + yoe / 4 - yoe / 100 + doy in
  era * 146097 + doe - 719468.

Definition civil_from_days (z : Z) : Z * Z * Z :=
  let z' := z + 719468 in
  let era := z' / 146097 in
  let doe := z' - era * 146097 in
  let yoe := (doe - doe / 1460 + doe / 36524 - doe / 146096) / 365 in
  let y := yoe + era * 400 in
  let doy := doe - (365 * yoe + yoe / 4 - yoe / 100) in
  let mp := (5 * doy + 2) / 153 in
  let d := doy - (153 * mp + 2) / 5 + 1 in
  let m := if mp <? 10 then mp + 3 else mp - 9 in
  (if m <=? 2 then y + 1 else y, m, d).

(** A midnight [datetime(y, m, d)]; years outside 1..9999 raise. *)
Definition at_midnight (y m d : Z) : option datetime :=
  if (1 <=? y) && (y <=? 9999)
  then Some (mkdatetime y m d 0 0 0 0) else None.

(** [dt + timedelta(days=n)]; a result outside years 1..9999 raises. *)
Definition add_days (dt : datetime) (n : Z) : option datetime :=
  let '(y, m, d) :=
    civil_from_days (days_from_civil (year dt) (month dt) (day dt) + n) in
  if (1 <=? y) && (y <=? 9999)
  then Some (mkdatetime y m d (hour dt) (minute dt) (second dt) (microsecond dt))
  else None.

(** [dt.weekday()]: Monday is 0. *)
Definition weekday (dt : datetime) : Z :=
  (days_from_civil (year dt) (month dt) (day dt) + 3) mod 7.

End Calendar.

Module QuestionAnalyzer.

Import Text Calendar.

(** The dictionary [_detect_third_person_question] returns. *)
Record ThirdPerson : Type := mkThirdPerson {
  is_third_person : bool;
  subject_house : option Z;
  turn_houses : option bool;
  pattern_matched : option string;
  educational_context : bool
}.

Definition third_person_patterns : list string :=
  ["will he "; "will she "; "will they "; "did he "; "did she "; "has he ";
   "has she "; "does he "; "does she "; "can he "; "can she "; "should he ";
   "should she ";
   " his "; " her "; " their ";
   "the student"; "my student"; "the teacher"; "my friend"; "my partner";
   "my husband"; "my wife"; "my child"; "my son"; "my daughter";
   "the patient"; "my client";
   "asked by his"; "asked by her"; "asked by the"]%string.

Definition teacher_phrases : list string :=
  ["asked by his teacher"; "asked by her teacher"; "asked by the teacher"]%string.

(** [_detect_third_person_question] *)
Definition _detect_third_person_question (question : string) : ThirdPerson :=
  match find (fun pat => str_in pat question) third_person_patterns with
  | Some pat =>
      {| is_third_person := true; subject_house := Some 7;
         turn_houses := Some true; pattern_matched := Some (strip pat);
         educational_context := false |}
  | None =>
      if existsb (fun x => str_in x question) teacher_phrases
      then {| is_third_person := true; subject_house := Some 7;
              turn_houses := Some true;
              pattern_matched := Some "teacher asking about student"%string;
              educational_context := true |}
      else {| is_third_person := false; subject_house := None;
              turn_houses := None; pattern_matched := None;
              educational_context := false |}
  end.

(** The dictionary [_parse_question_timeframe] returns. *)
Record Timeframe : Type := mkTimeframe {
  has_timeframe : bool;
  tf_type : option string;
  end_date : option datetime;
  patterns_matched : list string
}.

(** [timeframe_patterns], in insertion order. *)
Definition timeframe_patterns : list (string * list Pattern) :=
  [ ("this_month", [Literal "this month"; Literal "by the end of this month";
                    Literal "within this month"]);
    ("next_month", [Literal "next month"; Literal "by next month"]);
    ("this_year", [Literal "this year"; Literal "by the end of this year";
                   Literal "within this year"]);
    ("this_week", [Literal "this week"; Literal "by the end of this week";
                   Literal "within this week"]);
    ("today", [Literal "today"; Literal "by today";
               Literal "by the end of today"]);
    ("soon", [Literal "soon"; Literal "quickly"; Literal "fast"]);
    ("by_date", [LiteralWordDigits "by "; LiteralWordDigits "before "])
  ]%string.

Definition detected_timeframes (question : string) : list string :=
  map fst
    (filter
       (fun entry => existsb (fun p => re_search_ignorecase p question) (snd entry))
       timeframe_patterns).

Definition str_mem (s : string) (l : list string) : bool :=
  existsb (String.eqb s) l.

(** [_parse_question_timeframe], with [datetime.now()] as [now]. *)
Definition _parse_question_timeframe (question : string) (now : datetime)
  : option Timeframe :=
  let detected := detected_timeframes question in
  match detected with
  | [] => Some {| has_timeframe := false; tf_type := None; end_date := None;
                  patterns_matched := [] |}
  | first :: _ =>
      end_date <-
        (if str_mem "this_month" detected then
           d1 <- (if month now =? 12 then at_midnight (year now + 1) 1 1
                  else at_midnight (year now) (month now + 1) 1) ;;
           d <- add_days d1 (-1) ;;
           Some (Some d)
         else if str_mem "this_week" detected then
           d <- add_days now ((6 - weekday now) mod 7) ;;
           Some (Some d)
         else if str_mem "today" detected then
           Some (Some (mkdatetime (year now) (month now) (day now)
                                  23 59 59 (microsecond now)))
         else Some None) ;;
      Some {| has_timeframe := true; tf_type := Some first;
              end_date := end_date; patterns_matched := detected |}
  end.

(** The two entries of [analyze_question]'s result that the properties below
    are about: both analyses run on the lower-cased question. *)
Definition third_person_analysis (question : string) : ThirdPerson :=
  _detect_third_person_question (lower question).

Definition timeframe_analysis (question : string) (now : datetime)
  : option Timeframe :=
  _parse_question_timeframe (lower question) now.

End QuestionAnalyzer.

(** ** Dynamically typed comparisons

    Some comparisons in the engine put an enum member on one side and a
    string on the other.  Python compares enum members by identity, so such a
    comparison is false whatever the values. *)

Inductive PyVal : Type :=
| PyAspect (a : Aspect)
| PyPlanet (p : Planet)
| PySolarCondition (c : SolarCondition)
| PyStr (s : string).

(** [x == y] *)
Definition py_eq (x y : PyVal) : bool :=
  match x, y with
  | PyAspect a, PyAspect b => Aspect_eqb a b
  | PyPlanet p, PyPlanet q => Planet_eqb p q
  | PySolarCondition c, PySolarCondition d => SolarCondition_eqb c d
  | PyStr s, PyStr t => String.eqb s t
  | _, _ => false
  end.

(** [x in l] *)
Definition py_in (x : PyVal) (l : list PyVal) : bool := existsb (py_eq x) l.

Definition hard_aspect_names : list PyVal := [PyStr "Square"; PyStr "Opposition"].

(** [pos.solar_condition]: [PlanetPosition] declares no such attribute and the
    engine never sets one, so the read has no value. *)
Definition solar_condition_attr (pos : PlanetPosition) : option SolarAnalysis :=
  None.

(** [hasattr(pos, 'solar_condition') and
     pos.solar_condition.condition == "Combustion"] *)
Definition attr_says_combustion (pos : PlanetPosition) : bool :=
  hasattr_PlanetPosition "solar_condition"
  && match solar_condition_attr pos with
     | Some sa => py_eq (PySolarCondition (sa_condition sa)) (PyStr "Combustion")
     | None => false
     end.

(** [int(x)] on a float: truncation toward zero. *)
Definition int_of_Q (x : Q) : Z :=
  if Py.Qltb x 0 then Qceiling x else Qfloor x.

(** ** Perfection detector *)

(** The dictionary [_find_applying_aspect] returns. *)
Record AspectDict : Type := mkAspectDict {
  ad_aspect : Aspect;
  ad_orb : Q;
  ad_degrees_to_exact : Q
}.

Definition is_pair (a : AspectInfo) (p q : Planet) : bool :=
  (Planet_eqb (planet1 a) p && Planet_eqb (planet2 a) q)
  || (Planet_eqb (planet1 a) q && Planet_eqb (planet2 a) p).

(** [_find_applying_aspect] *)
Definition _find_applying_aspect (chart : HoraryChart) (p q : Planet)
  : option AspectDict :=
  match find (fun a => is_pair a p q && ai_applying a) (aspects chart) with
  | Some a => Some {| ad_aspect := ai_aspect a; ad_orb := ai_orb a;
                      ad_degrees_to_exact := degrees_to_exact a |}
  | None => None
  end.

(** [_find_separating_aspect] *)
Definition _find_separating_aspect (chart : HoraryChart) (p q : Planet)
  : option Aspect :=
  match find (fun a => is_pair a p q && negb (ai_applying a)) (aspects chart) with
  | Some a => Some (ai_aspect a)
  | None => None
  end.

(** [_get_planet_moiety] *)
Definition _get_planet_moiety (p : Planet) : Q :=
  match p with
  | SUN => 17 | MOON => 25 # 2 | MERCURY => 7 | VENUS => 8
  | MARS => 15 # 2 | JUPITER => 9 | SATURN => 19 # 2
  | ASC | MC => 8
  end.

(** [_is_aspect_within_orb_limits]; looking the two bodies up may raise. *)
Definition _is_aspect_within_orb_limits (chart : HoraryChart) (a : AspectInfo)
  : option bool :=
  pos1 <- planets_get (planets chart) (planet1 a) ;;
  pos2 <- planets_get (planets chart) (planet2 a) ;;
  Some (Py.Qleb (ai_orb a)
          (_get_planet_moiety (planet1 a) + _get_planet_moiety (planet2 a))%Q).

(** [_validate_translation_sequence_timing] *)
Definition _validate_translation_sequence_timing
  (separating_aspect applying_aspect : AspectInfo) : bool :=
  if ai_applying separating_aspect || negb (ai_applying applying_aspect)
  then false
  else if Py.Qltb 10 (degrees_to_exact separating_aspect) then false
  else if Py.Qltb 15 (degrees_to_exact applying_aspect) then false
  else true.

(** The test [other_planet == a.planet2 if a.planet1 == translator else
    a.planet1] of [_check_intervening_aspects]: the conditional expression
    binds weaker than [==], and an enum member is true. *)
Definition skip_known (translator other_planet : Planet) (a : AspectInfo) : bool :=
  if Planet_eqb (planet1 a) translator
  then Planet_eqb other_planet (planet2 a)
  else true.

(** [_check_intervening_aspects], as "the returned list is non-empty". *)
Definition _check_intervening_aspects
  (chart : HoraryChart) (translator : Planet)
  (separating_aspect applying_aspect : AspectInfo) : option bool :=
  translator_pos <- planets_get (planets chart) translator ;;
  let translator_aspects :=
    filter
      (fun a =>
         (Planet_eqb (planet1 a) translator || Planet_eqb (planet2 a) translator)
         && let other_planet :=
              if Planet_eqb (planet1 a) translator then planet2 a else planet1 a in
            negb (skip_known translator other_planet separating_aspect)
            && negb (skip_known translator other_planet applying_aspect))
      (aspects chart) in
  Some (existsb
          (fun a => ai_applying a
                    && Py.Qltb (degrees_to_exact a) (degrees_to_exact applying_aspect))
          translator_aspects).

(** The entries of a found translation that the judgment reads. *)
Record Translation : Type := mkTranslation {
  translator : Planet;
  tr_favorable : bool;
  tr_confidence : Z;
  combustion_penalty : Z
}.

(** The aspect scan of [_check_enhanced_translation_of_light]: the last aspect
    of the translator with each significator, among those within orb. *)
Fixpoint scan_translator_aspects
  (chart : HoraryChart) (t querent quesited : Planet) (l : list AspectInfo)
  (qa qsa : option AspectInfo) : option (option AspectInfo * option AspectInfo) :=
  match l with
  | [] => Some (qa, qsa)
  | a :: rest =>
      ok <- _is_aspect_within_orb_limits chart a ;;
      if negb ok then scan_translator_aspects chart t querent quesited rest qa qsa
      else if is_pair a t querent
      then scan_translator_aspects chart t querent quesited rest (Some a) qsa
      else if is_pair a t quesited
      then scan_translator_aspects chart t querent quesited rest qa (Some a)
      else scan_translator_aspects chart t querent quesited rest qa qsa
  end.

Section Perfection.

Variable cfg : Config.
Variable days_to_sign_exit : Q -> Q -> option Q.

(** One candidate translator: [Some None] is [continue]. *)
Definition translation_by
  (chart : HoraryChart) (querent quesited : Planet)
  (t : Planet) (pos : PlanetPosition) : option (option Translation) :=
  if Planet_eqb t querent || Planet_eqb t quesited then Some None else
  querent_pos <- planets_get (planets chart) querent ;;
  quesited_pos <- planets_get (planets chart) quesited ;;
  if require_speed_advantage cfg
     && negb (Py.Qltb (Py.Qabs' (speed querent_pos)) (Py.Qabs' (speed pos))
              && Py.Qltb (Py.Qabs' (speed quesited_pos)) (Py.Qabs' (speed pos)))
  then Some None else
  found <- scan_translator_aspects chart t querent quesited (aspects chart)
             None None ;;
  match found with
  | (Some querent_aspect, Some quesited_aspect) =>
      let sequence :=
        if negb (ai_applying querent_aspect) && ai_applying quesited_aspect
        then if _validate_translation_sequence_timing querent_aspect quesited_aspect
             then Some (querent_aspect, quesited_aspect) else None
        else if negb (ai_applying quesited_aspect) && ai_applying querent_aspect
        then if _validate_translation_sequence_timing quesited_aspect querent_aspect
             then Some (quesited_aspect, querent_aspect) else None
        else None in
      match sequence with
      | None => Some None
      | Some (separating_aspect, applying_aspect) =>
          intervening <-
            (if require_proper_sequence cfg
             then _check_intervening_aspects chart t separating_aspect applying_aspect
             else Some false) ;;
          if intervening then Some None else
          reception_querent_data <-
            Reception.calculate_comprehensive_reception chart t querent ;;
          reception_quesited_data <-
            Reception.calculate_comprehensive_reception chart t quesited ;;
          let reception_with_querent :=
            negb (Reception.ReceptionType_eqb
                    (Reception.rc_type reception_querent_data) Reception.none) in
          let reception_with_quesited :=
            negb (Reception.ReceptionType_eqb
                    (Reception.rc_type reception_quesited_data) Reception.none) in
          let reception_bonus :=
            if reception_with_querent || reception_with_quesited then 10 else 0 in
          let confidence0 := 65 + reception_bonus in
          let combustion_penalty := if attr_says_combustion pos then 15 else 0 in
          let confidence1 := confidence0 - combustion_penalty in
          let hard :=
            py_in (PyAspect (ai_aspect querent_aspect)) hard_aspect_names
            || py_in (PyAspect (ai_aspect quesited_aspect)) hard_aspect_names in
          let favorable := negb hard in
          let confidence2 := if hard then confidence1 - 5 else confidence1 in
          Some (Some {| translator := t;
                        tr_favorable := favorable;
                        tr_confidence := Z.min 95 (Z.max 35 confidence2);
                        combustion_penalty := combustion_penalty |})
      end
  | _ => Some None
  end.

Fixpoint translation_loop
  (chart : HoraryChart) (querent quesited : Planet) (ps : Planets)
  : option (option Translation) :=
  match ps with
  | [] => Some None
  | (t, pos) :: rest =>
      r <- translation_by chart querent quesited t pos ;;
      match r with
      | Some tr => Some (Some tr)
      | None => translation_loop chart querent quesited rest
      end
  end.

(** [_check_enhanced_translation_of_light]: [Some None] is [{"found": False}]. *)
Definition _check_enhanced_translation_of_light
  (chart : HoraryChart) (querent quesited : Planet) : option (option Translation) :=
  translation_loop chart querent quesited (planets chart).

(** [_days_to_aspect_perfection]; [None] is [float('inf')]. *)
Definition _days_to_aspect_perfection
  (pos1 pos2 : PlanetPosition) (aspect_info : AspectDict) : option Q :=
  let relative_speed := Py.Qabs' (speed pos1 - speed pos2) in
  if Py.Qltb 0 relative_speed
  then Some (ad_degrees_to_exact aspect_info / relative_speed)%Q else None.

(** [_check_dignified_reception] *)
Definition _check_dignified_reception
  (chart : HoraryChart) (receiving_planet received_planet : Planet) : option bool :=
  reception_data <-
    Reception.calculate_comprehensive_reception chart receiving_planet received_planet ;;
  Some (Reception.nonempty (Reception.planet1_receives_planet2 reception_data)).

(** The entries of a found collection that the judgment reads. *)
Record Collection : Type := mkCollection {
  collector : Planet;
  co_favorable : bool
}.

(** One candidate collector.  A candidate that passes every requirement
    reaches [aspects_from_querent["aspect"].aspect]: the dictionary entry is
    an [Aspect] member, which has no attribute [aspect], so the read raises
    [AttributeError]. *)
Definition collection_by
  (chart : HoraryChart) (querent quesited : Planet)
  (c : Planet) (pos : PlanetPosition) : option (option Collection) :=
  if Planet_eqb c querent || Planet_eqb c quesited then Some None else
  querent_pos <- planets_get (planets chart) querent ;;
  quesited_pos <- planets_get (planets chart) quesited ;;
  if negb (Py.Qltb (Py.Qabs' (speed pos)) (Py.Qabs' (speed querent_pos))
           && Py.Qltb (Py.Qabs' (speed pos)) (Py.Qabs' (speed quesited_pos)))
  then Some None else
  match _find_applying_aspect chart querent c,
        _find_applying_aspect chart quesited c with
  | Some aspects_from_querent, Some aspects_from_quesited =>
      querent_receives_collector <- _check_dignified_reception chart querent c ;;
      quesited_receives_collector <- _check_dignified_reception chart quesited c ;;
      if negb (querent_receives_collector && quesited_receives_collector)
      then Some None else
      let querent_days_to_sign :=
        days_to_sign_exit (longitude querent_pos) (speed querent_pos) in
      let quesited_days_to_sign :=
        days_to_sign_exit (longitude quesited_pos) (speed quesited_pos) in
      let querent_collection_days :=
        _days_to_aspect_perfection querent_pos pos aspects_from_querent in
      let quesited_collection_days :=
        _days_to_aspect_perfection quesited_pos pos aspects_from_quesited in
      let late (exit : option Q) (days : option Q) :=
        truthy exit
        && match exit with Some d => inf_gtb days d | None => false end in
      if late querent_days_to_sign querent_collection_days
         || late quesited_days_to_sign quesited_collection_days
      then Some None
      else None
  | _, _ => Some None
  end.

Fixpoint collection_loop
  (chart : HoraryChart) (querent quesited : Planet) (ps : Planets)
  : option (option Collection) :=
  match ps with
  | [] => Some None
  | (c, pos) :: rest =>
      r <- collection_by chart querent quesited c pos ;;
      match r with
      | Some co => Some (Some co)
      | None => collection_loop chart querent quesited rest
      end
  end.

(** [_check_enhanced_collection_of_light] *)
Definition _check_enhanced_collection_of_light
  (chart : HoraryChart) (querent quesited : Planet) : option (option Collection) :=
  collection_loop chart querent quesited (planets chart).

(** [_enhanced_perfects_in_sign] *)
Definition _enhanced_perfects_in_sign
  (pos1 pos2 : PlanetPosition) (aspect_info : AspectDict) : bool :=
  let days_to_exit_1 := days_to_sign_exit (longitude pos1) (speed pos1) in
  let days_to_exit_2 := days_to_sign_exit (longitude pos2) (speed pos2) in
  let relative_speed := Py.Qabs' (speed pos1 - speed pos2) in
  if Py.Qeqb relative_speed 0 then false else
  let days_to_perfect := (ad_degrees_to_exact aspect_info / relative_speed)%Q in
  if truthy days_to_exit_1
     && match days_to_exit_1 with
        | Some d => Py.Qltb d days_to_perfect | None => false end
  then false
  else if truthy days_to_exit_2
          && match days_to_exit_2 with
             | Some d => Py.Qltb d days_to_perfect | None => false end
  then false
  else true.

(** [_check_enhanced_mutual_reception] and
    [_detect_reception_between_planets] *)
Definition _detect_reception_between_planets
  (chart : HoraryChart) (p q : Planet) : option Reception.ReceptionType :=
  reception_data <- Reception.calculate_comprehensive_reception chart p q ;;
  Some (Reception.rc_type reception_data).

Definition cadent_houses : list Z := [3; 6; 9; 12].

Definition is_mutual (r : Reception.ReceptionType) : bool :=
  match r with
  | Reception.mutual_rulership | Reception.mutual_exaltation
  | Reception.mixed_reception => true
  | _ => false
  end.

Definition base_favorable (a : Aspect) : bool :=
  match a with
  | CONJUNCTION | SEXTILE | TRINE => true
  | SQUARE | OPPOSITION => false
  end.

(** [_is_aspect_favorable_enhanced] *)
Definition _is_aspect_favorable_enhanced
  (a : Aspect) (reception : Reception.ReceptionType)
  (chart : HoraryChart) (querent quesited : Planet) : option bool :=
  if is_mutual reception then Some true else
  querent_pos <- planets_get (planets chart) querent ;;
  quesited_pos <- planets_get (planets chart) quesited ;;
  let querent_cadent := Reception.Z_in (house querent_pos) cadent_houses in
  let quesited_cadent := Reception.Z_in (house quesited_pos) cadent_houses in
  let querent_weak := dignity_score querent_pos <? -5 in
  let quesited_weak := dignity_score quesited_pos <? -5 in
  let needs_reception :=
    querent_cadent || quesited_cadent || querent_weak || quesited_weak in
  if needs_reception
     && Reception.ReceptionType_eqb reception Reception.none
     && match a with
        | SEXTILE => true
        | SQUARE | OPPOSITION => true
        | CONJUNCTION => querent_weak || quesited_weak
        | TRINE => false
        end
  then Some false
  else Some (base_favorable a).

(** The dictionary [_check_enhanced_perfection] returns; an entry the
    dictionary lacks is [None]. *)
Record PerfectionResult : Type := mkPerfectionResult {
  perfects : bool;
  pf_type : option string;
  pf_favorable : option bool;
  pf_confidence : option Z;
  pf_reception : option Reception.ReceptionType;
  pf_aspect : option AspectDict
}.

Definition no_perfection : PerfectionResult :=
  {| perfects := false; pf_type := None; pf_favorable := None;
     pf_confidence := None; pf_reception := None; pf_aspect := None |}.

(** The test that guards the combustion denial in
    [_check_enhanced_perfection]. *)
Definition is_combustion_conjunction
  (chart : HoraryChart) (querent quesited : Planet) (direct_aspect : AspectDict)
  : option bool :=
  if Aspect_eqb (ad_aspect direct_aspect) CONJUNCTION then
    let other_planet :=
      if Planet_eqb querent SUN then Some quesited
      else if Planet_eqb quesited SUN then Some querent
      else None in
    match other_planet with
    | Some other =>
        other_pos <- planets_get (planets chart) other ;;
        Some (attr_says_combustion other_pos)
    | None => Some false
    end
  else Some false.

(** [_check_enhanced_perfection] *)
Definition _check_enhanced_perfection
  (chart : HoraryChart) (querent quesited : Planet)
  (exaltation_confidence_boost : Q) : option PerfectionResult :=
  querent_pos <- planets_get (planets chart) querent ;;
  quesited_pos <- planets_get (planets chart) quesited ;;
  let reception_only_step :=
    reception <- _detect_reception_between_planets chart querent quesited ;;
    match reception with
    | Reception.mutual_rulership =>
        Some {| perfects := true; pf_type := Some "reception"%string;
                pf_favorable := Some true;
                pf_confidence := Some (reception_only cfg);
                pf_reception := Some reception; pf_aspect := None |}
    | Reception.mutual_exaltation =>
        Some {| perfects := true; pf_type := Some "reception"%string;
                pf_favorable := Some true;
                pf_confidence :=
                  Some (int_of_Q
                          (Py.Qmin' 100
                             (Py.Qz (reception_only cfg)
                              + exaltation_confidence_boost)%Q));
                pf_reception := Some reception; pf_aspect := None |}
    | _ => Some no_perfection
    end in
  match _find_applying_aspect chart querent quesited with
  | Some direct_aspect =>
      combust <- is_combustion_conjunction chart querent quesited direct_aspect ;;
      if combust then
        reception <- _detect_reception_between_planets chart querent quesited ;;
        Some {| perfects := false; pf_type := Some "combustion_denial"%string;
                pf_favorable := Some false; pf_confidence := Some 85;
                pf_reception := Some reception;
                pf_aspect := Some direct_aspect |}
      else if _enhanced_perfects_in_sign querent_pos quesited_pos direct_aspect
      then
        reception <- _detect_reception_between_planets chart querent quesited ;;
        match reception with
        | Reception.mutual_rulership =>
            Some {| perfects := true; pf_type := Some "direct"%string;
                    pf_favorable := Some true;
                    pf_confidence := Some (direct_with_mutual_rulership cfg);
                    pf_reception := Some reception;
                    pf_aspect := Some direct_aspect |}
        | Reception.mutual_exaltation =>
            Some {| perfects := true; pf_type := Some "direct"%string;
                    pf_favorable := Some true;
                    pf_confidence :=
                      Some (int_of_Q
                              (Py.Qmin' 100
                                 (Py.Qz (direct_with_mutual_exaltation cfg)
                                  + exaltation_confidence_boost)%Q));
                    pf_reception := Some reception;
                    pf_aspect := Some direct_aspect |}
        | _ =>
            favorable <-
              _is_aspect_favorable_enhanced (ad_aspect direct_aspect) reception
                chart querent quesited ;;
            Some {| perfects := favorable;
                    pf_type := Some (if favorable then "direct"
                                     else "direct_denied")%string;
                    pf_favorable := Some favorable;
                    pf_confidence := Some (if favorable then direct_basic cfg else 75);
                    pf_reception := Some reception;
                    pf_aspect := Some direct_aspect |}
        end
      else reception_only_step
  | None =>
      translation <- _check_enhanced_translation_of_light chart querent quesited ;;
      match translation with
      | Some tr =>
          Some {| perfects := true; pf_type := Some "translation"%string;
                  pf_favorable := Some (tr_favorable tr);
                  pf_confidence := Some (translation_of_light cfg);
                  pf_reception := None; pf_aspect := None |}
      | None =>
          collection <- _check_enhanced_collection_of_light chart querent quesited ;;
          match collection with
          | Some co =>
              Some {| perfects := true; pf_type := Some "collection"%string;
                      pf_favorable := Some (co_favorable co);
                      pf_confidence := Some (collection_of_light cfg);
                      pf_reception := None; pf_aspect := None |}
          | None => reception_only_step
          end
      end
  end.

(** ** Judgment composer ([_apply_enhanced_judgment]) *)

(** The [significators] entry of a question analysis; a missing key is
    [None] (or [false] for the flags read with [.get]). *)
Record SignificatorInfo : Type := mkSignificatorInfo {
  si_transaction_type : bool;
  si_quesited_house : option Z;
  si_special_significators : list (string * string);
  si_third_person_education : bool;
  si_student_house : option Z;
  si_success_house : option Z
}.

Record QuestionAnalysis : Type := mkQuestionAnalysis {
  question_type : option string;
  significators : SignificatorInfo
}.

(** The dictionary [_identify_significators] returns when [valid]. *)
Record Significators : Type := mkSignificators {
  sg_querent : Planet;
  sg_quesited : Planet;
  sg_item_significator : option Planet;
  sg_transaction_type : bool;
  sg_same_ruler : option Planet;
  sg_third_person_education : bool;
  sg_student : option Planet
}.

Inductive SignificatorsResult : Type :=
| SigInvalid
| SigValid (s : Significators).

(** [getattr(Planet, planet_name.upper())] *)
Definition upper_char (c : ascii) : ascii :=
  if Text.is_lower c then ascii_of_nat (nat_of_ascii c - 32) else c.

Fixpoint upper (s : string) : string :=
  match s with
  | EmptyString => EmptyString
  | String c rest => String (upper_char c) (upper rest)
  end.

Definition planet_member_names : list (string * Planet) :=
  [("SUN", SUN); ("MOON", MOON); ("MERCURY", MERCURY); ("VENUS", VENUS);
   ("MARS", MARS); ("JUPITER", JUPITER); ("SATURN", SATURN);
   ("ASC", ASC); ("MC", MC)]%string.

Definition planet_of_name (planet_name : string) : option Planet :=
  match find (fun kv => String.eqb (fst kv) (upper planet_name)) planet_member_names with
  | Some kv => Some (snd kv)
  | None => None
  end.

Fixpoint first_item_significator (natural_sigs : list (string * string))
  : option Planet :=
  match natural_sigs with
  | [] => None
  | (item, planet_name) :: rest =>
      if negb (String.eqb item "category")
         && negb (String.eqb item "traditional_source")
      then match planet_of_name planet_name with
           | Some p => Some p
           | None => first_item_significator rest
           end
      else first_item_significator rest
  end.

(** [_identify_significators].  In the transaction branch, when no item
    significator is found the function falls off its end and returns [None];
    every caller subscripts the result, which raises. *)
Definition _identify_significators
  (chart : HoraryChart) (question_analysis : QuestionAnalysis)
  : option SignificatorsResult :=
  let querent_ruler := house_rulers_get (house_rulers chart) 1 in
  let significator_info := significators question_analysis in
  if si_transaction_type significator_info then
    quesited_house <- si_quesited_house significator_info ;;
    match querent_ruler, house_rulers_get (house_rulers chart) quesited_house with
    | Some qr, Some qsr =>
        match first_item_significator (si_special_significators significator_info) with
        | Some item =>
            Some (SigValid {| sg_querent := qr; sg_quesited := qsr;
                              sg_item_significator := Some item;
                              sg_transaction_type := true;
                              sg_same_ruler := None;
                              sg_third_person_education := false;
                              sg_student := None |})
        | None => None
        end
    | _, _ => Some SigInvalid
    end
  else if si_third_person_education significator_info then
    let student_house :=
      match si_student_house significator_info with Some h => h | None => 7 end in
    let success_house :=
      match si_success_house significator_info with Some h => h | None => 10 end in
    match querent_ruler,
          house_rulers_get (house_rulers chart) student_house,
          house_rulers_get (house_rulers chart) success_house with
    | Some qr, Some student_ruler, Some success_ruler =>
        Some (SigValid {| sg_querent := qr; sg_quesited := success_ruler;
                          sg_item_significator := None;
                          sg_transaction_type := false;
                          sg_same_ruler := None;
                          sg_third_person_education := true;
                          sg_student := Some student_ruler |})
    | _, _, _ => Some SigInvalid
    end
  else
    quesited_house <- si_quesited_house significator_info ;;
    match querent_ruler, house_rulers_get (house_rulers chart) quesited_house with
    | Some qr, Some qsr =>
        Some (SigValid {| sg_querent := qr; sg_quesited := qsr;
                          sg_item_significator := None;
                          sg_transaction_type := false;
                          sg_same_ruler :=
                            if Planet_eqb qr qsr then Some qr else None;
                          sg_third_person_education := false;
                          sg_student := None |})
    | _, _ => Some SigInvalid
    end.

(** [_check_enhanced_radicality], as its [valid] entry. *)
Definition _check_enhanced_radicality
  (chart : HoraryChart) (ignore_saturn_7th : bool) : option bool :=
  let asc_degree := Py.Qmod (ascendant chart) 30 in
  if Py.Qltb asc_degree (asc_too_early cfg) then Some false
  else if Py.Qltb (asc_too_late cfg) asc_degree then Some false
  else
    saturn_ok <-
      (if saturn_7th_enabled cfg && negb ignore_saturn_7th then
         saturn_pos <- planets_get (planets chart) SATURN ;;
         Some (negb (house saturn_pos =? 7))
       else Some true) ;;
    if negb saturn_ok then Some false
    else if via_combusta_enabled cfg then
      moon_pos <- planets_get (planets chart) MOON ;;
      let moon_degree_in_sign := Py.Qmod (longitude moon_pos) 30 in
      if (Sign_eqb (sign moon_pos) LIBRA
          && Py.Qltb (libra_start cfg) moon_degree_in_sign)
         || (Sign_eqb (sign moon_pos) SCORPIO
             && Py.Qleb moon_degree_in_sign (scorpio_end cfg))
      then Some false
      else Some true
    else Some true.

(** [TraditionalOverrides.check_moon_translation_clean], as its [clean]
    entry: the last Moon aspect with each significator is the one tested. *)
Fixpoint moon_aspects_scan
  (querent quesited : Planet) (l : list AspectInfo)
  (mq mqs : option AspectInfo) : option AspectInfo * option AspectInfo :=
  match l with
  | [] => (mq, mqs)
  | a :: rest =>
      if is_pair a MOON querent
      then moon_aspects_scan querent quesited rest (Some a) mqs
      else if is_pair a MOON quesited
      then moon_aspects_scan querent quesited rest mq (Some a)
      else moon_aspects_scan querent quesited rest mq mqs
  end.

Definition check_moon_translation_clean
  (chart : HoraryChart) (querent quesited : Planet) : option bool :=
  moon_pos <- planets_get (planets chart) MOON ;;
  match moon_aspects_scan querent quesited (aspects chart) None None with
  | (Some moon_to_querent, Some moon_to_quesited) =>
      Some (ai_applying moon_to_querent && ai_applying moon_to_quesited
            && (0 <=? dignity_score moon_pos))
  | _ => Some false
  end.

(** [TraditionalOverrides.check_void_moon_overrides], as [can_override]. *)
Definition check_void_moon_overrides
  (chart : HoraryChart) (question_analysis : QuestionAnalysis) : option bool :=
  sig <- _identify_significators chart question_analysis ;;
  match sig with
  | SigInvalid => Some false
  | SigValid s => check_moon_translation_clean chart (sg_querent s) (sg_quesited s)
  end.

(** [round(x, 4)] *)
Definition round_half_even (x : Q) : Z :=
  let f := Qfloor x in
  let r := (x - inject_Z f)%Q in
  if Py.Qltb r (1 # 2) then f
  else if Py.Qltb (1 # 2) r then f + 1
  else if Z.even f then f else f + 1.

Definition round4 (x : Q) : Q := (inject_Z (round_half_even (x * 10000)) / 10000)%Q.

(** The entries of [_analyze_enhanced_solar_factors]'s result that the
    judgment reads.  [detailed_analyses] maps a planet's name to its name, its
    rounded distance from the Sun and its condition name. *)
Record SolarFactors : Type := mkSolarFactors {
  significant : bool;
  cazimi_count : Z;
  combustion_count : Z;
  detailed_analyses : list (string * (string * Q * string))
}.

Definition count_if {A : Type} (f : A -> bool) (l : list A) : Z :=
  Z.of_nat (List.length (filter f l)).

(** [_analyze_enhanced_solar_factors]; a chart without solar analyses holds
    [None], on which [.items()] raises. *)
Definition _analyze_enhanced_solar_factors
  (analyses : option (list (Planet * SolarAnalysis))) (ignore_combustion : bool)
  : option SolarFactors :=
  solar_analyses <- analyses ;;
  let has_condition c := fun kv : Planet * SolarAnalysis =>
                SolarCondition_eqb (sa_condition (snd kv)) c in
  let cazimi_planets := filter (has_condition CAZIMI) solar_analyses in
  let combusted_planets :=
    filter (fun kv => has_condition COMBUSTION kv && negb ignore_combustion) solar_analyses in
  let under_beams_planets :=
    filter (fun kv => has_condition UNDER_BEAMS kv && negb ignore_combustion) solar_analyses in
  Some {| significant :=
            Reception.nonempty cazimi_planets
            || Reception.nonempty combusted_planets
            || Reception.nonempty under_beams_planets;
          cazimi_count := Z.of_nat (List.length cazimi_planets);
          combustion_count :=
            if ignore_combustion then 0
            else Z.of_nat (List.length combusted_planets);
          detailed_analyses :=
            map (fun kv : Planet * SolarAnalysis =>
                   (Planet_value (fst kv),
                    (Planet_value (fst kv),
                     round4 (distance_from_sun (snd kv)),
                     condition_name (sa_condition (snd kv)))))
                solar_analyses |}.

(** The aspect entry of a perfection dictionary: the dictionary of
    [_find_applying_aspect], or that of [_find_separating_aspect], which has
    no [degrees_to_exact] key. *)
Inductive PerfAspect : Type :=
| ApplyingDict (d : AspectDict)
| SeparatingDict (a : Aspect).

(** A perfection as the judgment reads it: the detector's result, or the
    Moon-Sun education perfection. *)
Record Perfection : Type := mkPerfection {
  p_perfects : bool;
  p_type : option string;
  p_favorable : option bool;
  p_confidence : option Z;
  p_reception : option Reception.ReceptionType;
  p_aspect : option PerfAspect
}.

Definition perfection_of (r : PerfectionResult) : Perfection :=
  {| p_perfects := perfects r; p_type := pf_type r;
     p_favorable := pf_favorable r; p_confidence := pf_confidence r;
     p_reception := pf_reception r;
     p_aspect := match pf_aspect r with
                 | Some d => Some (ApplyingDict d)
                 | None => None
                 end |}.

Definition favorable_names : list string :=
  ["Conjunction"; "Sextile"; "Trine"]%string.

(** [_check_moon_sun_education_perfection] *)
Definition _check_moon_sun_education_perfection (chart : HoraryChart) : Perfection :=
  let none_found :=
    {| p_perfects := false; p_type := None; p_favorable := None;
       p_confidence := None; p_reception := None; p_aspect := None |} in
  let separating :=
    match _find_separating_aspect chart MOON SUN with
    | Some a =>
        if QuestionAnalyzer.str_mem (Aspect_display_name a) favorable_names
        then {| p_perfects := true; p_type := Some "moon_sun_education"%string;
                p_favorable := Some true; p_confidence := Some 65;
                p_reception := None; p_aspect := Some (SeparatingDict a) |}
        else none_found
    | None => none_found
    end in
  match _find_applying_aspect chart MOON SUN with
  | Some moon_aspect =>
      if QuestionAnalyzer.str_mem (Aspect_display_name (ad_aspect moon_aspect))
           favorable_names
      then {| p_perfects := true; p_type := Some "moon_sun_education"%string;
              p_favorable := Some true; p_confidence := Some 75;
              p_reception := None; p_aspect := Some (ApplyingDict moon_aspect) |}
      else separating
  | None => separating
  end.

(** The entries of a found transaction translation. *)
Record TransactionTranslation : Type := mkTransactionTranslation {
  tt_confidence : Z;
  tt_item_to_party : bool
}.

(** The nested loops over [item_aspects] and [seller_aspects + buyer_aspects]
    of [_check_transaction_translation]. *)
Fixpoint party_scan (pos : PlanetPosition) (item_applying : bool)
  (parties : list AspectInfo) : option TransactionTranslation :=
  match parties with
  | [] => None
  | party :: rest =>
      let confidence := if attr_says_combustion pos then 75 - 10 else 75 in
      if negb item_applying && ai_applying party
      then Some {| tt_confidence := confidence; tt_item_to_party := true |}
      else if negb (ai_applying party) && item_applying
      then Some {| tt_confidence := confidence; tt_item_to_party := false |}
      else party_scan pos item_applying rest
  end.

Fixpoint item_scan (pos : PlanetPosition)
  (items parties : list AspectInfo) : option TransactionTranslation :=
  match items with
  | [] => None
  | item :: rest =>
      match party_scan pos (ai_applying item) parties with
      | Some r => Some r
      | None => item_scan pos rest parties
      end
  end.

Definition other_of (t : Planet) (a : AspectInfo) : Planet :=
  if Planet_eqb (planet1 a) t then planet2 a else planet1 a.

Fixpoint transaction_loop
  (chart : HoraryChart) (seller buyer item : Planet) (ps : Planets)
  : option TransactionTranslation :=
  match ps with
  | [] => None
  | (t, pos) :: rest =>
      if Planet_eqb t seller || Planet_eqb t buyer || Planet_eqb t item
      then transaction_loop chart seller buyer item rest
      else
        let translator_aspects :=
          filter (fun a => Planet_eqb (planet1 a) t || Planet_eqb (planet2 a) t)
                 (aspects chart) in
        let with_other p :=
          filter (fun a => Planet_eqb (other_of t a) p) translator_aspects in
        match item_scan pos (with_other item) (with_other seller ++ with_other buyer) with
        | Some r => Some r
        | None => transaction_loop chart seller buyer item rest
        end
  end.

(** [_check_transaction_translation]: [None] is [{"found": False}]. *)
Definition _check_transaction_translation
  (chart : HoraryChart) (seller buyer item : Planet) : option TransactionTranslation :=
  transaction_loop chart seller buyer item (planets chart).

(** [_apply_aspect_direction_adjustment] (the later of the two definitions in
    the class, which is the one in force).  The [aspect] entry is a dictionary,
    on which [hasattr(aspect_info, 'applying')] is false; and no perfection
    dictionary has a [translator_analysis] entry. *)
Definition _apply_aspect_direction_adjustment
  (confidence : Z) (perfection : Perfection) : Z :=
  let hasattr_dict_applying := false in
  let has_separating_from_significator := false in
  match p_type perfection, p_aspect perfection with
  | Some t, Some _ =>
      if String.eqb t "direct" then
        if hasattr_dict_applying then Z.max (confidence - 30) 15 else confidence
      else if String.eqb t "translation" then
        if has_separating_from_significator then Z.max (confidence - 25) 20
        else confidence
      else confidence
  | Some t, None =>
      if String.eqb t "translation" then
        if has_separating_from_significator then Z.max (confidence - 25) 20
        else confidence
      else confidence
  | None, _ => confidence
  end.

(** [_apply_dignity_confidence_adjustment] *)
Definition _apply_dignity_confidence_adjustment
  (confidence : Z) (chart : HoraryChart) (querent quesited : Planet) : option Z :=
  querent_pos <- planets_get (planets chart) querent ;;
  quesited_pos <- planets_get (planets chart) quesited ;;
  let querent_dignity := dignity_score querent_pos in
  let quesited_dignity := dignity_score quesited_pos in
  let c1 :=
    if quesited_dignity <=? -10 then Z.max (confidence - 35) 10
    else if quesited_dignity <? -5 then Z.max (confidence - 20) 25
    else if 10 <=? quesited_dignity then Z.min (confidence + 15) 95
    else confidence in
  let c2 :=
    if querent_dignity <=? -10 then Z.max (c1 - 15) 5
    else if 10 <=? querent_dignity then Z.min (c1 + 10) 95
    else c1 in
  Some c2.

(** [_apply_retrograde_quesited_penalty] *)
Definition _apply_retrograde_quesited_penalty
  (confidence : Z) (chart : HoraryChart) (quesited : Planet) : option Z :=
  quesited_pos <- planets_get (planets chart) quesited ;;
  Some (if retrograde quesited_pos then Z.max (confidence - 25) 10 else confidence).

(** The entries of the judgment dictionary that the properties read. *)
Record Judgment : Type := mkJudgment {
  result : string;
  confidence : Z;
  perfection_type : option string
}.

(** The dictionary [_check_moon_next_aspect_to_significators] returns when
    the aspect is to a significator. *)
Record MoonNext : Type := mkMoonNext {
  decisive : bool;
  mn_result : string;
  mn_confidence : Z;
  mn_void_moon : bool
}.

(** [_check_moon_next_aspect_to_significators]: [Some None] is
    [{"decisive": False}]. *)
Definition _check_moon_next_aspect_to_significators
  (chart : HoraryChart) (querent quesited : Planet) (ignore_void_moon : bool)
  : option (option MoonNext) :=
  match moon_next_aspect chart with
  | None => Some None
  | Some next_aspect =>
      if negb (Planet_eqb (la_planet next_aspect) querent
               || Planet_eqb (la_planet next_aspect) quesited)
      then Some None
      else
        void_of_course <-
          (if ignore_void_moon then Some false
           else
             void_check <- _is_moon_void_of_course_enhanced cfg chart ;;
             Some (void void_check && negb (exception void_check))) ;;
        let favorable := base_favorable (la_aspect next_aspect) in
        let c0 := if favorable then 75 else 65 in
        let c1 := if void_of_course then c0 - 15 else c0 in
        let c2 := if Py.Qleb (la_orb next_aspect) 1 then c1 + 10 else c1 in
        let decisive := negb (void_of_course && negb favorable) in
        reception <-
          _detect_reception_between_planets chart MOON (la_planet next_aspect) ;;
        let softened :=
          negb (Reception.ReceptionType_eqb reception Reception.none)
          && negb favorable in
        Some (Some {| decisive := decisive;
                      mn_result := if softened then "UNCLEAR"
                                   else if favorable then "YES" else "NO";
                      mn_confidence := if softened then c2 + 10 else c2;
                      mn_void_moon := void_of_course |})
  end.

(** *** Stages of the judgment that are taken as given

    [_check_enhanced_moon_testimony] is read only by the same-ruler branch,
    through the entries below.  The stages after the Moon's next aspect
    (Moon testimony, denial checks, benefic support, the pregnancy exception
    and the fallback) are one function of the state reached there. *)

Record MoonTestimony : Type := mkMoonTestimony {
  mt_aspects : list bool;     (* the [favorable] flag of each listed aspect *)
  mt_favorable : bool;
  mt_unfavorable : bool
}.

Variable _check_enhanced_moon_testimony :
  HoraryChart -> Planet -> Planet -> bool -> option MoonTestimony.

Variable later_stages :
  HoraryChart -> QuestionAnalysis -> bool -> bool -> Planet -> Planet -> Z ->
  option Judgment.

(** [_calculate_enhanced_timing], as "does not raise": reading
    [degrees_to_exact] from a separating-aspect dictionary is a [KeyError]. *)
Definition timing_defined (a : option PerfAspect) : option unit :=
  match a with
  | Some (SeparatingDict _) => None
  | _ => Some tt
  end.

Definition combust_names (sf : SolarFactors) : list string :=
  map (fun e => fst (fst (snd e)))
      (filter (fun e => String.eqb (snd (snd e)) "Combustion")
              (detailed_analyses sf)).

(** The combustion penalty and the count of severe impediments that one
    significator adds. *)
Definition impediment_of
  (chart : HoraryChart) (sf : SolarFactors) (p : Planet) : option (Z * Z) :=
  if QuestionAnalyzer.str_mem (Planet_value p) (combust_names sf) then
    let distance :=
      match find (fun e => String.eqb (fst e) (Planet_value p))
                 (detailed_analyses sf) with
      | Some e => snd (fst (snd e))
      | None => 0%Q
      end in
    pos <- planets_get (planets chart) p ;;
    let planet_dignity := dignity_score pos in
    let '(penalty, severe) :=
      if Py.Qltb distance 1 then (40, 1)
      else if Py.Qltb distance 2 then (25, 0)
      else if Py.Qltb distance 5 then (15, 0)
      else (10, 0) in
    Some (penalty,
          if (planet_dignity <=? -4) && Py.Qltb distance 3
          then severe + 1 else severe)
  else Some (0, 0).

(** The solar review of the significators: a hard denial, or the adjusted
    confidence. *)
Definition solar_review
  (chart : HoraryChart) (sf : SolarFactors) (ignore_combustion : bool)
  (querent quesited : Planet) (confidence : Z) : option (Judgment + Z) :=
  if significant sf then
    if 0 <? cazimi_count sf then Some (inr (confidence + cazimi_bonus cfg))
    else if (0 <? combustion_count sf) && negb ignore_combustion then
      if QuestionAnalyzer.str_mem (Planet_value querent) (combust_names sf)
         || QuestionAnalyzer.str_mem (Planet_value quesited) (combust_names sf)
      then
        i1 <- impediment_of chart sf querent ;;
        i2 <- impediment_of chart sf quesited ;;
        let combustion_penalty := fst i1 + fst i2 in
        let severe_impediments := snd i1 + snd i2 in
        if 2 <=? severe_impediments
        then Some (inl {| result := "NO"; confidence := 90;
                          perfection_type := Some "impediment_denial"%string |})
        else Some (inr (confidence - Z.min combustion_penalty 50))
      else Some (inr confidence)
    else Some (inr confidence)
  else Some (inr confidence).

(** Step 3.5: the same-ruler branch. *)
Definition same_ruler_unity
  (chart : HoraryChart) (sf : SolarFactors)
  (ignore_void_moon ignore_combustion : bool)
  (querent quesited shared_planet : Planet) : option Judgment :=
  shared_position <- planets_get (planets chart) shared_planet ;;
  let combust_or_under_beams :=
    negb ignore_combustion
    && existsb (fun _ => true)
         (filter (fun e => py_eq (PyStr (fst (fst (snd e)))) (PyPlanet shared_planet))
                 (detailed_analyses sf)) in
  let prohibited :=
    (dignity_score shared_position <=? -10)
    || combust_or_under_beams
    || (retrograde shared_position && (dignity_score shared_position <? -5)) in
  let base0 := if prohibited then 80 else 75 in
  moon_testimony <-
    _check_enhanced_moon_testimony chart querent quesited ignore_void_moon ;;
  reception <- _detect_reception_between_planets chart querent quesited ;;
  let has_reception :=
    negb (Reception.ReceptionType_eqb reception Reception.none) in
  let negative_testimonies :=
    count_if negb (mt_aspects moon_testimony) in
  let base1 :=
    if 0 <? negative_testimonies
    then Z.max 65 (base0 - Z.min 15 (negative_testimonies * 5))
    else if mt_favorable moon_testimony then Z.min 85 (base0 + 5)
    else if mt_unfavorable moon_testimony then Z.max 70 (base0 - 5)
    else base0 in
  let base2 := if has_reception then Z.min 90 (base1 + 3) else base1 in
  let relevant_moon_roles :=
    filter (fun kv => Planet_eqb (snd kv) MOON
                      && Reception.Z_in (fst kv) [1; 2; 7; 8; 10; 11])
           (house_rulers chart) in
  base3 <-
    (if Reception.nonempty relevant_moon_roles then
       moon_as_ruler <- planets_get (planets chart) MOON ;;
       Some (if 0 <=? dignity_score moon_as_ruler then Z.min 88 (base2 + 3)
             else if dignity_score moon_as_ruler <? -5 then Z.max 65 (base2 - 5)
             else base2)
     else Some base2) ;;
  Some {| result := if prohibited then "NO" else "YES";
          confidence := base3;
          perfection_type := Some "same_ruler_unity"%string |}.

(** Steps 2 to 3.6 and the hand-over to the later stages, from the working
    confidence left by the void-Moon stage. *)
Definition judgment_after_void
  (chart : HoraryChart) (question_analysis : QuestionAnalysis)
  (ignore_void_moon ignore_combustion : bool)
  (exaltation_confidence_boost : Q) (confidence0 : Z) : option Judgment :=
  sig <- _identify_significators chart question_analysis ;;
  match sig with
  | SigInvalid =>
      Some {| result := "CANNOT JUDGE"; confidence := 0; perfection_type := None |}
  | SigValid significators =>
      let querent_planet := sg_querent significators in
      let quesited_planet := sg_quesited significators in
      confidence1 <-
        match sg_same_ruler significators with
        | Some shared_planet =>
            shared_position <- planets_get (planets chart) shared_planet ;;
            let same_ruler_bonus :=
              if 0 <? dignity_score shared_position then 10 + 5
              else if dignity_score shared_position <? -10 then 10 - 10
              else 10 in
            Some (confidence0 + same_ruler_bonus)
        | None => Some confidence0
        end ;;
      solar_factors <-
        _analyze_enhanced_solar_factors (solar_analyses chart) ignore_combustion ;;
      reviewed <-
        solar_review chart solar_factors ignore_combustion
          querent_planet quesited_planet confidence1 ;;
      match reviewed with
      | inl denial => Some denial
      | inr confidence2 =>
          let transaction :=
            match sg_item_significator significators with
            | Some item_significator =>
                if sg_transaction_type significators
                then _check_transaction_translation chart
                       querent_planet quesited_planet item_significator
                else None
            | None => None
            end in
          match transaction with
          | Some translation_result =>
              Some {| result := "YES";
                      confidence := Z.min confidence2 (tt_confidence translation_result);
                      perfection_type := Some "transaction_translation"%string |}
          | None =>
              primary_significator <-
                (if sg_third_person_education significators
                 then sg_student significators else Some querent_planet) ;;
              detected <-
                _check_enhanced_perfection chart primary_significator
                  quesited_planet exaltation_confidence_boost ;;
              let perfection :=
                if negb (perfects detected)
                   && match question_type question_analysis with
                      | Some t => String.eqb t "education"
                      | None => false
                      end
                then
                  let moon_sun := _check_moon_sun_education_perfection chart in
                  if p_perfects moon_sun then moon_sun else perfection_of detected
                else perfection_of detected in
              if p_perfects perfection then
                favorable <- p_favorable perfection ;;
                perfection_confidence <- p_confidence perfection ;;
                let result0 := if favorable then "YES"%string else "NO"%string in
                let c0 := Z.min confidence2 perfection_confidence in
                let c1 := _apply_aspect_direction_adjustment c0 perfection in
                c2 <- _apply_dignity_confidence_adjustment c1 chart
                        querent_planet quesited_planet ;;
                c3 <- _apply_retrograde_quesited_penalty c2 chart quesited_planet ;;
                let '(result1, c4) :=
                  fst (_apply_confidence_threshold result0 c3 []) in
                _ <- timing_defined (p_aspect perfection) ;;
                Some {| result := result1; confidence := c4;
                        perfection_type := p_type perfection |}
              else
                match sg_same_ruler significators with
                | Some shared_planet =>
                    same_ruler_unity chart solar_factors ignore_void_moon
                      ignore_combustion querent_planet quesited_planet shared_planet
                | None =>
                    moon_next <-
                      _check_moon_next_aspect_to_significators chart
                        querent_planet quesited_planet ignore_void_moon ;;
                    match moon_next with
                    | Some m =>
                        if decisive m
                        then Some {| result := mn_result m;
                                     confidence := mn_confidence m;
                                     perfection_type := Some "moon_next_aspect"%string |}
                        else later_stages chart question_analysis ignore_void_moon
                               ignore_combustion querent_planet quesited_planet
                               confidence2
                    | None =>
                        later_stages chart question_analysis ignore_void_moon
                          ignore_combustion querent_planet quesited_planet
                          confidence2
                    end
                end
          end
      end
  end.

(** Step 1.5: the void-Moon stage, as either the denial it returns or the
    working confidence it leaves. *)
Definition void_moon_stage
  (chart : HoraryChart) (question_analysis : QuestionAnalysis)
  (ignore_void_moon : bool) (confidence : Z) : option (Judgment + Z) :=
  if ignore_void_moon then Some (inr confidence) else
  void_check <- _is_moon_void_of_course_enhanced cfg chart ;;
  if void void_check && negb (exception void_check) then
    can_override <- check_void_moon_overrides chart question_analysis ;;
    if can_override then Some (inr (Z.min confidence 30))
    else Some (inl {| result := "NO"; confidence := 85;
                      perfection_type := Some "void_moon_denial"%string |})
  else Some (inr confidence).

(** [_apply_enhanced_judgment] *)
Definition _apply_enhanced_judgment
  (chart : HoraryChart) (question_analysis : QuestionAnalysis)
  (ignore_radicality ignore_void_moon ignore_combustion ignore_saturn_7th : bool)
  (exaltation_confidence_boost : Q) : option Judgment :=
  let confidence := base_confidence cfg in
  radical <-
    (if ignore_radicality then Some true
     else _check_enhanced_radicality chart ignore_saturn_7th) ;;
  if negb radical
  then Some {| result := "NOT RADICAL"; confidence := 0; perfection_type := None |}
  else
    staged <- void_moon_stage chart question_analysis ignore_void_moon confidence ;;
    match staged with
    | inl denial => Some denial
    | inr confidence' =>
        judgment_after_void chart question_analysis ignore_void_moon
          ignore_combustion exaltation_confidence_boost confidence'
    end.

End Perfection.

(** ** Moon story: the next applying aspect ([_calculate_moon_next_aspect])

    [moon_speed] is the value of [get_real_moon_speed], which the ephemeris
    supplies. *)

(** [_is_moon_applying_to_aspect] *)
Definition _is_moon_applying_to_aspect
  (moon_pos planet_pos : PlanetPosition) (a : Aspect) (moon_speed : Q) : bool :=
  let time_increment := (1 # 10)%Q in
  let current_separation :=
    angular_separation (longitude moon_pos) (longitude planet_pos) in
  let future_moon_lon :=
    Py.Qmod (longitude moon_pos + moon_speed * time_increment) 360 in
  let future_separation :=
    angular_separation future_moon_lon (longitude planet_pos) in
  let current_orb := Py.Qabs' (current_separation - Py.Qz (Aspect_degrees a)) in
  let future_orb := Py.Qabs' (future_separation - Py.Qz (Aspect_degrees a)) in
  Py.Qltb future_orb current_orb.

(** [a < b] on ETAs, where [None] is [float('inf')]. *)
Definition eta_ltb (a b : option Q) : bool :=
  match a, b with
  | Some x, Some y => Py.Qltb x y
  | Some _, None => true
  | None, _ => false
  end.

(** [min(applying_aspects, key=lambda x: x.perfection_eta_days)] *)
Fixpoint soonest (best : LunarAspect) (l : list LunarAspect) : LunarAspect :=
  match l with
  | [] => best
  | x :: rest =>
      if eta_ltb (perfection_eta_days x) (perfection_eta_days best)
      then soonest x rest else soonest best rest
  end.

Definition moon_applying_aspects_with
  (cfg : Config) (moon_pos : PlanetPosition) (moon_speed : Q)
  (p : Planet) (planet_pos : PlanetPosition) : list LunarAspect :=
  let separation :=
    angular_separation (longitude moon_pos) (longitude planet_pos) in
  flat_map
    (fun a =>
       let orb_diff := Py.Qabs' (separation - Py.Qz (Aspect_degrees a)) in
       if Py.Qleb orb_diff (Aspect_orb cfg a)
          && _is_moon_applying_to_aspect moon_pos planet_pos a moon_speed
       then
         let relative_speed := Py.Qabs' (moon_speed - Py.Qabs' (speed planet_pos)) in
         [ {| la_planet := p; la_aspect := a; la_orb := orb_diff;
              degrees_difference := orb_diff;
              perfection_eta_days :=
                if Py.Qltb 0 relative_speed
                then Some (orb_diff / relative_speed)%Q else None;
              la_applying := true |} ]
       else [])
    all_aspects.

Definition _calculate_moon_next_aspect
  (cfg : Config) (ps : Planets) (moon_speed : Q) : option (option LunarAspect) :=
  moon_pos <- planets_get ps MOON ;;
  let applying_aspects :=
    flat_map
      (fun kv =>
         if Planet_eqb (fst kv) MOON then []
         else moon_applying_aspects_with cfg moon_pos moon_speed (fst kv) (snd kv))
      ps in
  match applying_aspects with
  | [] => Some None
  | x :: rest => Some (Some (soonest x rest))
  end.

(** ** Sample configuration and charts

    The values of [sample_config] stand for a configuration document; its
    moieties are those of the engine's own [_get_planet_moiety] table. *)

Definition sample_config : Config :=
  {| base_confidence := 100;
     direct_with_mutual_rulership := 100;
     direct_with_mutual_exaltation := 85;
     direct_basic := 80;
     translation_of_light := 75;
     collection_of_light := 70;
     reception_only := 70;
     cazimi_bonus := 15;
     dignity_triplicity := 3;
     orbs_moieties :=
       Some [("Sun"%string, 17%Q); ("Moon"%string, (25 # 2)%Q);
             ("Mercury"%string, 7%Q); ("Venus"%string, 8%Q);
             ("Mars"%string, (15 # 2)%Q); ("Jupiter"%string, 9%Q);
             ("Saturn"%string, (19 # 2)%Q)];
     orbs_by_aspect :=
       [("conjunction"%string, 8%Q); ("sextile"%string, 6%Q);
        ("square"%string, 8%Q); ("trine"%string, 8%Q);
        ("opposition"%string, 8%Q)];
     sun_orb_bonus := 2;
     moon_orb_bonus := 1;
     void_orb_deg := 2;
     combustion_orb := 17 # 2;
     timing_precision_days := 1 # 100;
     stationary_speed_threshold := 5 # 100;
     void_rule := "by_sign";
     void_exceptions :=
       {| ve_cancer := true; ve_sagittarius := true; ve_taurus := true |};
     require_speed_advantage := true;
     require_proper_sequence := true;
     asc_too_early := 3;
     asc_too_late := 27;
     saturn_7th_enabled := true;
     via_combusta_enabled := true;
     libra_start := 15;
     scorpio_end := 15 |}.

(** The same document with another [moon.void_rule]. *)
Definition with_void_rule (cfg : Config) (rule : string) : Config :=
  {| base_confidence := base_confidence cfg;
     direct_with_mutual_rulership := direct_with_mutual_rulership cfg;
     direct_with_mutual_exaltation := direct_with_mutual_exaltation cfg;
     direct_basic := direct_basic cfg;
     translation_of_light := translation_of_light cfg;
     collection_of_light := collection_of_light cfg;
     reception_only := reception_only cfg;
     cazimi_bonus := cazimi_bonus cfg;
     dignity_triplicity := dignity_triplicity cfg;
     orbs_moieties := orbs_moieties cfg;
     orbs_by_aspect := orbs_by_aspect cfg;
     sun_orb_bonus := sun_orb_bonus cfg;
     moon_orb_bonus := moon_orb_bonus cfg;
     void_orb_deg := void_orb_deg cfg;
     combustion_orb := combustion_orb cfg;
     timing_precision_days := timing_precision_days cfg;
     stationary_speed_threshold := stationary_speed_threshold cfg;
     void_rule := rule;
     void_exceptions := void_exceptions cfg;
     require_speed_advantage := require_speed_advantage cfg;
     require_proper_sequence := require_proper_sequence cfg;
     asc_too_early := asc_too_early cfg;
     asc_too_late := asc_too_late cfg;
     saturn_7th_enabled := saturn_7th_enabled cfg;
     via_combusta_enabled := via_combusta_enabled cfg;
     libra_start := libra_start cfg;
     scorpio_end := scorpio_end cfg |}.

(** [_get_sign] *)
Definition _get_sign (lon : Q) : Sign :=
  let l := Py.Qmod lon 360 in
  match find (fun s => Py.Qleb (Py.Qz (Sign_start_degree s)) l
                       && Py.Qltb l (Py.Qz (Sign_start_degree s + 30)))
             all_signs with
  | Some s => s
  | None => PISCES
  end.

(** Equal houses from an ascendant, and the rulers of their cusps, as
    [calculate_chart] derives [house_rulers] from the cusps. *)
Definition equal_houses (asc : Q) : list Q :=
  map (fun i => Py.Qmod (asc + 30 * inject_Z (Z.of_nat i)) 360) (seq 0 12).

Definition rulers_of_cusps (cusps : list Q) : list (Z * Planet) :=
  map (fun ic => (Z.of_nat (fst ic) + 1, Sign_ruler (_get_sign (snd ic))))
      (combine (seq 0 (List.length cusps)) cusps).

(** A body placed by longitude, speed and dignity; sign and house follow from
    the longitude as in [calculate_chart]. *)
Definition body (cusps : list Q) (p : Planet) (lon spd : Q) (dignity : Z)
  : Planet * PlanetPosition :=
  (p, {| planet := p; longitude := lon; latitude := 0;
         house := match Reception._calculate_house_position lon cusps with
                  | Some h => h | None => 1 end;
         sign := _get_sign lon; dignity_score := dignity;
         retrograde := Py.Qltb spd 0; speed := spd |}).

(** Solar analyses for bodies that are all beyond the Sun's beams (and the
    Sun itself, which is always [FREE] at distance 0). *)
Definition free_of_sun (ps : Planets) : list (Planet * SolarAnalysis) :=
  map (fun kv =>
         (fst kv,
          mkSolarAnalysis (fst kv)
            (match planets_get ps SUN with
             | Some sun_pos =>
                 angular_separation (longitude (snd kv)) (longitude sun_pos)
             | None => 0%Q
             end)
            FREE false false))
      ps.

(** The same analyses with one body's condition replaced. *)
Definition with_condition
  (l : list (Planet * SolarAnalysis)) (p : Planet) (c : SolarCondition)
  : list (Planet * SolarAnalysis) :=
  map (fun kv =>
         if Planet_eqb (fst kv) p
         then (fst kv,
               mkSolarAnalysis (fst kv) (distance_from_sun (snd kv)) c false false)
         else kv)
      l.

(** A chart assembled from placed bodies the way [calculate_chart] assembles
    it: aspects from the aspect engine, the Moon's next aspect from the Moon
    story. *)
Definition build_chart
  (cfg : Config) (asc : Q) (ps : Planets)
  (solar : list (Planet * SolarAnalysis)) (moon_speed : Q) : HoraryChart :=
  {| planets := ps;
     aspects := _calculate_enhanced_aspects cfg days_to_sign_exit_fallback ps;
     houses := equal_houses asc;
     house_rulers := rulers_of_cusps (equal_houses asc);
     ascendant := asc;
     midheaven := Py.Qmod (asc + 270) 360;
     solar_analyses := Some solar;
     moon_last_aspect := None;
     moon_next_aspect :=
       match _calculate_moon_next_aspect cfg ps moon_speed with
       | Some r => r
       | None => None
       end |}.

(** *** A void Moon that carries light (void by orb)

    Ascendant 10 Libra: Venus rules the 1st house and Mars the 7th.  The Moon
    at 10 Cancer applies to a sextile of Venus (4 degrees) and to a square of
    Mars (5 degrees), and is no nearer than 4 degrees to any exact aspect. *)

Definition void_orb_config : Config := with_void_rule sample_config "by_orb".

Definition carrying_moon_planets : Planets :=
  let cusps := equal_houses 190 in
  [ body cusps SUN 140 (98 # 100) 2;
    body cusps MOON 100 13 4;
    body cusps MERCURY 156 1 1;
    body cusps VENUS 164 (12 # 10) 1;
    body cusps MARS 195 (6 # 10) 0;
    body cusps JUPITER 300 (1 # 10) 1;
    body cusps SATURN 50 (5 # 100) 0 ].

Definition carrying_moon_chart : HoraryChart :=
  build_chart void_orb_config 190 carrying_moon_planets
    (free_of_sun carrying_moon_planets) 13.

(** A question about the 7th house ("Will he marry me?"). *)
Definition seventh_house_question : QuestionAnalysis :=
  {| question_type := Some "marriage"%string;
     significators :=
       {| si_transaction_type := false; si_quesited_house := Some 7;
          si_special_significators := []; si_third_person_education := false;
          si_student_house := None; si_success_house := None |} |}.

(** The same sky two hours of ascension later: the ascendant at 1 Leo is
    below the "too early" threshold. *)
Definition early_ascendant_chart : HoraryChart :=
  build_chart void_orb_config 121 carrying_moon_planets
    (free_of_sun carrying_moon_planets) 13.

(** *** A Moon that failed in the ephemeris

    [calculate_chart] replaces a body whose ephemeris call fails by the
    position longitude 0, speed 0. *)

Definition fallback_moon_planets : Planets :=
  let cusps := equal_houses 190 in
  [ body cusps SUN 140 (98 # 100) 2;
    body cusps MOON 0 0 0;
    body cusps MERCURY 156 1 1;
    body cusps VENUS 164 (12 # 10) 1;
    body cusps MARS 195 (6 # 10) 0;
    body cusps JUPITER 310 (1 # 10) 1;
    body cusps SATURN 50 (5 # 100) 0 ].

Definition fallback_moon_chart : HoraryChart :=
  build_chart void_orb_config 190 fallback_moon_planets
    (free_of_sun fallback_moon_planets) 13.

(** *** A translation of light through a square

    Ascendant 10 Taurus: Venus rules the 1st house and Saturn the 10th.  The
    Moon has separated from a sextile of Venus (4 degrees) and applies to a
    square of Saturn (3 degrees); Venus and Saturn are not in aspect. *)

Definition square_translation_planets : Planets :=
  let cusps := equal_houses 40 in
  [ body cusps SUN 65 (98 # 100) 2;
    body cusps MOON 100 13 4;
    body cusps MERCURY 60 1 1;
    body cusps VENUS 36 (12 # 10) 3;
    body cusps MARS 135 (6 # 10) 0;
    body cusps JUPITER 250 (1 # 10) 1;
    body cusps SATURN 193 (5 # 100) 2 ].

Definition square_translation_chart : HoraryChart :=
  build_chart sample_config 40 square_translation_planets
    (with_condition (free_of_sun square_translation_planets) MERCURY COMBUSTION)
    13.

(** A question about the 10th house ("Will I get the job?"). *)
Definition tenth_house_question : QuestionAnalysis :=
  {| question_type := Some "career"%string;
     significators :=
       {| si_transaction_type := false; si_quesited_house := Some 10;
          si_special_significators := []; si_third_person_education := false;
          si_student_house := None; si_success_house := None |} |}.

(** *** A combust significator conjunct the Sun

    Ascendant 10 Leo: the Sun rules the 1st house and Mercury the 2nd.
    Mercury, half a degree behind the Sun and faster, applies to the
    conjunction; its solar analysis is [COMBUSTION]. *)

Definition combust_mercury_planets : Planets :=
  let cusps := equal_houses 130 in
  [ body cusps SUN 65 (98 # 100) 2;
    body cusps MOON 100 13 4;
    body cusps MERCURY (129 # 2) (18 # 10) 1;
    body cusps VENUS 36 (12 # 10) 3;
    body cusps MARS 135 (6 # 10) 0;
    body cusps JUPITER 250 (1 # 10) 1;
    body cusps SATURN 193 (5 # 100) 2 ].

Definition combust_mercury_chart : HoraryChart :=
  build_chart sample_config 130 combust_mercury_planets
    (with_condition (free_of_sun combust_mercury_planets) MERCURY COMBUSTION)
    13.

(** A question about the 2nd house ("Will I be paid?"). *)
Definition second_house_question : QuestionAnalysis :=
  {| question_type := Some "money"%string;
     significators :=
       {| si_transaction_type := false; si_quesited_house := Some 2;
          si_special_significators := []; si_third_person_education := false;
          si_student_house := None; si_success_house := None |} |}.

(** *** Two aspects within orb

    The Sun at 10 Aries and the Moon at 28 Gemini are 78 degrees apart: 18
    from the sextile and 12 from the square, both inside the pair's orb. *)

Definition wide_orb_planets : Planets :=
  let cusps := equal_houses 190 in
  [ body cusps SUN 10 (98 # 100) 2;
    body cusps MOON 88 13 4;
    body cusps MERCURY 25 1 1;
    body cusps VENUS 50 (12 # 10) 1;
    body cusps MARS 195 (6 # 10) 0;
    body cusps JUPITER 300 (1 # 10) 1;
    body cusps SATURN 240 (5 # 100) 0 ].

(** *** A retrograde body on a sign boundary

    Mercury retrograde at exactly 0 Taurus and Venus at 27 Gemini, three
    degrees short of a sextile that perfects in two days. *)

Definition cusp_mercury : PlanetPosition :=
  snd (body (equal_houses 190) MERCURY 30 (-1) 1).

Definition gemini_venus : PlanetPosition :=
  snd (body (equal_houses 190) VENUS 87 (1 # 2) 1).

Definition cusp_mercury_planets : Planets :=
  let cusps := equal_houses 190 in
  [ body cusps SUN 50 (98 # 100) 2;
    body cusps MOON 200 13 4;
    (MERCURY, cusp_mercury);
    (VENUS, gemini_venus);
    body cusps MARS 195 (6 # 10) 0;
    body cusps JUPITER 300 (1 # 10) 1;
    body cusps SATURN 240 (5 # 100) 0 ].

(** ** Named forms of tests that the engine writes inline *)

(** The orb test of [_calculate_enhanced_aspects] for one aspect type:
    [abs(angle_diff - aspect_type.degrees) <= max_orb]. *)
Definition within_orb
  (cfg : Config) (p1 p2 : Planet) (angle_diff : Q) (a : Aspect) : bool :=
  Py.Qleb (Py.Qabs' (angle_diff - Py.Qz (Aspect_degrees a))) (max_orb_for cfg p1 p2 a).

(** The sign-exit guard of [_is_applying_enhanced] for one body, as a
    property: when the helper reports a time to exit that is not zero, the
    time to perfection is finite and does not exceed it. *)
Definition perfects_before_exit
  (days_to_sign_exit : Q -> Q -> option Q)
  (pos1 pos2 : PlanetPosition) (a : Aspect) (b : PlanetPosition) : Prop :=
  forall d : Q,
    days_to_sign_exit (longitude b) (speed b) = Some d ->
    ~ (d == 0)%Q ->
    exists t : Q,
      app_days_to_perfect pos1 pos2 a = Some t /\ (t <= d)%Q.

(** ** Proof automation *)

(** Case analysis on every scrutinee of a hypothesis that equates a run of
    the embedded code with a result. *)
Ltac break_match_hyp H :=
  repeat match type of H with
         | context [match ?x with _ => _ end] =>
             let E := fresh "E" in destruct x eqn:E; try discriminate H
         | context [if ?x then _ else _] =>
             let E := fresh "E" in destruct x eqn:E; try discriminate H
         end.

(** ** Question analyzer: question type, houses and significators

    [_determine_question_type], [_determine_houses], [_determine_significators]
    and [analyze_question] of [TraditionalHoraryQuestionAnalyzer], with the
    helpers they call.  [StopIteration], [KeyError] and the other exceptions
    are the [None] of the outer [option]; an inner [option] is a Python value
    that may be [None]. *)

Module QuestionHouses.

Import Text Calendar QuestionAnalyzer.

(** [any(word in question for word in words)] *)
Definition any_in (words : list string) (question : string) : bool :=
  existsb (fun word => str_in word question) words.

(** [s.endswith(suffix)] *)
Definition endswith (s suffix : string) : bool :=
  String.prefix (rev_string suffix EmptyString) (rev_string s EmptyString).

(** [_turn] *)
Definition _turn (base offset : Z) : Z := ((base + offset - 1) mod 12) + 1.

(** [_apply_house_derivation] *)
Definition _apply_house_derivation (base_house derived_house : Z) : Z :=
  ((base_house - 1 + derived_house - 1) mod 12) + 1.

(** [_get_derived_house_for_possessions] *)
Definition _get_derived_house_for_possessions (person_house : Z) : Z :=
  _apply_house_derivation person_house 2.

(** [self.house_meanings], in insertion order. *)
Definition house_meanings : list (Z * list string) :=
  [ (1, ["querent"; "self"; "body"; "life"; "personality"; "appearance"]);
    (2, ["money"; "possessions"; "moveable goods"; "income"; "resources";
         "values"]);
    (3, ["siblings"; "neighbors"; "short journeys"; "communication";
         "letters"; "rumors"]);
    (4, ["father"; "home"; "land"; "property"; "endings"; "foundations";
         "graves"]);
    (5, ["children"; "pregnancy"; "pleasure"; "gambling"; "creativity";
         "entertainment"]);
    (6, ["illness"; "servants"; "small animals"; "work"; "daily routine";
         "uncle/aunt"]);
    (7, ["spouse"; "partner"; "open enemies"; "thieves"; "others";
         "contracts"]);
    (8, ["death"; "partner's money"; "wills"; "transformation"; "fear";
         "surgery"]);
    (9, ["long journeys"; "foreign lands"; "religion"; "law";
         "higher learning"; "dreams"]);
    (10, ["mother"; "career"; "honor"; "reputation"; "authority";
          "government"]);
    (11, ["friends"; "hopes"; "wishes"; "advisors"; "king's money"; "groups"]);
    (12, ["hidden enemies"; "large animals"; "prisons"; "secrets";
          "self-undoing"; "witchcraft"]) ]%string.

(** [self.question_patterns], in insertion order. *)
Definition question_patterns : list (string * list string) :=
  [ ("lost_object", ["where is"; "lost"; "missing"; "find"; "stolen";
                     "disappeared"; "locate"]);
    ("marriage", ["marry"; "wedding"; "spouse"; "husband"; "wife";
                  "engagement"; "propose"]);
    ("pregnancy", ["pregnant"; "conceive"; "conception"; "expecting"; "baby";
                   "fertility"]);
    ("children", ["child"; "children"; "son"; "daughter"; "offspring"; "kids"]);
    ("travel", ["journey"; "travel"; "trip"; "go to"; "visit"; "vacation";
                "move to"]);
    ("gambling", ["lottery"; "lotto"; "win lottery"; "jackpot"; "scratch";
                  "raffle"; "betting"; "bet"; "gamble"; "gambling"; "casino";
                  "poker"; "blackjack"; "slots"; "dice"; "win money";
                  "lucky"; "speculation"]);
    ("funding", ["funding"; "fund"; "investment"; "invest"; "investor";
                 "funding round"; "seed"; "series a"; "series b";
                 "venture capital"; "vc"; "angel"; "capital"; "raise money";
                 "raise capital"; "secure funding"; "startup funding";
                 "business loan"; "finance"; "financial backing"; "sponsor";
                 "grant"; "equity"; "valuation"]);
    ("money", ["money"; "wealth"; "rich"; "profit"; "gain"; "debt";
               "financial"; "income"; "salary"; "pay"; "trading"; "stock"]);
    ("career", ["job"; "career"; "work"; "employment"; "business";
                "promotion"; "interview"]);
    ("health", ["sick"; "illness"; "disease"; "health"; "recover"; "die";
                "cure"; "healing"; "medical"]);
    ("lawsuit", ["court"; "lawsuit"; "legal"; "judge"; "trial"; "litigation";
                 "case"]);
    ("relationship", ["love"; "relationship"; "friend"; "enemy"; "romance";
                      "dating"; "go out"; "go out with"; "date"; "ask out";
                      "see each other"; "like me"; "interested in";
                      "attracted to"; "reconciliation"; "reconcile";
                      "get back together"; "ex"; "former";
                      "past relationship"; "breakup"; "break up"; "makeup";
                      "make up"; "together"; "couple"; "partner";
                      "boyfriend"; "girlfriend"; "romantic"; "crush";
                      "feelings"; "attraction"]);
    ("education", ["exam"; "test"; "study"; "student"; "school"; "college";
                   "university"; "learn"; "pass"; "graduate"; "degree";
                   "education"; "academic"; "course"; "class"; "conference";
                   "paper"; "publication"; "publish"; "journal"; "research";
                   "submit"; "accepted"; "peer review"; "review";
                   "presentation"; "symposium"; "seminar"]);
    ("parent", ["father"; "mother"; "dad"; "mom"; "parent"; "stepfather";
                "stepmother"]);
    ("sibling", ["brother"; "sister"; "sibling"]);
    ("friend_enemy", ["friend"; "enemy"; "ally"; "rival"; "competitor"]);
    ("property", ["house"; "home"; "property"; "real estate"; "land";
                  "apartment"; "buy house"; "sell house"]);
    ("death", ["death"; "die"; "inheritance"; "will"; "testament"; "legacy"]);
    ("spiritual", ["god"; "religion"; "spiritual"; "prayer"; "divine";
                   "faith"; "church"]) ]%string.

(** The table of [_detect_natural_significator], in insertion order: the
    keywords, the planet name and the category of each entry. *)
Definition natural_significators
  : list (string * (list string * string * string)) :=
  [ ("vehicles",
     (["car"; "vehicle"; "automobile"; "truck"; "motorcycle"; "bike"],
      "sun", "vehicle"));
    ("real_estate",
     (["house"; "home"; "property"; "building"; "land"; "estate"],
      "moon", "property"));
    ("precious_items",
     (["jewelry"; "gold"; "silver"; "diamond"; "ring"; "watch"; "precious"],
      "venus", "precious"));
    ("technology",
     (["computer"; "phone"; "laptop"; "electronics"; "device"; "gadget"],
      "mercury", "technology"));
    ("livestock",
     (["horse"; "cattle"; "cow"; "livestock"; "animal"],
      "mars", "livestock"));
    ("maritime",
     (["boat"; "ship"; "yacht"; "vessel"], "moon", "maritime")) ]%string.

(** [_detect_natural_significator]: the returned dictionary holds the first
    keyword found in the question, mapped to the planet name, then the
    [category] and [traditional_source] entries. *)
Definition _detect_natural_significator (question_lower : string)
  : option (option (list (string * string))) :=
  match find (fun entry => any_in (fst (fst (snd entry))) question_lower)
             natural_significators with
  | Some (_, (keywords, significator, category)) =>
      item_name <- find (fun keyword => str_in keyword question_lower) keywords ;;
      Some (Some [ (item_name, significator);
                   ("category", category);
                   ("traditional_source",
                    "Based on classical horary significator assignments") ]%string)
  | None => Some None
  end.

(** The dictionary [_analyze_possession_questions] returns: its [houses] and,
    when the key is present, its [natural_significators]. *)
Record Possession : Type := mkPossession {
  pa_houses : list Z;
  pa_natural_significators : option (list (string * string))
}.

Definition sale_indicators : list string :=
  ["sell"; "buy"; "sale"; "purchase"; "trade"]%string.

Definition possession_indicators : list string :=
  ["property"; "money"; "possessions"; "belongings"; "assets"]%string.

(** [_analyze_possession_questions] *)
Definition _analyze_possession_questions (question_lower : string)
  : option (option Possession) :=
  if any_in sale_indicators question_lower then
    natural_significator <- _detect_natural_significator question_lower ;;
    match natural_significator with
    | Some ns =>
        Some (Some {| pa_houses := [1; 7]; pa_natural_significators := Some ns |})
    | None =>
        Some (Some {| pa_houses := [1; 7]; pa_natural_significators := None |})
    end
  else if any_in possession_indicators question_lower then
    if any_in ["his "; "her "; "husband"; "wife"; "spouse"]%string question_lower
    then Some (Some {| pa_houses := [1; 7; 8]; pa_natural_significators := None |})
    else if any_in ["father"; "dad"]%string question_lower
    then Some (Some {| pa_houses := [1; 4; 5]; pa_natural_significators := None |})
    else if any_in ["mother"; "mom"]%string question_lower
    then Some (Some {| pa_houses := [1; 10; 11]; pa_natural_significators := None |})
    else if any_in ["my "; "i "; "will i "]%string question_lower
    then Some (Some {| pa_houses := [1; 2]; pa_natural_significators := None |})
    else Some (Some {| pa_houses := [1; 2]; pa_natural_significators := None |})
  else Some None.

Definition transaction_words : list string :=
  ["sell"; "buy"; "purchase"; "sale"; "profit"; "gain"; "lose"; "cost";
   "price"; "payment"; "trade"; "exchange"]%string.

Definition possession_words : list string :=
  ["car"; "house"; "vehicle"; "property"; "possessions"; "belongings";
   "assets"; "furniture"; "jewelry"; "valuables"]%string.

Definition education_indicators : list string :=
  ["exam"; "test"; "student"; "school"; "college"; "university"; "pass";
   "graduate"]%string.

Definition legal_indicators : list string :=
  ["court"; "lawsuit"; "judge"; "trial"; "litigation"; "case"]%string.

(** The test that appends one keyword to [matched_keywords]. *)
Definition keyword_matches (question keyword : string) : bool :=
  if (String.length keyword <=? 3)%nat then
    if String.eqb keyword "ill"
    then str_in " ill " question || String.prefix "ill " question
         || endswith question " ill"
    else str_in keyword question
  else str_in keyword question.

(** The list [matches]: every pattern key with its matched keywords, when
    there are any. *)
Definition question_matches (question : string) : list (string * list string) :=
  filter (fun m => Reception.nonempty (snd m))
    (map (fun entry => (fst entry, filter (keyword_matches question) (snd entry)))
       question_patterns).

Definition has_match (q_type : string) (matches : list (string * list string))
  : bool :=
  existsb (fun m => String.eqb (fst m) q_type) matches.

(** [_determine_question_type] *)
Definition _determine_question_type (question : string) : string :=
  if any_in transaction_words question then "money"%string
  else if any_in possession_words question then "money"%string
  else
    let matches := question_matches question in
    match matches with
    | [] => "general"%string
    | [m] => fst m
    | m :: _ =>
        if has_match "education" matches && has_match "lawsuit" matches then
          if any_in education_indicators question then "education"%string
          else if any_in legal_indicators question then "lawsuit"%string
          else fst m
        else fst m
    end.

Definition long_distance_keywords : list string :=
  ["far"; "foreign"; "abroad"; "overseas"; "international"; "long-distance";
   "long distance"; "long-term"; "extended"; "distant"; "vacation";
   "holiday"; "cruise"; "pilgrimage"]%string.

(** The chain of [if]/[elif] of [_determine_houses] on the question type: the
    list [houses] it leaves. *)
Definition primary_houses
  (question q_type : string) (third_person_analysis : option ThirdPerson)
  : option (list Z) :=
  if String.eqb q_type "lost_object" then Some [1; 2]
  else if String.eqb q_type "marriage" || str_in "spouse" question then Some [1; 7]
  else if String.eqb q_type "relationship" then Some [1; 1; 7]
  else if String.eqb q_type "pregnancy" then Some [1; 5]
  else if String.eqb q_type "children" then Some [1; 5]
  else if String.eqb q_type "gambling" then Some [1; 5]
  else if String.eqb q_type "travel" then
    if any_in long_distance_keywords question
    then Some [1; 9; 6] else Some [1; 3; 6]
  else if String.eqb q_type "funding" then
    if any_in ["secure"; "get"; "receive"; "obtain"; "raise"; "from investors";
               "investor"; "vc"; "angel"]%string question
    then Some [1; 1; 8]
    else if any_in ["my funding"; "our funding"; "have enough";
                    "sufficient capital"]%string question
    then Some [1; 1; 2]
    else Some [1; 2; 8]
  else if String.eqb q_type "money" then
    if any_in ["debt"; "loan"; "owe"; "borrow"]%string question
    then Some [1; 8] else Some [1; 2]
  else if String.eqb q_type "career" then Some [1; 10]
  else if String.eqb q_type "health" then Some [1; 1; 6]
  else if String.eqb q_type "lawsuit" then Some [1; 7]
  else if String.eqb q_type "education" then
    if match third_person_analysis with
       | Some t => is_third_person t
       | None => false
       end
    then
      student_house <-
        match third_person_analysis with
        | Some t => subject_house t
        | None => None
        end ;;
      let prep_house := _apply_house_derivation student_house 3 in
      let success_house := 10 in
      Some [1; student_house; prep_house; success_house]
    else if any_in ["my"; "i "; "will i"]%string question
    then Some [1; 9]
    else Some [1; 9]
  else if String.eqb q_type "parent" then
    if any_in ["father"; "dad"]%string question then Some [1; 4]
    else if any_in ["mother"; "mom"]%string question then Some [1; 10]
    else Some [1; 4]
  else if String.eqb q_type "sibling" then Some [1; 3]
  else if String.eqb q_type "friend_enemy" then
    if any_in ["friend"; "ally"]%string question then Some [1; 11]
    else Some [1; 7]
  else if String.eqb q_type "property" then Some [1; 4]
  else if String.eqb q_type "death" then Some [1; 8]
  else if String.eqb q_type "spiritual" then Some [1; 9]
  else
    if any_in ["other"; "they"; "he"; "she"; "person"; "someone"]%string question
    then Some [1; 7]
    else Some [1; 7].

(** The loop over [self.house_meanings] that appends the houses whose
    keywords occur in the question. *)
Fixpoint add_keyword_houses
  (question : string) (houses : list Z) (meanings : list (Z * list string))
  : list Z :=
  match meanings with
  | [] => houses
  | (house, keywords) :: rest =>
      if negb (Reception.Z_in house houses) && any_in keywords question
      then add_keyword_houses question (houses ++ [house]) rest
      else add_keyword_houses question houses rest
  end.

(** [_determine_houses] *)
Definition _determine_houses
  (question q_type : string) (third_person_analysis : option ThirdPerson)
  : option (list Z * option Possession) :=
  possession_analysis <- _analyze_possession_questions (lower question) ;;
  match possession_analysis with
  | Some pa => Some (pa_houses pa, Some pa)
  | None =>
      houses <- primary_houses question q_type third_person_analysis ;;
      if negb (String.eqb q_type "general")
      then Some (add_keyword_houses question houses house_meanings, None)
      else Some (houses, None)
  end.

(** The dictionary [_determine_significators] returns; a key that a branch
    does not write is [None] ([false] for [third_person_education], which is
    only read with [.get]). *)
Record DeterminedSignificators : Type := mkDeterminedSignificators {
  ds_querent_house : Z;
  ds_quesited_house : Z;
  ds_student_house : option Z;
  ds_preparation_house : option Z;
  ds_success_house : option Z;
  ds_moon_role : string;
  ds_special_significators : list (string * string);
  ds_transaction_type : bool;
  ds_third_person_education : bool
}.

(** [d[k] = v] on an insertion-ordered dictionary. *)
Fixpoint dict_set (d : list (string * string)) (k v : string)
  : list (string * string) :=
  match d with
  | [] => [(k, v)]
  | (k', v') :: rest =>
      if String.eqb k' k then (k', v) :: rest
      else (k', v') :: dict_set rest k v
  end.

(** The natural significators [_determine_significators] adds for a question
    type, in the order of the assignments. *)
Definition type_significators (q_type : string) : list (string * string) :=
  if String.eqb q_type "marriage" then
    [("venus", "natural significator of love");
     ("mars", "natural significator of men")]%string
  else if String.eqb q_type "gambling" then
    [("jupiter", "natural significator of fortune and luck");
     ("venus", "natural significator of pleasure and enjoyment")]%string
  else if String.eqb q_type "funding" then
    [("jupiter", "natural significator of abundance and investors");
     ("venus", "natural significator of attraction and partnerships");
     ("mercury", "natural significator of contracts and negotiations")]%string
  else if String.eqb q_type "money" then
    [("jupiter", "greater fortune"); ("venus", "lesser fortune")]%string
  else if String.eqb q_type "career" then
    [("sun", "honor and reputation"); ("jupiter", "success")]%string
  else if String.eqb q_type "health" then
    [("mars", "fever and inflammation"); ("saturn", "chronic illness")]%string
  else if String.eqb q_type "education" then
    [("mercury", "natural significator of learning and knowledge");
     ("jupiter", "wisdom and higher learning")]%string
  else if String.eqb q_type "travel" then
    [("mercury", "short journeys");
     ("jupiter", "long journeys and foreign travel")]%string
  else [].

Definition nth_or (houses : list Z) (n : nat) (default : Z) : Z :=
  match nth_error houses n with
  | Some h => h
  | None => default
  end.

(** [_determine_significators] *)
Definition _determine_significators
  (houses : list Z) (q_type : string)
  (possession_analysis : option Possession)
  (third_person_analysis : option ThirdPerson) : DeterminedSignificators :=
  let natural_sigs :=
    match possession_analysis with
    | Some pa => pa_natural_significators pa
    | None => None
    end in
  let base :=
    match natural_sigs with
    | Some ns =>
        {| ds_querent_house := 1; ds_quesited_house := 7;
           ds_student_house := None; ds_preparation_house := None;
           ds_success_house := None;
           ds_moon_role := "co-significator of querent and general flow";
           ds_special_significators := ns;
           ds_transaction_type := true;
           ds_third_person_education := false |}
    | None =>
        if match third_person_analysis with
           | Some t => is_third_person t
           | None => false
           end && String.eqb q_type "education"
        then
          {| ds_querent_house := 1;
             ds_quesited_house := nth_or houses 3 10;
             ds_student_house := Some (nth_or houses 1 7);
             ds_preparation_house := Some (nth_or houses 2 9);
             ds_success_house := Some (nth_or houses 3 10);
             ds_moon_role := "translation of light between significators";
             ds_special_significators := [];
             ds_transaction_type := false;
             ds_third_person_education := true |}
        else
          let target_house :=
            if String.eqb q_type "general" then 7
            else if (String.eqb q_type "relationship"
                     || String.eqb q_type "marriage")
                    && Reception.Z_in 7 houses
            then 7
            else if (1 <? List.length houses)%nat then last houses 7 else 7 in
          {| ds_querent_house := 1;
             ds_quesited_house := target_house;
             ds_student_house := None; ds_preparation_house := None;
             ds_success_house := None;
             ds_moon_role := "co-significator of querent and general flow";
             ds_special_significators := [];
             ds_transaction_type := false;
             ds_third_person_education := false |}
    end in
  {| ds_querent_house := ds_querent_house base;
     ds_quesited_house := ds_quesited_house base;
     ds_student_house := ds_student_house base;
     ds_preparation_house := ds_preparation_house base;
     ds_success_house := ds_success_house base;
     ds_moon_role := ds_moon_role base;
     ds_special_significators :=
       fold_left (fun d kv => dict_set d (fst kv) (snd kv))
         (type_significators q_type) (ds_special_significators base);
     ds_transaction_type := ds_transaction_type base;
     ds_third_person_education := ds_third_person_education base |}.

(** The dictionary [analyze_question] returns. *)
Record Analysis : Type := mkAnalysis {
  a_question_type : string;
  relevant_houses : list Z;
  a_significators : DeterminedSignificators;
  a_third_person_analysis : ThirdPerson;
  a_timeframe_analysis : Timeframe
}.

(** [analyze_question], with [datetime.now()] as [now]. *)
Definition analyze_question (question : string) (now : datetime)
  : option Analysis :=
  let question_lower := lower question in
  let third_person_analysis := _detect_third_person_question question_lower in
  timeframe_analysis <- _parse_question_timeframe question_lower now ;;
  let q_type := _determine_question_type question_lower in
  determined <- _determine_houses question_lower q_type (Some third_person_analysis) ;;
  let '(houses, possession_analysis) := determined in
  let significators :=
    _determine_significators houses q_type possession_analysis
      (Some third_person_analysis) in
  Some {| a_question_type := q_type;
          relevant_houses := houses;
          a_significators := significators;
          a_third_person_analysis := third_person_analysis;
          a_timeframe_analysis := timeframe_analysis |}.

(** The entries of an analysis that the judgment engine reads. *)
Definition question_analysis_of (a : Analysis) : QuestionAnalysis :=
  let s := a_significators a in
  {| question_type := Some (a_question_type a);
     significators :=
       {| si_transaction_type := ds_transaction_type s;
          si_quesited_house := Some (ds_quesited_house s);
          si_special_significators := ds_special_significators s;
          si_third_person_education := ds_third_person_education s;
          si_student_house := ds_student_house s;
          si_success_house := ds_success_house s |} |}.

End QuestionHouses.

(** A house number. *)
Definition is_house (h : Z) : Prop := 1 <= h <= 12.

(** Closes one branch of the house chain: the list it returns starts with
    house 1 and holds house numbers only. *)
Ltac primary_case H :=
  injection H as <-;
  repeat split; try reflexivity; unfold is_house;
  repeat constructor; try lia.

(** Evaluates the comparisons of two literal strings in the goal. *)
Ltac eval_literal_tests :=
  repeat match goal with
         | |- context [String.eqb ?a ?b] =>
             let v := eval vm_compute in (String.eqb a b) in
             change (String.eqb a b) with v
         end;
  cbv beta iota.

(** *** Sample questions *)

Definition sample_now : Calendar.datetime :=
  Calendar.mkdatetime 2024 6 15 12 0 0 0.

Definition no_third_person : QuestionAnalyzer.ThirdPerson :=
  {| QuestionAnalyzer.is_third_person := false;
     QuestionAnalyzer.subject_house := None;
     QuestionAnalyzer.turn_houses := None;
     QuestionAnalyzer.pattern_matched := None;
     QuestionAnalyzer.educational_context := false |}.

Definition will_he : QuestionAnalyzer.ThirdPerson :=
  {| QuestionAnalyzer.is_third_person := true;
     QuestionAnalyzer.subject_house := Some 7;
     QuestionAnalyzer.turn_houses := Some true;
     QuestionAnalyzer.pattern_matched := Some "will he"%string;
     QuestionAnalyzer.educational_context := false |}.

Definition no_timeframe : QuestionAnalyzer.Timeframe :=
  {| QuestionAnalyzer.has_timeframe := false;
     QuestionAnalyzer.tf_type := None;
     QuestionAnalyzer.end_date := None;
     QuestionAnalyzer.patterns_matched := [] |}.

(** The analysis of "Will he marry me?". *)
Definition marriage_analysis : QuestionHouses.Analysis :=
  {| QuestionHouses.a_question_type := "marriage";
     QuestionHouses.relevant_houses := [1; 7];
     QuestionHouses.a_significators :=
       {| QuestionHouses.ds_querent_house := 1;
          QuestionHouses.ds_quesited_house := 7;
          QuestionHouses.ds_student_house := None;
          QuestionHouses.ds_preparation_house := None;
          QuestionHouses.ds_success_house := None;
          QuestionHouses.ds_moon_role :=
            "co-significator of querent and general flow";
          QuestionHouses.ds_special_significators :=
            [("venus", "natural significator of love");
             ("mars", "natural significator of men")]%string;
          QuestionHouses.ds_transaction_type := false;
          QuestionHouses.ds_third_person_education := false |};
     QuestionHouses.a_third_person_analysis := will_he;
     QuestionHouses.a_timeframe_analysis := no_timeframe |}.

(** The analysis of "Will he pass the test?". *)
Definition test_analysis : QuestionHouses.Analysis :=
  {| QuestionHouses.a_question_type := "education";
     QuestionHouses.relevant_houses := [1; 7; 9; 10];
     QuestionHouses.a_significators :=
       {| QuestionHouses.ds_querent_house := 1;
          QuestionHouses.ds_quesited_house := 10;
          QuestionHouses.ds_student_house := Some 7;
          QuestionHouses.ds_preparation_house := Some 9;
          QuestionHouses.ds_success_house := Some 10;
          QuestionHouses.ds_moon_role :=
            "translation of light between significators";
          QuestionHouses.ds_special_significators :=
            [("mercury", "natural significator of learning and knowledge");
             ("jupiter", "wisdom and higher learning")]%string;
          QuestionHouses.ds_transaction_type := false;
          QuestionHouses.ds_third_person_education := true |};
     QuestionHouses.a_third_person_analysis := will_he;
     QuestionHouses.a_timeframe_analysis := no_timeframe |}.

(** The analysis of "Will I sell my car?". *)
Definition car_sale_analysis : QuestionHouses.Analysis :=
  {| QuestionHouses.a_question_type := "money";
     QuestionHouses.relevant_houses := [1; 7];
     QuestionHouses.a_significators :=
       {| QuestionHouses.ds_querent_house := 1;
          QuestionHouses.ds_quesited_house := 7;
          QuestionHouses.ds_student_house := None;
          QuestionHouses.ds_preparation_house := None;
          QuestionHouses.ds_success_house := None;
          QuestionHouses.ds_moon_role :=
            "co-significator of querent and general flow";
          QuestionHouses.ds_special_significators :=
            [("car", "sun"); ("category", "vehicle");
             ("traditional_source",
              "Based on classical horary significator assignments");
             ("jupiter", "greater fortune"); ("venus", "lesser fortune")]%string;
          QuestionHouses.ds_transaction_type := true;
          QuestionHouses.ds_third_person_education := false |};
     QuestionHouses.a_third_person_analysis := no_third_person;
     QuestionHouses.a_timeframe_analysis := no_timeframe |}.

(** The analysis of "Am I happy?". *)
Definition general_analysis : QuestionHouses.Analysis :=
  {| QuestionHouses.a_question_type := "general";
     QuestionHouses.relevant_houses := [1; 7];
     QuestionHouses.a_significators :=
       {| QuestionHouses.ds_querent_house := 1;
          QuestionHouses.ds_quesited_house := 7;
          QuestionHouses.ds_student_house := None;
          QuestionHouses.ds_preparation_house := None;
          QuestionHouses.ds_success_house := None;
          QuestionHouses.ds_moon_role :=
            "co-significator of querent and general flow";
          QuestionHouses.ds_special_significators := [];
          QuestionHouses.ds_transaction_type := false;
          QuestionHouses.ds_third_person_education := false |};
     QuestionHouses.a_third_person_analysis := no_third_person;
     QuestionHouses.a_timeframe_analysis := no_timeframe |}.

(** ** Chart calculator: dignities, angularity, solar condition

    The dignity functions of [EnhancedTraditionalAstrologicalCalculator], each
    written out as in the source.  [score += x] steps are the terms of one
    sum, in the order of the source. *)

Module Calculator.

(** The settings the dignity functions read: [cfg().dignity],
    [cfg().retrograde.dignity_penalty] and [cfg().confidence.solar]. *)
Record DignityConfig : Type := mkDignityConfig {
  dg_rulership : Z;
  dg_exaltation : Z;
  dg_detriment : Z;
  dg_fall : Z;
  dg_joy : Z;
  dg_angular : Z;
  dg_succedent : Z;
  dg_cadent : Z;
  dg_speed_bonus : Z;
  dg_speed_penalty : Z;
  dg_hayz_bonus : Z;
  dg_hayz_penalty : Z;
  retrograde_dignity_penalty : Z;
  solar_exact_cazimi_bonus : Z;
  solar_cazimi_bonus : Z;
  solar_combustion_penalty : Z;
  solar_under_beams_penalty : Z
}.

(** [self.exaltations] of the calculator. *)
Definition exaltations (p : Planet) : option Sign :=
  match p with
  | SUN => Some ARIES | MOON => Some TAURUS | MERCURY => Some VIRGO
  | VENUS => Some PISCES | MARS => Some CAPRICORN | JUPITER => Some CANCER
  | SATURN => Some LIBRA
  | ASC | MC => None
  end.

(** [self.falls] *)
Definition falls (p : Planet) : option Sign :=
  match p with
  | SUN => Some LIBRA | MOON => Some SCORPIO | MERCURY => Some PISCES
  | VENUS => Some VIRGO | MARS => Some CANCER | JUPITER => Some CAPRICORN
  | SATURN => Some ARIES
  | ASC | MC => None
  end.

(** [detriment_signs]; a planet that is no key of the table has no sign. *)
Definition detriment_signs (p : Planet) : list Sign :=
  match p with
  | SUN => [AQUARIUS]
  | MOON => [CAPRICORN]
  | MERCURY => [PISCES; SAGITTARIUS]
  | VENUS => [ARIES; SCORPIO]
  | MARS => [LIBRA; TAURUS]
  | JUPITER => [GEMINI; VIRGO]
  | SATURN => [CANCER; LEO]
  | ASC | MC => []
  end.

(** [house_joys] *)
Definition house_joys (p : Planet) : option Z :=
  match p with
  | MERCURY => Some 1 | MOON => Some 3 | VENUS => Some 5 | MARS => Some 6
  | SUN => Some 9 | JUPITER => Some 11 | SATURN => Some 12
  | ASC | MC => None
  end.

Definition Sign_in (s : Sign) (l : list Sign) : bool := existsb (Sign_eqb s) l.

Definition Planet_in (p : Planet) (l : list Planet) : bool :=
  existsb (Planet_eqb p) l.

Definition exalted_in (p : Planet) (s : Sign) : bool :=
  match exaltations p with
  | Some e => Sign_eqb e s
  | None => false
  end.

Definition falls_in (p : Planet) (s : Sign) : bool :=
  match falls p with
  | Some f => Sign_eqb f s
  | None => false
  end.

Definition has_joy_in (p : Planet) (house : Z) : bool :=
  match house_joys p with
  | Some h => h =? house
  | None => false
  end.

(** The calculator's own [_calculate_house_position]: the same body as the
    reception calculator's. *)
Definition _calculate_house_position (lon : Q) (hs : list Q) : option Z :=
  Reception.house_scan (Py.Qmod lon 360) hs (seq 0 12).

(** [_get_traditional_angularity]: fewer than ten cusps raise [IndexError]. *)
Definition _get_traditional_angularity
  (longitude : Q) (houses : list Q) (house : Z) : option string :=
  let longitude := Py.Qmod longitude 360 in
  c1 <- nth_error houses 0 ;;
  c4 <- nth_error houses 3 ;;
  c7 <- nth_error houses 6 ;;
  c10 <- nth_error houses 9 ;;
  if existsb
       (fun cusp =>
          let cusp := Py.Qmod cusp 360 in
          let distance :=
            Py.Qmin' (Py.Qabs' (longitude - cusp))
                     (360 - Py.Qabs' (longitude - cusp)) in
          Py.Qleb distance 5)
       [c1; c4; c7; c10]
  then Some "angular"%string
  else if Reception.Z_in house [1; 4; 7; 10] then Some "angular"%string
  else if Reception.Z_in house [2; 5; 8; 11] then Some "succedent"%string
  else Some "cadent"%string.

(** [_calculate_speed_dignity] *)
Definition _calculate_speed_dignity
  (dcfg : DignityConfig) (p : Planet) (speed : Q) : Z :=
  if Planet_eqb p MOON then
    if Py.Qltb 13 speed then dg_speed_bonus dcfg
    else if Py.Qltb speed 11 then dg_speed_penalty dcfg
    else 0
  else if Planet_in p [MERCURY; VENUS] then
    if Py.Qltb 1 speed then dg_speed_bonus dcfg else 0
  else if Planet_in p [MARS; JUPITER; SATURN] then
    if Py.Qltb (3 # 10) speed then dg_speed_bonus dcfg
    else if Py.Qltb speed (1 # 10) then dg_speed_penalty dcfg
    else 0
  else 0.

(** [_calculate_hayz_dignity] *)
Definition _calculate_hayz_dignity
  (dcfg : DignityConfig) (p : Planet) (sun_pos : PlanetPosition)
  (houses : list Q) : option Z :=
  sun_house <- _calculate_house_position (longitude sun_pos) houses ;;
  let is_day := Reception.Z_in sun_house [7; 8; 9; 10; 11; 12] in
  let diurnal_planets := [SUN; JUPITER; SATURN] in
  let nocturnal_planets := [MOON; VENUS; MARS] in
  if Planet_in p diurnal_planets && is_day then Some (dg_hayz_bonus dcfg)
  else if Planet_in p nocturnal_planets && negb is_day
  then Some (dg_hayz_bonus dcfg)
  else if Planet_in p diurnal_planets && negb is_day
  then Some (dg_hayz_penalty dcfg)
  else if Planet_in p nocturnal_planets && is_day
  then Some (dg_hayz_penalty dcfg)
  else Some 0.

(** [_calculate_enhanced_dignity] *)
Definition _calculate_enhanced_dignity
  (dcfg : DignityConfig) (p : Planet) (s : Sign) (house : Z)
  (solar_analysis : option SolarAnalysis) : Z :=
  0
  + (if Planet_eqb (Sign_ruler s) p then dg_rulership dcfg else 0)
  + (if exalted_in p s then dg_exaltation dcfg else 0)
  + (if Sign_in s (detriment_signs p) then dg_detriment dcfg else 0)
  + (if falls_in p s then dg_fall dcfg else 0)
  + (if has_joy_in p house then dg_joy dcfg else 0)
  + (if Reception.Z_in house [1; 4; 7; 10] then dg_angular dcfg
     else if Reception.Z_in house [2; 5; 8; 11] then dg_succedent dcfg
     else if Reception.Z_in house [3; 6; 9; 12] then dg_cadent dcfg
     else 0)
  + match solar_analysis with
    | Some sa =>
        match sa_condition sa with
        | CAZIMI =>
            if exact_cazimi sa then solar_exact_cazimi_bonus dcfg
            else solar_cazimi_bonus dcfg
        | COMBUSTION =>
            if negb (traditional_exception sa)
            then - solar_combustion_penalty dcfg else 0
        | UNDER_BEAMS =>
            if negb (traditional_exception sa)
            then - solar_under_beams_penalty dcfg else 0
        | FREE => 0
        end
    | None => 0
    end.

(** [_calculate_enhanced_dignity_with_5degree_rule] *)
Definition _calculate_enhanced_dignity_with_5degree_rule
  (dcfg : DignityConfig) (p : Planet) (planet_pos : PlanetPosition)
  (houses : list Q) (solar_analysis : option SolarAnalysis) : option Z :=
  let s := _get_sign (longitude planet_pos) in
  let house := house planet_pos in
  angularity <- _get_traditional_angularity (longitude planet_pos) houses house ;;
  Some
    (0
     + (if Planet_eqb (Sign_ruler s) p then dg_rulership dcfg else 0)
     + (if exalted_in p s then dg_exaltation dcfg else 0)
     + (if Sign_in s (detriment_signs p) then dg_detriment dcfg else 0)
     + (if falls_in p s then dg_fall dcfg else 0)
     + (if has_joy_in p house then dg_joy dcfg else 0)
     + (if String.eqb angularity "angular" then dg_angular dcfg
        else if String.eqb angularity "succedent" then dg_succedent dcfg
        else dg_cadent dcfg)
     + match solar_analysis with
       | Some sa =>
           match sa_condition sa with
           | CAZIMI =>
               if exact_cazimi sa then solar_exact_cazimi_bonus dcfg
               else solar_cazimi_bonus dcfg
           | COMBUSTION =>
               if negb (traditional_exception sa)
               then - solar_combustion_penalty dcfg else 0
           | UNDER_BEAMS =>
               if negb (traditional_exception sa)
               then - solar_under_beams_penalty dcfg else 0
           | FREE => 0
           end
       | None => 0
       end).

(** [_calculate_comprehensive_traditional_dignity]; the triplicity score is
    [_calculate_triplicity_dignity], which reads [cfg().dignity.triplicity]. *)
Definition _calculate_comprehensive_traditional_dignity
  (cfg : Config) (dcfg : DignityConfig) (p : Planet)
  (planet_pos : PlanetPosition) (houses : list Q) (sun_pos : PlanetPosition)
  (solar_analysis : option SolarAnalysis) : option Z :=
  let s := _get_sign (longitude planet_pos) in
  let house := house planet_pos in
  let triplicity_score :=
    DignityScorer._calculate_triplicity_dignity cfg p s sun_pos in
  angularity <- _get_traditional_angularity (longitude planet_pos) houses house ;;
  let speed_bonus := _calculate_speed_dignity dcfg p (speed planet_pos) in
  hayz_bonus <- _calculate_hayz_dignity dcfg p sun_pos houses ;;
  Some
    (0
     + (if Planet_eqb (Sign_ruler s) p then dg_rulership dcfg else 0)
     + (if exalted_in p s then dg_exaltation dcfg else 0)
     + triplicity_score
     + (if Sign_in s (detriment_signs p) then dg_detriment dcfg else 0)
     + (if falls_in p s then dg_fall dcfg else 0)
     + (if has_joy_in p house then dg_joy dcfg else 0)
     + (if String.eqb angularity "angular" then dg_angular dcfg
        else if String.eqb angularity "succedent" then dg_succedent dcfg
        else dg_cadent dcfg)
     + speed_bonus
     + (if retrograde planet_pos then retrograde_dignity_penalty dcfg else 0)
     + hayz_bonus
     + match solar_analysis with
       | Some sa =>
           match sa_condition sa with
           | CAZIMI =>
               if exact_cazimi sa then solar_exact_cazimi_bonus dcfg
               else solar_cazimi_bonus dcfg
           | COMBUSTION =>
               if negb (traditional_exception sa)
               then - solar_combustion_penalty dcfg else 0
           | UNDER_BEAMS =>
               if negb (traditional_exception sa)
               then - solar_under_beams_penalty dcfg else 0
           | FREE => 0
           end
       | None => 0
       end).

(** The five-degree test of [_get_traditional_angularity], by name: the
    longitude lies within five degrees of the cusp. *)
Definition near_cusp (longitude cusp : Q) : bool :=
  let longitude := Py.Qmod longitude 360 in
  let cusp := Py.Qmod cusp 360 in
  Py.Qleb (Py.Qmin' (Py.Qabs' (longitude - cusp))
                    (360 - Py.Qabs' (longitude - cusp))) 5.

(** *** Solar condition

    [calculate_elongation], [is_planet_oriental] and
    [sun_altitude_at_civil_twilight] are imported from [_horary_math], which
    is not among the sources: they are parameters. *)

Record SolarOrbs : Type := mkSolarOrbs {
  cazimi_orb_arcmin : Q;
  under_beams_orb : Q
}.

Section SolarCondition.

Variable cfg : Config.
Variable orbs : SolarOrbs.
Variable calculate_elongation : Q -> Q -> Q.
Variable is_planet_oriental : Q -> Q -> bool.
Variable sun_altitude_at_civil_twilight : Q -> Q -> Q -> Q.

(** [_check_enhanced_combustion_exception] *)
Definition _check_enhanced_combustion_exception
  (p : Planet) (planet_pos sun_pos : PlanetPosition) (lat lon jd_ut : Q) : bool :=
  let elongation :=
    calculate_elongation (longitude planet_pos) (longitude sun_pos) in
  if Py.Qltb elongation 10 then false
  else
    let is_oriental :=
      is_planet_oriental (longitude planet_pos) (longitude sun_pos) in
    let sun_altitude := sun_altitude_at_civil_twilight lat lon jd_ut in
    if Planet_eqb p MERCURY then
      if Py.Qleb 10 elongation && Sign_in (sign planet_pos) [GEMINI; VIRGO]
      then true
      else if Py.Qleb 18 elongation then true
      else false
    else if Planet_eqb p VENUS then
      if Py.Qleb 10 elongation then
        if Py.Qleb sun_altitude (-8) then true
        else if Py.Qleb 40 elongation then true
        else false
      else false
    else false.

(** [_analyze_enhanced_solar_condition] *)
Definition _analyze_enhanced_solar_condition
  (p : Planet) (planet_pos sun_pos : PlanetPosition) (lat lon jd_ut : Q)
  : SolarAnalysis :=
  if Planet_eqb p SUN then
    {| sa_planet := p; distance_from_sun := 0; sa_condition := FREE;
       exact_cazimi := false; traditional_exception := false |}
  else
    let elongation :=
      calculate_elongation (longitude planet_pos) (longitude sun_pos) in
    let cazimi_orb := (cazimi_orb_arcmin orbs / 60)%Q in
    let combustion_orb := combustion_orb cfg in
    let under_beams_orb := under_beams_orb orbs in
    let traditional_exception :=
      if Planet_in p [MERCURY; VENUS]
      then _check_enhanced_combustion_exception p planet_pos sun_pos lat lon jd_ut
      else false in
    if Py.Qleb elongation cazimi_orb then
      {| sa_planet := p; distance_from_sun := elongation;
         sa_condition := CAZIMI;
         exact_cazimi := Py.Qleb elongation (3 / 60);
         traditional_exception := false |}
    else if Py.Qleb elongation combustion_orb then
      if traditional_exception then
        {| sa_planet := p; distance_from_sun := elongation;
           sa_condition := FREE; exact_cazimi := false;
           traditional_exception := true |}
      else
        {| sa_planet := p; distance_from_sun := elongation;
           sa_condition := COMBUSTION; exact_cazimi := false;
           traditional_exception := false |}
    else if Py.Qleb elongation under_beams_orb then
      if traditional_exception then
        {| sa_planet := p; distance_from_sun := elongation;
           sa_condition := FREE; exact_cazimi := false;
           traditional_exception := true |}
      else
        {| sa_planet := p; distance_from_sun := elongation;
           sa_condition := UNDER_BEAMS; exact_cazimi := false;
           traditional_exception := false |}
    else
      {| sa_planet := p; distance_from_sun := elongation;
         sa_condition := FREE; exact_cazimi := false;
         traditional_exception := false |}.

End SolarCondition.

(** *** Lunar aspects and timing prose *)

(** [_is_moon_separating_from_aspect] *)
Definition _is_moon_separating_from_aspect
  (moon_pos planet_pos : PlanetPosition) (a : Aspect) (moon_speed : Q) : bool :=
  let time_increment := (1 # 10)%Q in
  let current_separation :=
    angular_separation (longitude moon_pos) (longitude planet_pos) in
  let future_moon_lon :=
    Py.Qmod (longitude moon_pos + moon_speed * time_increment) 360 in
  let future_separation :=
    angular_separation future_moon_lon (longitude planet_pos) in
  let current_orb := Py.Qabs' (current_separation - Py.Qz (Aspect_degrees a)) in
  let future_orb := Py.Qabs' (future_separation - Py.Qz (Aspect_degrees a)) in
  Py.Qltb current_orb future_orb.

(** [_format_timing_description]; [None] is [float('inf')]. *)
Definition _format_timing_description (days : option Q) : string :=
  match days with
  | None => "More than a year"
  | Some days =>
      if Py.Qltb days (1 # 2) then "Within hours"
      else if Py.Qltb days 1 then "Within a day"
      else if Py.Qltb days 7
      then "Within " ++ str_of_Z (int_of_Q days) ++ " days"
      else if Py.Qltb days 30
      then "Within " ++ str_of_Z (int_of_Q (days / 7)) ++ " weeks"
      else if Py.Qltb days 365
      then "Within " ++ str_of_Z (int_of_Q (days / 30)) ++ " months"
      else "More than a year"
  end%string.

(** [_format_timing_description_enhanced] of the judgment engine. *)
Definition _format_timing_description_enhanced (days : option Q) : string :=
  match days with
  | None => "More than a year"
  | Some days =>
      if Py.Qltb days (1 # 2) then "Within hours"
      else if Py.Qltb days 1 then "Within a day"
      else if Py.Qltb days 7
      then "Within " ++ str_of_Z (int_of_Q days) ++ " days"
      else if Py.Qltb days 30
      then "Within " ++ str_of_Z (int_of_Q (days / 7)) ++ " weeks"
      else if Py.Qltb days 365
      then "Within " ++ str_of_Z (int_of_Q (days / 30)) ++ " months"
      else "More than a year"
  end%string.

End Calculator.

(** *** Sample dignity settings

    The values stand for the [dignity], [retrograde] and [confidence.solar]
    sections of a configuration document. *)

Definition sample_dignity : Calculator.DignityConfig :=
  {| Calculator.dg_rulership := 5;
     Calculator.dg_exaltation := 4;
     Calculator.dg_detriment := -5;
     Calculator.dg_fall := -4;
     Calculator.dg_joy := 2;
     Calculator.dg_angular := 3;
     Calculator.dg_succedent := 1;
     Calculator.dg_cadent := -1;
     Calculator.dg_speed_bonus := 1;
     Calculator.dg_speed_penalty := -1;
     Calculator.dg_hayz_bonus := 1;
     Calculator.dg_hayz_penalty := -1;
     Calculator.retrograde_dignity_penalty := -2;
     Calculator.solar_exact_cazimi_bonus := 6;
     Calculator.solar_cazimi_bonus := 3;
     Calculator.solar_combustion_penalty := 5;
     Calculator.solar_under_beams_penalty := 3 |}.

(** Venus at 5 Libra and the Sun at 10 Cancer, with equal houses from an
    ascendant at 10 Aries. *)
Definition venus_in_libra : PlanetPosition :=
  snd (body (equal_houses 10) VENUS 185 1 0).

Definition sun_in_cancer : PlanetPosition :=
  snd (body (equal_houses 10) SUN 100 1 0).

(** The [cazimi_orb_arcmin] and [under_beams_orb] settings of the same
    document. *)
Definition sample_solar_orbs : Calculator.SolarOrbs :=
  {| Calculator.cazimi_orb_arcmin := 17; Calculator.under_beams_orb := 15 |}.

(** Mercury at 8 Gemini with the Sun at 0 Gemini. *)
Definition mercury_in_gemini : PlanetPosition :=
  snd (body (equal_houses 10) MERCURY 68 1 0).

Definition sun_in_gemini : PlanetPosition :=
  snd (body (equal_houses 10) SUN 60 1 0).

(** ** Moon story: the last separating aspect ([_calculate_moon_last_aspect])

    The aspects of one body, in the order of [for aspect_type in Aspect].
    Appending an aspect divides by the Moon's speed: a speed of zero raises
    [ZeroDivisionError]. *)
Fixpoint moon_separating_aspects_with
  (cfg : Config) (moon_pos : PlanetPosition) (moon_speed : Q)
  (p : Planet) (planet_pos : PlanetPosition) (types : list Aspect)
  : option (list LunarAspect) :=
  match types with
  | [] => Some []
  | a :: rest =>
      let separation :=
        angular_separation (longitude moon_pos) (longitude planet_pos) in
      let orb_diff := Py.Qabs' (separation - Py.Qz (Aspect_degrees a)) in
      if Py.Qleb orb_diff (Aspect_orb cfg a * (3 # 2))
         && Calculator._is_moon_separating_from_aspect
              moon_pos planet_pos a moon_speed
      then
        if Py.Qeqb moon_speed 0 then None
        else
          later <- moon_separating_aspects_with cfg moon_pos moon_speed
                     p planet_pos rest ;;
          Some ({| la_planet := p; la_aspect := a; la_orb := orb_diff;
                   degrees_difference := orb_diff;
                   perfection_eta_days := Some (orb_diff / moon_speed)%Q;
                   la_applying := false |} :: later)
      else moon_separating_aspects_with cfg moon_pos moon_speed
             p planet_pos rest
  end.

(** The loop [for planet, planet_pos in planets.items()]. *)
Fixpoint moon_separating_aspects
  (cfg : Config) (moon_pos : PlanetPosition) (moon_speed : Q) (ps : Planets)
  : option (list LunarAspect) :=
  match ps with
  | [] => Some []
  | (p, planet_pos) :: rest =>
      if Planet_eqb p MOON
      then moon_separating_aspects cfg moon_pos moon_speed rest
      else
        here <- moon_separating_aspects_with cfg moon_pos moon_speed
                  p planet_pos all_aspects ;;
        later <- moon_separating_aspects cfg moon_pos moon_speed rest ;;
        Some (here ++ later)
  end.

(** [_calculate_moon_last_aspect]: [Some None] is the returned [None]. *)
Definition _calculate_moon_last_aspect
  (cfg : Config) (ps : Planets) (moon_speed : Q) : option (option LunarAspect) :=
  moon_pos <- planets_get ps MOON ;;
  separating_aspects <- moon_separating_aspects cfg moon_pos moon_speed ps ;;
  match separating_aspects with
  | [] => Some None
  | x :: rest => Some (Some (soonest x rest))
  end.

(** * Properties *)

(** ** Basic facts about the toolkit *)

Lemma Qltb_lt (x y : Q) : Py.Qltb x y = true <-> (x < y)%Q.
Proof.
  unfold Py.Qltb. rewrite negb_true_iff.
  split; intro H.
  - apply Qnot_le_lt. intro Hle. apply Qle_bool_iff in Hle. congruence.
  - destruct (Qle_bool y x) eqn:E; [|reflexivity].
    apply Qle_bool_iff in E. exfalso. apply (Qlt_not_le _ _ H E).
Qed.

Lemma Qleb_le (x y : Q) : Py.Qleb x y = true <-> (x <= y)%Q.
Proof. unfold Py.Qleb. apply Qle_bool_iff. Qed.

Lemma Qltb_ge (x y : Q) : Py.Qltb x y = false <-> (y <= x)%Q.
Proof. unfold Py.Qltb. rewrite negb_false_iff. apply Qle_bool_iff. Qed.

Lemma Qleb_gt (x y : Q) : Py.Qleb x y = false <-> (y < x)%Q.
Proof.
  unfold Py.Qleb. split; intro H.
  - apply Qnot_le_lt. intro Hle. apply Qle_bool_iff in Hle. congruence.
  - destruct (Qle_bool x y) eqn:E; [|reflexivity].
    apply Qle_bool_iff in E. exfalso. apply (Qlt_not_le _ _ H E).
Qed.

Lemma Planet_eqb_eq (a b : Planet) : Planet_eqb a b = true <-> a = b.
Proof. destruct a, b; simpl; split; congruence. Qed.

Lemma Planet_eqb_refl (a : Planet) : Planet_eqb a a = true.
Proof. destruct a; reflexivity. Qed.

Lemma Planet_eqb_neq (a b : Planet) : Planet_eqb a b = false <-> a <> b.
Proof. destruct a, b; simpl; split; congruence. Qed.

Lemma Aspect_eqb_eq (a b : Aspect) : Aspect_eqb a b = true <-> a = b.
Proof. destruct a, b; simpl; split; congruence. Qed.

Lemma Sign_eqb_eq (a b : Sign) : Sign_eqb a b = true <-> a = b.
Proof. destruct a, b; simpl; split; congruence. Qed.

(** ** Triplicity rulers: dignity scorer against reception calculator *)

(** On the fire, earth and air signs the two tables agree for both sects. *)
Lemma triplicity_tables_agree_off_water (s : Sign) (sect : Sect) :
  s <> CANCER -> s <> SCORPIO -> s <> PISCES ->
  DignityScorer.triplicity_rulers s sect = Reception.triplicity_rulers s sect.
Proof.
  intros Hc Hs Hp. destruct s, sect; simpl; try reflexivity; congruence.
Qed.

(** On every water sign the two tables name different rulers, for both
    sects: each holds the other's day and night rulers swapped. *)
Lemma triplicity_tables_swapped_on_water (sect : Sect) :
  DignityScorer.triplicity_rulers CANCER sect
    = Reception.triplicity_rulers CANCER
        (match sect with Day => Night | Night => Day end)
  /\ DignityScorer.triplicity_rulers SCORPIO sect
       <> Reception.triplicity_rulers SCORPIO sect
  /\ DignityScorer.triplicity_rulers PISCES sect
       <> Reception.triplicity_rulers PISCES sect.
Proof. destruct sect; simpl; repeat split; congruence. Qed.

(** C10.  The triplicity ruler of the dignity scorer and that of the
    reception calculator differ: for Cancer in a day chart the scorer's table
    holds Venus and the calculator's holds Mars.  With the Sun in the 10th
    house, Venus in Cancer is scored the triplicity bonus by
    [_calculate_triplicity_dignity], while [_has_triplicity_dignity] of the
    reception calculator denies Venus that dignity and grants it to Mars. *)
Theorem triplicity_ruler_mismatch_cancer_day :
  DignityScorer.triplicity_rulers CANCER Day = VENUS
  /\ Reception.triplicity_rulers CANCER Day = MARS
  /\ (forall (cfg : Config) (sun_pos : PlanetPosition),
        DignityScorer._calculate_triplicity_dignity cfg VENUS CANCER
          (mkPlanetPosition SUN (longitude sun_pos) (latitude sun_pos) 10
             (sign sun_pos) (dignity_score sun_pos) (retrograde sun_pos)
             (speed sun_pos))
        = dignity_triplicity cfg)
  /\ Reception._has_triplicity_dignity VENUS CANCER true = false
  /\ Reception._has_triplicity_dignity MARS CANCER true = true.
Proof.
  repeat split; try reflexivity.
Qed.

(** ** Confidence threshold *)

(** The reasoning list only ever grows at its end. *)
Lemma confidence_threshold_reasoning_prefix
  (res : string) (c : Z) (reasoning : list string) :
  exists extra, snd (_apply_confidence_threshold res c reasoning) = reasoning ++ extra.
Proof.
  unfold _apply_confidence_threshold.
  destruct (c <? 50); [destruct (String.eqb res "YES"); [destruct (c <? 30)|]|];
    simpl; try (eexists; reflexivity); exists []; now rewrite app_nil_r.
Qed.

(** C5.  A YES below 30 becomes NO with confidence [max confidence 20]; a YES
    from 30 to 49 becomes INCONCLUSIVE with the same confidence; every other
    verdict and confidence is returned unchanged. *)
Theorem confidence_threshold_cases
  (res : string) (c : Z) (reasoning : list string) :
  (res = "YES"%string -> c < 30 ->
     fst (_apply_confidence_threshold res c reasoning)
     = ("NO"%string, Z.max c 20))
  /\ (res = "YES"%string -> 30 <= c <= 49 ->
        fst (_apply_confidence_threshold res c reasoning)
        = ("INCONCLUSIVE"%string, c))
  /\ (res <> "YES"%string \/ 50 <= c ->
        fst (_apply_confidence_threshold res c reasoning) = (res, c)).
Proof.
  unfold _apply_confidence_threshold.
  split; [|split].
  - intros -> Hc.
    replace (c <? 50) with true by (symmetry; apply Z.ltb_lt; lia).
    replace (c <? 30) with true by (symmetry; apply Z.ltb_lt; lia).
    reflexivity.
  - intros -> Hc.
    replace (c <? 50) with true by (symmetry; apply Z.ltb_lt; lia).
    replace (c <? 30) with false by (symmetry; apply Z.ltb_ge; lia).
    reflexivity.
  - intros [Hne | Hc].
    + apply String.eqb_neq in Hne. rewrite Hne.
      destruct (c <? 50); reflexivity.
    + replace (c <? 50) with false by (symmetry; apply Z.ltb_ge; lia).
      reflexivity.
Qed.

Lemma confidence_threshold_cases_witness :
  fst (_apply_confidence_threshold "YES" 12 []) = ("NO"%string, 20)
  /\ fst (_apply_confidence_threshold "YES" 42 []) = ("INCONCLUSIVE"%string, 42)
  /\ fst (_apply_confidence_threshold "NO" 12 []) = ("NO"%string, 12)
  /\ fst (_apply_confidence_threshold "YES" 50 []) = ("YES"%string, 50).
Proof.
  split; [|split; [|split]].
  - apply (proj1 (confidence_threshold_cases "YES" 12 [])); [reflexivity | lia].
  - apply (proj1 (proj2 (confidence_threshold_cases "YES" 42 []))); [reflexivity | lia].
  - apply (proj2 (proj2 (confidence_threshold_cases "NO" 12 []))).
    left. discriminate.
  - apply (proj2 (proj2 (confidence_threshold_cases "YES" 50 []))).
    right. lia.
Defined.

(** ** Question analyzer *)

(** C4.  The question "Is she pregnant?" holds the pronoun "she", and the
    analyzer reports it as not third person, with no subject house: none of
    the phrases of [third_person_patterns] occurs in it. *)
Theorem is_she_pregnant_not_third_person :
  QuestionAnalyzer.third_person_analysis "Is she pregnant?"
  = {| QuestionAnalyzer.is_third_person := false;
       QuestionAnalyzer.subject_house := None;
       QuestionAnalyzer.turn_houses := None;
       QuestionAnalyzer.pattern_matched := None;
       QuestionAnalyzer.educational_context := false |}.
Proof. vm_compute. reflexivity. Qed.

(** The other two questions of the repository's pronoun test fare the same,
    while a question led by "will he" is detected. *)
Lemma direct_pronoun_questions :
  QuestionAnalyzer.is_third_person
    (QuestionAnalyzer.third_person_analysis "Is he lying?") = false
  /\ QuestionAnalyzer.is_third_person
       (QuestionAnalyzer.third_person_analysis "Is they happy?") = false
  /\ QuestionAnalyzer.third_person_analysis "Will he marry me?"
     = {| QuestionAnalyzer.is_third_person := true;
          QuestionAnalyzer.subject_house := Some 7;
          QuestionAnalyzer.turn_houses := Some true;
          QuestionAnalyzer.pattern_matched := Some "will he"%string;
          QuestionAnalyzer.educational_context := false |}.
Proof. repeat split; vm_compute; reflexivity. Qed.

(** Whenever the analyzer does report third person, the subject house is 7. *)
Lemma third_person_subject_house (q : string) :
  QuestionAnalyzer.is_third_person (QuestionAnalyzer._detect_third_person_question q) = true ->
  QuestionAnalyzer.subject_house (QuestionAnalyzer._detect_third_person_question q) = Some 7.
Proof.
  unfold QuestionAnalyzer._detect_third_person_question.
  destruct (find _ _); [reflexivity|].
  destruct (existsb _ _); [reflexivity | discriminate].
Qed.

(** C3.  For "Will I get a job in September?" the timeframe parser reports no
    timeframe at all, whatever the current date: no type and no end date. *)
Theorem september_question_has_no_timeframe (now : Calendar.datetime) :
  QuestionAnalyzer.timeframe_analysis "Will I get a job in September?" now
  = Some {| QuestionAnalyzer.has_timeframe := false;
            QuestionAnalyzer.tf_type := None;
            QuestionAnalyzer.end_date := None;
            QuestionAnalyzer.patterns_matched := [] |}.
Proof. vm_compute. reflexivity. Qed.

(** The types the parser can report are the keys of [timeframe_patterns]:
    [by_date] is one of them and [specific_month] is not. *)
Lemma timeframe_type_is_a_pattern_key
  (q : string) (now : Calendar.datetime) (t : QuestionAnalyzer.Timeframe) (ty : string) :
  QuestionAnalyzer._parse_question_timeframe q now = Some t ->
  QuestionAnalyzer.tf_type t = Some ty ->
  In ty ["this_month"; "next_month"; "this_year"; "this_week"; "today";
         "soon"; "by_date"]%string.
Proof.
  unfold QuestionAnalyzer._parse_question_timeframe.
  destruct (QuestionAnalyzer.detected_timeframes q) as [|first rest] eqn:E.
  - intros [= <-]. discriminate.
  - intros H Hty.
    assert (Hfirst : In first (QuestionAnalyzer.detected_timeframes q))
      by (rewrite E; left; reflexivity).
    assert (ty = first).
    { match type of H with
      | Py.bind ?m _ = _ => destruct m as [ed|]
      end; simpl in H; [|discriminate].
      injection H as <-. simpl in Hty. congruence. }
    subst ty.
    unfold QuestionAnalyzer.detected_timeframes in Hfirst.
    apply in_map_iff in Hfirst. destruct Hfirst as [e [<- He]].
    apply filter_In in He. destruct He as [He _].
    simpl in He.
    repeat (destruct He as [<- | He]; [simpl; tauto|]). contradiction.
Qed.

(** A question with a timeframe whose type lies outside the specification's
    set, and a [next_month] question left without an end date. *)
Lemma timeframe_by_date_and_next_month :
  QuestionAnalyzer.timeframe_analysis "Will I get a job by June 30?"
    (Calendar.mkdatetime 2024 6 15 0 0 0 0)
  = Some {| QuestionAnalyzer.has_timeframe := true;
            QuestionAnalyzer.tf_type := Some "by_date"%string;
            QuestionAnalyzer.end_date := None;
            QuestionAnalyzer.patterns_matched := ["by_date"%string] |}
  /\ QuestionAnalyzer.timeframe_analysis "Will I get a job next month?"
       (Calendar.mkdatetime 2024 6 15 0 0 0 0)
     = Some {| QuestionAnalyzer.has_timeframe := true;
               QuestionAnalyzer.tf_type := Some "next_month"%string;
               QuestionAnalyzer.end_date := None;
               QuestionAnalyzer.patterns_matched := ["next_month"%string] |}.
Proof. split; vm_compute; reflexivity. Qed.

(** ** Aspect engine *)

(** *** The normalising loops end by their condition, not by their fuel *)

Lemma loop_fuel_covers (s : Q) :
  (Qabs s < 360 * inject_Z (Z.of_nat (loop_fuel s)))%Q.
Proof.
  unfold loop_fuel.
  assert (H0 : (0 <= Qabs s / 360)%Q).
  { apply Qle_shift_div_l; [reflexivity|]. rewrite Qmult_0_l. apply Qabs_nonneg. }
  assert (Hc := Qle_ceiling (Qabs s / 360)).
  assert (Hz : 0 <= Qceiling (Qabs s / 360)).
  { apply Z.le_trans with (Qceiling 0); [reflexivity|].
    apply Qceiling_resp_le. exact H0. }
  rewrite Nat2Z.inj_succ, Z2Nat.id by exact Hz.
  unfold Z.succ. rewrite inject_Z_plus.
  assert (Hs : (Qabs s == Qabs s / 360 * 360)%Q) by (field).
  rewrite Hs at 1. clear Hs.
  set (c := inject_Z (Qceiling (Qabs s / 360))) in *.
  set (x := (Qabs s / 360)%Q) in *.
  change (inject_Z 1) with 1%Q. lra.
Qed.

Lemma while_above_done (fuel : nat) (s : Q) :
  (s <= 180 + 360 * inject_Z (Z.of_nat fuel))%Q ->
  (while_above fuel s <= 180)%Q.
Proof.
  revert s. induction fuel as [|f IH]; intros s Hs.
  - simpl in *. change (inject_Z 0) with 0%Q in Hs. lra.
  - simpl. destruct (Py.Qltb 180 s) eqn:E.
    + apply IH. rewrite Nat2Z.inj_succ in Hs. unfold Z.succ in Hs.
      rewrite inject_Z_plus in Hs. change (inject_Z 1) with 1%Q in Hs. lra.
    + apply Qltb_ge in E. exact E.
Qed.

Lemma while_below_done (fuel : nat) (s : Q) :
  (s <= 180)%Q ->
  (-180 - 360 * inject_Z (Z.of_nat fuel) <= s)%Q ->
  (-180 <= while_below fuel s <= 180)%Q.
Proof.
  revert s. induction fuel as [|f IH]; intros s Hu Hs.
  - simpl in *. change (inject_Z 0) with 0%Q in Hs. lra.
  - simpl. destruct (Py.Qltb s (-180)) eqn:E.
    + apply Qltb_lt in E. apply IH; [lra|].
      rewrite Nat2Z.inj_succ in Hs. unfold Z.succ in Hs.
      rewrite inject_Z_plus in Hs. change (inject_Z 1) with 1%Q in Hs. lra.
    + apply Qltb_ge in E. lra.
Qed.

(** The normalised separation lies in [-180, 180]: both loops have run to
    their exit condition. *)
Lemma normalize180_range (s : Q) : (-180 <= normalize180 s <= 180)%Q.
Proof.
  unfold normalize180.
  set (s1 := while_above (loop_fuel s) s).
  assert (H1 : (s1 <= 180)%Q).
  { apply while_above_done. assert (H := loop_fuel_covers s).
    assert (Ha := Qle_Qabs s). lra. }
  apply while_below_done; [exact H1|].
  assert (H := loop_fuel_covers s1).
  assert (Ha : (- s1 <= Qabs s1)%Q).
  { rewrite <- Qabs_opp. apply Qle_Qabs. }
  lra.
Qed.

(** *** What [applying] guarantees *)

Section ApplyingFacts.

Variable cfg : Config.
Variable days_to_sign_exit : Q -> Q -> option Q.

Lemma guard_passed (exit dtp : option Q) :
  truthy exit
  && match exit with Some d => inf_gtb dtp d | None => false end = false ->
  forall d, exit = Some d -> ~ (d == 0)%Q ->
  exists t, dtp = Some t /\ (t <= d)%Q.
Proof.
  intros H d -> Hd. simpl in H.
  assert (Hq : Py.Qeqb d 0 = false).
  { unfold Py.Qeqb. destruct (Qeq_bool d 0) eqn:E; [|reflexivity].
    apply Qeq_bool_iff in E. contradiction. }
  rewrite Hq in H. simpl in H.
  destruct dtp as [t|]; simpl in H; [|discriminate].
  exists t. split; [reflexivity|]. apply Qltb_ge. exact H.
Qed.

(** Every pair the engine marks as applying has a strictly smaller orb after
    the configured time increment, and perfects before either body leaves
    its sign whenever that body's time to exit is reported and not zero. *)
Lemma is_applying_enhanced_sound (pos1 pos2 : PlanetPosition) (a : Aspect) :
  _is_applying_enhanced cfg days_to_sign_exit pos1 pos2 a = true ->
  (app_future_orb cfg pos1 pos2 a < app_current_orb pos1 pos2 a)%Q
  /\ perfects_before_exit days_to_sign_exit pos1 pos2 a
       (fst (faster_slower pos1 pos2))
  /\ perfects_before_exit days_to_sign_exit pos1 pos2 a
       (snd (faster_slower pos1 pos2)).
Proof.
  unfold _is_applying_enhanced, perfects_before_exit.
  destruct (faster_slower pos1 pos2) as [faster slower]. simpl fst. simpl snd.
  set (dtp := app_days_to_perfect pos1 pos2 a).
  destruct (truthy (days_to_sign_exit (longitude faster) (speed faster)) && _) eqn:E1;
    [discriminate|].
  destruct (truthy (days_to_sign_exit (longitude slower) (speed slower)) && _) eqn:E2;
    [discriminate|].
  intro H. split; [apply Qltb_lt; exact H|].
  split; intros d Hd Hnz.
  - exact (guard_passed _ _ E1 d Hd Hnz).
  - exact (guard_passed _ _ E2 d Hd Hnz).
Qed.

(** An applying pair is in relative motion. *)
Lemma is_applying_enhanced_moves (pos1 pos2 : PlanetPosition) (a : Aspect) :
  _is_applying_enhanced cfg days_to_sign_exit pos1 pos2 a = true ->
  ~ (relative_speed pos1 pos2 == 0)%Q.
Proof.
  intros H Hz. apply is_applying_enhanced_sound in H. destruct H as [H _].
  unfold app_future_orb in H.
  assert (E : (app_separation pos1 pos2
               + relative_speed pos1 pos2 * timing_precision_days cfg
               == app_separation pos1 pos2)%Q) by (rewrite Hz; ring).
  unfold app_current_orb in H.
  assert (R := normalize180_range (longitude (fst (faster_slower pos1 pos2))
                                   - longitude (snd (faster_slower pos1 pos2)))).
  assert (Hfix : forall s, (-180 <= s <= 180)%Q -> normalize180 s = s).
  { intros s [Hl Hu]. unfold normalize180, loop_fuel. simpl.
    assert (E1 : Py.Qltb 180 s = false) by (apply Qltb_ge; exact Hu).
    rewrite E1.
    assert (E2 : Py.Qltb s (-180) = false) by (apply Qltb_ge; exact Hl).
    cbn [while_below]. rewrite E2. reflexivity. }
  assert (Hsep : (-180 <= app_separation pos1 pos2 <= 180)%Q).
  { unfold app_separation. destruct (faster_slower pos1 pos2). exact R. }
  set (s := app_separation pos1 pos2) in *.
  set (s' := (s + relative_speed pos1 pos2 * timing_precision_days cfg)%Q) in *.
  assert (Hs' : (-180 <= s' <= 180)%Q) by (rewrite E; exact Hsep).
  rewrite (Hfix s' Hs') in H.
  unfold Py.Qabs' in H.
  assert (Heq : (Qabs (s' - closest_target a s) == Qabs (s - closest_target a s))%Q).
  { apply Qabs_wd. rewrite E. reflexivity. }
  rewrite Heq in H. apply Qlt_irrefl in H. exact H.
Qed.

End ApplyingFacts.

(** C8.  Mercury retrograde at exactly 0 Taurus and Venus at 27 Gemini are
    marked as applying to their sextile, which perfects in two days, although
    Mercury's time to leave Taurus in its direction of motion is zero: the
    sign-exit guard reads the reported [0.0] days as "no exit time". *)
Theorem applying_marked_past_sign_exit :
  _is_applying_enhanced sample_config days_to_sign_exit_fallback
    cusp_mercury gemini_venus SEXTILE = true
  /\ fst (faster_slower cusp_mercury gemini_venus) = cusp_mercury
  /\ sign cusp_mercury = TAURUS
  /\ (exists d, days_to_sign_exit_fallback (longitude cusp_mercury)
                  (speed cusp_mercury) = Some d /\ (d == 0)%Q)
  /\ (exists t, app_days_to_perfect cusp_mercury gemini_venus SEXTILE = Some t
                /\ (t == 2)%Q)
  /\ existsb
       (fun a => Planet_eqb (planet1 a) MERCURY && Planet_eqb (planet2 a) VENUS
                 && Aspect_eqb (ai_aspect a) SEXTILE && ai_applying a)
       (_calculate_enhanced_aspects sample_config days_to_sign_exit_fallback
          cusp_mercury_planets) = true.
Proof.
  split; [vm_compute; reflexivity|].
  split; [vm_compute; reflexivity|].
  split; [vm_compute; reflexivity|].
  split; [eexists; split; [vm_compute; reflexivity | reflexivity]|].
  split; [eexists; split; [vm_compute; reflexivity | reflexivity]|].
  vm_compute. reflexivity.
Qed.

(** *** One aspect per pair, the first within orb *)

Section AspectEngineFacts.

Variable cfg : Config.
Variable days_to_sign_exit : Q -> Q -> option Q.

Let engine := _calculate_enhanced_aspects cfg days_to_sign_exit.

Lemma first_aspect_in_orb_find
  (p1 : Planet) (pos1 : PlanetPosition) (p2 : Planet) (pos2 : PlanetPosition)
  (angle : Q) (types : list Aspect) :
  first_aspect_in_orb cfg days_to_sign_exit p1 pos1 p2 pos2 angle types
  = match find (within_orb cfg p1 p2 angle) types with
    | Some a =>
        [ {| planet1 := p1; planet2 := p2; ai_aspect := a;
             ai_orb := Py.Qabs' (angle - Py.Qz (Aspect_degrees a));
             ai_applying := _is_applying_enhanced cfg days_to_sign_exit pos1 pos2 a;
             degrees_to_exact :=
               _calculate_enhanced_degrees_to_exact pos1 pos2 a |} ]
    | None => []
    end.
Proof.
  induction types as [|a rest IH]; simpl; [reflexivity|].
  unfold within_orb at 1.
  destruct (Py.Qleb _ _); [reflexivity | exact IH].
Qed.

Lemma pair_aspects_length
  (p1 : Planet) (pos1 : PlanetPosition) (p2 : Planet) (pos2 : PlanetPosition) :
  (List.length (pair_aspects cfg days_to_sign_exit p1 pos1 p2 pos2) <= 1)%nat.
Proof.
  unfold pair_aspects. rewrite first_aspect_in_orb_find.
  destruct (find _ _); simpl; lia.
Qed.

Lemma pair_aspects_In
  (p1 : Planet) (pos1 : PlanetPosition) (p2 : Planet) (pos2 : PlanetPosition)
  (a : AspectInfo) :
  In a (pair_aspects cfg days_to_sign_exit p1 pos1 p2 pos2) ->
  planet1 a = p1 /\ planet2 a = p2
  /\ find (within_orb cfg p1 p2
             (angular_separation (longitude pos1) (longitude pos2)))
          all_aspects = Some (ai_aspect a)
  /\ ai_orb a = Py.Qabs' (angular_separation (longitude pos1) (longitude pos2)
                          - Py.Qz (Aspect_degrees (ai_aspect a)))
  /\ ai_applying a = _is_applying_enhanced cfg days_to_sign_exit pos1 pos2 (ai_aspect a).
Proof.
  unfold pair_aspects. rewrite first_aspect_in_orb_find.
  destruct (find _ _) as [t|] eqn:E; simpl; [|contradiction].
  intros [<- | []]. simpl. auto.
Qed.

Lemma aspects_from_In
  (p1 : Planet) (pos1 : PlanetPosition) (later : Planets) (a : AspectInfo) :
  In a (aspects_from cfg days_to_sign_exit p1 pos1 later) ->
  exists pos2, In (planet2 a, pos2) later
               /\ In a (pair_aspects cfg days_to_sign_exit p1 pos1 (planet2 a) pos2).
Proof.
  induction later as [|[p2 pos2] rest IH]; simpl; [contradiction|].
  intro H. apply in_app_or in H. destruct H as [H | H].
  - destruct (pair_aspects_In _ _ _ _ _ H) as [_ [E2 _]]. subst p2.
    exists pos2. auto.
  - destruct (IH H) as [pos [Hin Ha]]. exists pos. auto.
Qed.

Lemma engine_In (ps : Planets) (a : AspectInfo) :
  In a (engine ps) ->
  exists l1 pos1 l2 pos2,
    ps = l1 ++ (planet1 a, pos1) :: l2
    /\ In (planet2 a, pos2) l2
    /\ In a (pair_aspects cfg days_to_sign_exit (planet1 a) pos1 (planet2 a) pos2).
Proof.
  unfold engine.
  induction ps as [|[p1 pos1] rest IH]; simpl; [contradiction|].
  intro H. apply in_app_or in H. destruct H as [H | H].
  - destruct (aspects_from_In _ _ _ _ H) as [pos2 [Hin Ha]].
    destruct (pair_aspects_In _ _ _ _ _ Ha) as [E1 _]. subst p1.
    exists [], pos1, rest, pos2. auto.
  - destruct (IH H) as [l1 [q1 [l2 [q2 [E [Hin Ha]]]]]].
    exists ((p1, pos1) :: l1), q1, l2, q2. rewrite E. auto.
Qed.

Lemma planets_get_In (ps : Planets) (p : Planet) (pos : PlanetPosition) :
  NoDup (planets_keys ps) -> In (p, pos) ps -> planets_get ps p = Some pos.
Proof.
  induction ps as [|[k v] rest IH]; simpl; [contradiction|].
  intros Hnd [H | H].
  - injection H as -> ->. now rewrite Planet_eqb_refl.
  - inversion Hnd as [|? ? Hk Hrest]; subst.
    destruct (Planet_eqb k p) eqn:E.
    + apply Planet_eqb_eq in E. subst k. exfalso. apply Hk.
      apply (in_map fst) in H. exact H.
    + apply IH; assumption.
Qed.

Lemma filter_nil_when {A : Type} (f : A -> bool) (l : list A) :
  (forall x, In x l -> f x = false) -> filter f l = [].
Proof.
  induction l as [|x rest IH]; simpl; [reflexivity|].
  intro H. rewrite (H x (or_introl eq_refl)). apply IH.
  intros y Hy. apply H. now right.
Qed.

Lemma is_pair_planets (a : AspectInfo) (p q : Planet) :
  is_pair a p q = true ->
  (planet1 a = p /\ planet2 a = q) \/ (planet1 a = q /\ planet2 a = p).
Proof.
  unfold is_pair. intro H. apply orb_true_iff in H.
  destruct H as [H | H]; apply andb_true_iff in H; destruct H as [H1 H2];
    apply Planet_eqb_eq in H1; apply Planet_eqb_eq in H2; auto.
Qed.

Lemma aspects_from_pair_count
  (p1 : Planet) (pos1 : PlanetPosition) (later : Planets) (p q : Planet) :
  NoDup (planets_keys later) -> ~ In p1 (planets_keys later) ->
  (List.length (filter (fun a => is_pair a p q)
                  (aspects_from cfg days_to_sign_exit p1 pos1 later)) <= 1)%nat.
Proof.
  induction later as [|[p2 pos2] rest IH]; simpl; intros Hnd Hp1; [lia|].
  inversion Hnd as [|? ? Hk Hrest]; subst.
  rewrite filter_app, length_app.
  assert (Hp1' : ~ In p1 (planets_keys rest)) by tauto.
  specialize (IH Hrest Hp1').
  assert (Hhead := pair_aspects_length p1 pos1 p2 pos2).
  destruct (filter (fun a => is_pair a p q)
              (pair_aspects cfg days_to_sign_exit p1 pos1 p2 pos2))
    as [|a0 l0] eqn:Eh.
  - simpl. exact IH.
  - assert (Ha0 : In a0 (filter (fun a => is_pair a p q)
                           (pair_aspects cfg days_to_sign_exit p1 pos1 p2 pos2)))
      by (rewrite Eh; left; reflexivity).
    apply filter_In in Ha0. destruct Ha0 as [Hin Hpair].
    destruct (pair_aspects_In _ _ _ _ _ Hin) as [E1 [E2 _]].
    assert (Hlen : (List.length (a0 :: l0) <= 1)%nat).
    { rewrite <- Eh.
      eapply Nat.le_trans; [apply filter_length_le | exact Hhead]. }
    rewrite filter_nil_when; [simpl in *; lia|].
    intros x Hx. destruct (is_pair x p q) eqn:Ex; [|reflexivity].
    exfalso.
    destruct (aspects_from_In _ _ _ _ Hx) as [posx [Hinx Hax]].
    destruct (pair_aspects_In _ _ _ _ _ Hax) as [Ex1 _].
    apply (in_map fst) in Hinx. simpl in Hinx.
    apply is_pair_planets in Hpair. apply is_pair_planets in Ex.
    destruct Hpair as [[Ha Hb] | [Ha Hb]], Ex as [[Hc Hd] | [Hc Hd]];
      first [ apply Hk; replace p2 with (planet2 x) by congruence; exact Hinx
            | apply Hp1'; replace p1 with (planet2 x) by congruence; exact Hinx ].
Qed.

End AspectEngineFacts.

Section AspectEngineClaim.

Variable cfg : Config.
Variable days_to_sign_exit : Q -> Q -> option Q.

Lemma engine_planets_are_keys (ps : Planets) (a : AspectInfo) :
  In a (_calculate_enhanced_aspects cfg days_to_sign_exit ps) ->
  In (planet1 a) (planets_keys ps) /\ In (planet2 a) (planets_keys ps).
Proof.
  intro H. destruct (engine_In _ _ _ _ H) as [l1 [pos1 [l2 [pos2 [E [Hin _]]]]]].
  subst ps. unfold planets_keys. rewrite map_app. simpl. split.
  - apply in_or_app. right. left. reflexivity.
  - apply in_or_app. right. right. apply (in_map fst) in Hin. exact Hin.
Qed.

Lemma engine_pair_count (ps : Planets) (p q : Planet) :
  NoDup (planets_keys ps) ->
  (List.length (filter (fun a => is_pair a p q)
                  (_calculate_enhanced_aspects cfg days_to_sign_exit ps)) <= 1)%nat.
Proof.
  induction ps as [|[p1 pos1] rest IH]; simpl; intro Hnd; [lia|].
  inversion Hnd as [|? ? Hk Hrest]; subst.
  rewrite filter_app, length_app.
  destruct (Planet_eqb p p1 || Planet_eqb q p1) eqn:E.
  - rewrite (filter_nil_when _ (_calculate_enhanced_aspects cfg days_to_sign_exit rest)).
    + simpl. rewrite Nat.add_0_r.
      apply aspects_from_pair_count; assumption.
    + intros x Hx. destruct (is_pair x p q) eqn:Ex; [|reflexivity].
      exfalso. apply engine_planets_are_keys in Hx. destruct Hx as [H1 H2].
      apply is_pair_planets in Ex.
      apply orb_true_iff in E.
      destruct E as [E | E]; apply Planet_eqb_eq in E; subst;
        destruct Ex as [[Ha Hb] | [Ha Hb]]; apply Hk; congruence.
  - rewrite (filter_nil_when _ (aspects_from cfg days_to_sign_exit p1 pos1 rest)).
    + simpl. apply IH. exact Hrest.
    + intros x Hx. destruct (is_pair x p q) eqn:Ex; [|reflexivity].
      exfalso. destruct (aspects_from_In _ _ _ _ _ _ Hx) as [posx [_ Hax]].
      destruct (pair_aspects_In _ _ _ _ _ _ _ Hax) as [Ex1 _].
      apply is_pair_planets in Ex.
      apply orb_false_iff in E. destruct E as [E1 E2].
      apply Planet_eqb_neq in E1. apply Planet_eqb_neq in E2.
      destruct Ex as [[Ha Hb] | [Ha Hb]]; congruence.
Qed.

Lemma engine_contains_pair
  (l1 : Planets) (p1 : Planet) (pos1 : PlanetPosition)
  (l2 : Planets) (p2 : Planet) (pos2 : PlanetPosition) (l3 : Planets)
  (a : AspectInfo) :
  In a (pair_aspects cfg days_to_sign_exit p1 pos1 p2 pos2) ->
  In a (_calculate_enhanced_aspects cfg days_to_sign_exit
          (l1 ++ (p1, pos1) :: l2 ++ (p2, pos2) :: l3)).
Proof.
  intro H. induction l1 as [|[k v] l1 IH]; simpl.
  - apply in_or_app. left.
    induction l2 as [|[k v] l2 IH2]; simpl.
    + apply in_or_app. left. exact H.
    + apply in_or_app. right. exact IH2.
  - apply in_or_app. right. exact IH.
Qed.

(** C7, as the engine implements it.  For a dict of bodies (pairwise
    distinct keys) the engine emits at most one aspect for every unordered
    pair; every emitted aspect is the first Ptolemaic aspect, in the order
    conjunction, sextile, square, trine, opposition, whose orb test the
    pair's separation passes; and a pair for which some aspect passes the
    test does get that first aspect. *)
Theorem aspect_engine_first_within_orb (ps : Planets) :
  NoDup (planets_keys ps) ->
  (forall p q : Planet,
     (List.length (filter (fun a => is_pair a p q)
                     (_calculate_enhanced_aspects cfg days_to_sign_exit ps))
      <= 1)%nat)
  /\ (forall a : AspectInfo,
        In a (_calculate_enhanced_aspects cfg days_to_sign_exit ps) ->
        exists pos1 pos2 : PlanetPosition,
          planets_get ps (planet1 a) = Some pos1
          /\ planets_get ps (planet2 a) = Some pos2
          /\ find (within_orb cfg (planet1 a) (planet2 a)
                     (angular_separation (longitude pos1) (longitude pos2)))
                  all_aspects = Some (ai_aspect a))
  /\ (forall l1 p1 pos1 l2 p2 pos2 l3 t,
        ps = l1 ++ (p1, pos1) :: l2 ++ (p2, pos2) :: l3 ->
        find (within_orb cfg p1 p2
                (angular_separation (longitude pos1) (longitude pos2)))
             all_aspects = Some t ->
        exists a : AspectInfo,
          In a (_calculate_enhanced_aspects cfg days_to_sign_exit ps)
          /\ planet1 a = p1 /\ planet2 a = p2 /\ ai_aspect a = t).
Proof.
  intro Hnd. split; [|split].
  - intros p q. apply engine_pair_count. exact Hnd.
  - intros a Ha.
    destruct (engine_In _ _ _ _ Ha) as [l1 [pos1 [l2 [pos2 [E [Hin Hp]]]]]].
    exists pos1, pos2.
    destruct (pair_aspects_In _ _ _ _ _ _ _ Hp) as [_ [_ [Hfind _]]].
    split; [|split; [|exact Hfind]].
    + apply planets_get_In; [exact Hnd|]. rewrite E.
      apply in_or_app. right. left. reflexivity.
    + apply planets_get_In; [exact Hnd|]. rewrite E.
      apply in_or_app. right. right. exact Hin.
  - intros l1 p1 pos1 l2 p2 pos2 l3 t -> Hfind.
    eexists. split.
    + apply engine_contains_pair. unfold pair_aspects.
      rewrite first_aspect_in_orb_find, Hfind. left. reflexivity.
    + simpl. auto.
Qed.

End AspectEngineClaim.

Lemma wide_orb_planets_distinct : NoDup (planets_keys wide_orb_planets).
Proof.
  repeat constructor; simpl; intuition discriminate.
Defined.

Lemma aspect_engine_first_within_orb_witness :
  (List.length
     (filter (fun a => is_pair a SUN MOON)
        (_calculate_enhanced_aspects sample_config days_to_sign_exit_fallback
           wide_orb_planets)) <= 1)%nat.
Proof.
  exact (proj1 (aspect_engine_first_within_orb sample_config
                  days_to_sign_exit_fallback wide_orb_planets
                  wide_orb_planets_distinct) SUN MOON).
Defined.

(** C7, as stated, fails.  The Sun at 10 Aries and the Moon at 28 Gemini are
    78 degrees apart.  The engine emits their sextile, 18 degrees from exact,
    although the square is within its orb too and only 12 degrees from
    exact. *)
Lemma aspect_engine_emits_farther_aspect :
  existsb
    (fun a => Planet_eqb (planet1 a) SUN && Planet_eqb (planet2 a) MOON
              && Aspect_eqb (ai_aspect a) SEXTILE && Py.Qeqb (ai_orb a) 18)
    (_calculate_enhanced_aspects sample_config days_to_sign_exit_fallback
       wide_orb_planets) = true
  /\ (angular_separation 10 88 == 78)%Q
  /\ within_orb sample_config SUN MOON 78 SQUARE = true
  /\ (Py.Qabs' (78 - Py.Qz (Aspect_degrees SQUARE)) == 12)%Q
  /\ (Py.Qabs' (78 - Py.Qz (Aspect_degrees SEXTILE)) == 18)%Q.
Proof.
  repeat split; vm_compute; reflexivity.
Qed.

(** ** Void of course *)

(** Under the sign method a stationary Moon is reported as not void. *)
Lemma void_by_sign_stationary
  (cfg : Config) (chart : HoraryChart) (moon_pos : PlanetPosition) :
  planets_get (planets chart) MOON = Some moon_pos ->
  (Qabs (speed moon_pos) < stationary_speed_threshold cfg)%Q ->
  _void_by_sign_method cfg chart = Some {| void := false; exception := false |}.
Proof.
  intros Hm Hs. unfold _void_by_sign_method. rewrite Hm. simpl.
  apply Qltb_lt in Hs. unfold Py.Qabs'. rewrite Hs. reflexivity.
Qed.

(** Lilly's method inherits the verdict of the sign method. *)
Lemma void_lilly_stationary
  (cfg : Config) (chart : HoraryChart) (moon_pos : PlanetPosition) :
  planets_get (planets chart) MOON = Some moon_pos ->
  (Qabs (speed moon_pos) < stationary_speed_threshold cfg)%Q ->
  exists v, _void_lilly_method cfg chart = Some v /\ void v = false.
Proof.
  intros Hm Hs. unfold _void_lilly_method.
  rewrite (void_by_sign_stationary cfg chart moon_pos Hm Hs).
  rewrite Hm. simpl. eexists. split; reflexivity.
Qed.

(** Under every rule other than [by_orb] a stationary Moon is not void. *)
Lemma void_of_course_stationary_unless_by_orb
  (cfg : Config) (chart : HoraryChart) (moon_pos : PlanetPosition) :
  planets_get (planets chart) MOON = Some moon_pos ->
  (Qabs (speed moon_pos) < stationary_speed_threshold cfg)%Q ->
  void_rule cfg <> "by_orb"%string ->
  exists v, _is_moon_void_of_course_enhanced cfg chart = Some v /\ void v = false.
Proof.
  intros Hm Hs Hrule. unfold _is_moon_void_of_course_enhanced.
  rewrite Hm. simpl.
  apply String.eqb_neq in Hrule. rewrite Hrule.
  destruct (String.eqb (void_rule cfg) "by_sign");
    [|destruct (String.eqb (void_rule cfg) "lilly")];
    try (rewrite (void_by_sign_stationary cfg chart moon_pos Hm Hs);
         eexists; split; reflexivity).
  exact (void_lilly_stationary cfg chart moon_pos Hm Hs).
Qed.

(** The orb method never looks at the Moon's speed: its verdict is the same
    for every speed of the Moon. *)
Lemma void_by_orb_ignores_speed
  (cfg : Config) (chart : HoraryChart) (moon_pos : PlanetPosition) :
  planets_get (planets chart) MOON = Some moon_pos ->
  _void_by_orb_method cfg chart
  = Some {| void :=
              negb (existsb
                      (fun kv =>
                         negb (Planet_eqb (fst kv) MOON)
                         && existsb
                              (fun a =>
                                 Py.Qleb
                                   (Py.Qabs'
                                      (angular_separation (longitude moon_pos)
                                         (longitude (snd kv))
                                       - Py.Qz (Aspect_degrees a)))
                                   (void_orb_deg cfg))
                              all_aspects)
                      (planets chart));
            exception := false |}.
Proof.
  intro Hm. unfold _void_by_orb_method. rewrite Hm. reflexivity.
Qed.

(** C9.  Under the [by_orb] rule a stationary Moon is reported void.  The
    chart holds the position that [calculate_chart] substitutes for a body
    whose ephemeris call failed (longitude 0, speed 0); no body is within
    the 2-degree void orb of an aspect with it.  The sign rule and Lilly's
    rule report the same Moon as not void. *)
Theorem stationary_moon_void_by_orb :
  (exists moon_pos,
      planets_get (planets fallback_moon_chart) MOON = Some moon_pos
      /\ (Qabs (speed moon_pos) < stationary_speed_threshold void_orb_config)%Q)
  /\ void_rule void_orb_config = "by_orb"%string
  /\ _is_moon_void_of_course_enhanced void_orb_config fallback_moon_chart
     = Some {| void := true; exception := false |}
  /\ _is_moon_void_of_course_enhanced sample_config fallback_moon_chart
     = Some {| void := false; exception := false |}
  /\ _is_moon_void_of_course_enhanced (with_void_rule sample_config "lilly")
       fallback_moon_chart
     = Some {| void := false; exception := false |}.
Proof.
  split.
  { eexists. split; [vm_compute; reflexivity | reflexivity]. }
  repeat split; vm_compute; reflexivity.
Qed.

(** ** Translation of light *)

Lemma aspect_never_equals_a_name (a : Aspect) :
  py_in (PyAspect a) hard_aspect_names = false.
Proof. reflexivity. Qed.

Lemma attr_never_says_combustion (pos : PlanetPosition) :
  attr_says_combustion pos = false.
Proof. reflexivity. Qed.

Lemma translation_by_favorable
  (cfg : Config) (chart : HoraryChart) (querent quesited t : Planet)
  (pos : PlanetPosition) (tr : Translation) :
  translation_by cfg chart querent quesited t pos = Some (Some tr) ->
  tr_favorable tr = true /\ combustion_penalty tr = 0.
Proof.
  unfold translation_by, Py.bind. intro H.
  break_match_hyp H; injection H as <-; simpl;
    repeat match goal with
           | E : attr_says_combustion _ = true |- _ => cbv in E; discriminate E
           | E : py_in _ _ || py_in _ _ = true |- _ => cbv in E; discriminate E
           end;
    auto.
Qed.

(** Every translation of light the detector finds is marked favorable and
    carries no combustion penalty, whatever the aspects involved. *)
Lemma translation_always_favorable
  (cfg : Config) (chart : HoraryChart) (querent quesited : Planet)
  (tr : Translation) :
  _check_enhanced_translation_of_light cfg chart querent quesited = Some (Some tr) ->
  tr_favorable tr = true /\ combustion_penalty tr = 0.
Proof.
  unfold _check_enhanced_translation_of_light.
  induction (planets chart) as [|[t pos] rest IH]; simpl; [discriminate|].
  unfold Py.bind.
  destruct (translation_by cfg chart querent quesited t pos) as [[tr'|]|] eqn:E;
    try discriminate.
  - intros [= <-]. exact (translation_by_favorable _ _ _ _ _ _ _ E).
  - exact IH.
Qed.

(** C6.  A translation of light whose applying aspect is a square is
    returned as favorable, with its confidence not reduced.  The Moon has
    separated from a sextile of Venus and applies to a square of Saturn; the
    detector returns the translation as favorable with confidence
    65 + 10 (reception), and the judgment is YES at the configured 75. *)
Theorem translation_through_square_is_favorable :
  existsb
    (fun a => Planet_eqb (planet1 a) MOON && Planet_eqb (planet2 a) SATURN
              && Aspect_eqb (ai_aspect a) SQUARE && ai_applying a)
    (aspects square_translation_chart) = true
  /\ _check_enhanced_translation_of_light sample_config
       square_translation_chart VENUS SATURN
     = Some (Some {| translator := MOON; tr_favorable := true;
                     tr_confidence := 65 + 10; combustion_penalty := 0 |})
  /\ _check_enhanced_perfection sample_config days_to_sign_exit_fallback
       square_translation_chart VENUS SATURN 15
     = Some {| perfects := true; pf_type := Some "translation"%string;
               pf_favorable := Some true; pf_confidence := Some 75;
               pf_reception := None; pf_aspect := None |}
  /\ (forall moon_testimony later_stages,
        _apply_enhanced_judgment sample_config days_to_sign_exit_fallback
          moon_testimony later_stages
          square_translation_chart tenth_house_question
          false false false false 15
        = Some {| result := "YES"; confidence := 75;
                  perfection_type := Some "translation"%string |}).
Proof.
  split; [vm_compute; reflexivity|].
  split; [vm_compute; reflexivity|].
  split; [vm_compute; reflexivity|].
  intros. vm_compute. reflexivity.
Qed.

(** ** Perfection detector: the combustion denial *)

Lemma is_combustion_conjunction_false
  (chart : HoraryChart) (querent quesited : Planet) (d : AspectDict) (b : bool) :
  is_combustion_conjunction chart querent quesited d = Some b -> b = false.
Proof.
  unfold is_combustion_conjunction, Py.bind. intro H.
  break_match_hyp H; injection H as <-; reflexivity.
Qed.

(** The detector never returns a combustion denial. *)
Lemma perfection_never_combustion_denial
  (cfg : Config) (days_to_sign_exit : Q -> Q -> option Q)
  (chart : HoraryChart) (querent quesited : Planet) (boost : Q)
  (r : PerfectionResult) :
  _check_enhanced_perfection cfg days_to_sign_exit chart querent quesited boost
  = Some r ->
  pf_type r <> Some "combustion_denial"%string.
Proof.
  unfold _check_enhanced_perfection, Py.bind. intro H.
  break_match_hyp H; injection H as <-; simpl; try discriminate;
    repeat match goal with
           | E : ?b = true |- _ => is_var b; subst b
           end;
    match goal with
    | E : is_combustion_conjunction _ _ _ _ = Some true |- _ =>
        apply is_combustion_conjunction_false in E; discriminate E
    end.
Qed.

(** C2.  The Sun rules the 1st house and Mercury the 2nd; Mercury applies to
    a conjunction of the Sun from half a degree away and its solar condition
    is combustion.  The detector returns a direct perfection, favorable, not
    a combustion denial; the judgment is YES by that conjunction. *)
Theorem combust_conjunction_perfects :
  _find_applying_aspect combust_mercury_chart SUN MERCURY
  = Some {| ad_aspect := CONJUNCTION; ad_orb := 1 # 2;
            ad_degrees_to_exact := 1 # 2 |}
  /\ option_map
       (fun l => map (fun kv => (fst kv, sa_condition (snd kv)))
                     (filter (fun kv => Planet_eqb (fst kv) MERCURY) l))
       (solar_analyses combust_mercury_chart)
     = Some [(MERCURY, COMBUSTION)]
  /\ _check_enhanced_perfection sample_config days_to_sign_exit_fallback
       combust_mercury_chart SUN MERCURY 15
     = Some {| perfects := true; pf_type := Some "direct"%string;
               pf_favorable := Some true; pf_confidence := Some 80;
               pf_reception := Some Reception.unilateral;
               pf_aspect := Some {| ad_aspect := CONJUNCTION; ad_orb := 1 # 2;
                                    ad_degrees_to_exact := 1 # 2 |} |}
  /\ (forall moon_testimony later_stages,
        _apply_enhanced_judgment sample_config days_to_sign_exit_fallback
          moon_testimony later_stages
          combust_mercury_chart second_house_question
          false false false false 15
        = Some {| result := "YES"; confidence := 60;
                  perfection_type := Some "direct"%string |}).
Proof.
  split; [vm_compute; reflexivity|].
  split; [vm_compute; reflexivity|].
  split; [vm_compute; reflexivity|].
  intros. vm_compute. reflexivity.
Qed.

(** ** Judgment composer: the void-Moon stage *)

Section VoidMoonStage.

Variable cfg : Config.
Variable days_to_sign_exit : Q -> Q -> option Q.
Variable moon_testimony :
  HoraryChart -> Planet -> Planet -> bool -> option MoonTestimony.
Variable later_stages :
  HoraryChart -> QuestionAnalysis -> bool -> bool -> Planet -> Planet -> Z ->
  option Judgment.

Let judge :=
  _apply_enhanced_judgment cfg days_to_sign_exit moon_testimony later_stages.

(** A chart that fails the radicality check is NOT RADICAL, void Moon or
    not: radicality is tested first. *)
Lemma radicality_precedes_void_moon
  (chart : HoraryChart) (qa : QuestionAnalysis)
  (ignore_void_moon ignore_combustion ignore_saturn_7th : bool) (boost : Q) :
  _check_enhanced_radicality cfg chart ignore_saturn_7th = Some false ->
  judge chart qa false ignore_void_moon ignore_combustion ignore_saturn_7th boost
  = Some {| result := "NOT RADICAL"; confidence := 0; perfection_type := None |}.
Proof.
  intro H. unfold judge, _apply_enhanced_judgment. rewrite H. reflexivity.
Qed.

(** Past the radicality check, a void Moon with no exception and no override
    denies with confidence 85. *)
Lemma void_moon_denial_without_override
  (chart : HoraryChart) (qa : QuestionAnalysis)
  (ignore_radicality ignore_combustion ignore_saturn_7th : bool) (boost : Q)
  (v : VoidCheck) :
  (if ignore_radicality then Some true
   else _check_enhanced_radicality cfg chart ignore_saturn_7th) = Some true ->
  _is_moon_void_of_course_enhanced cfg chart = Some v ->
  void v = true -> exception v = false ->
  check_void_moon_overrides chart qa = Some false ->
  judge chart qa ignore_radicality false ignore_combustion ignore_saturn_7th boost
  = Some {| result := "NO"; confidence := 85;
            perfection_type := Some "void_moon_denial"%string |}.
Proof.
  intros Hr Hv Hvoid Hexc Hov.
  unfold judge, _apply_enhanced_judgment, void_moon_stage.
  rewrite Hr. simpl. rewrite Hv. simpl. rewrite Hvoid, Hexc. simpl.
  rewrite Hov. reflexivity.
Qed.

(** With the clean-translation override the judgment proceeds from a working
    confidence of at most 30. *)
Lemma void_moon_override_proceeds
  (chart : HoraryChart) (qa : QuestionAnalysis)
  (ignore_radicality ignore_combustion ignore_saturn_7th : bool) (boost : Q)
  (v : VoidCheck) :
  (if ignore_radicality then Some true
   else _check_enhanced_radicality cfg chart ignore_saturn_7th) = Some true ->
  _is_moon_void_of_course_enhanced cfg chart = Some v ->
  void v = true -> exception v = false ->
  check_void_moon_overrides chart qa = Some true ->
  judge chart qa ignore_radicality false ignore_combustion ignore_saturn_7th boost
  = judgment_after_void cfg days_to_sign_exit moon_testimony later_stages
      chart qa false ignore_combustion boost (Z.min (base_confidence cfg) 30).
Proof.
  intros Hr Hv Hvoid Hexc Hov.
  unfold judge, _apply_enhanced_judgment, void_moon_stage.
  rewrite Hr. simpl. rewrite Hv. simpl. rewrite Hvoid, Hexc. simpl.
  rewrite Hov. reflexivity.
Qed.

(** The override holds exactly when the significators are identified and the
    Moon's last listed aspect with each of them is applying, the Moon's
    dignity being non-negative. *)
Lemma clean_translation_characterised
  (chart : HoraryChart) (querent quesited : Planet) :
  check_moon_translation_clean chart querent quesited = Some true ->
  exists moon_pos mq mqs,
    planets_get (planets chart) MOON = Some moon_pos
    /\ 0 <= dignity_score moon_pos
    /\ moon_aspects_scan querent quesited (aspects chart) None None
       = (Some mq, Some mqs)
    /\ ai_applying mq = true /\ ai_applying mqs = true.
Proof.
  unfold check_moon_translation_clean, Py.bind. intro H.
  destruct (planets_get (planets chart) MOON) as [moon_pos|]; [|discriminate].
  destruct (moon_aspects_scan querent quesited (aspects chart) None None)
    as [[mq|] [mqs|]]; try discriminate.
  injection H as H.
  apply andb_true_iff in H. destruct H as [H Hd].
  apply andb_true_iff in H. destruct H as [H1 H2].
  apply Z.leb_le in Hd.
  exists moon_pos, mq, mqs. auto.
Qed.

End VoidMoonStage.

(** C1.  The Moon is void by orb with no exception, the override setting is
    off, and the Moon applies to both significators with dignity +4, so the
    clean-translation override holds.  The judgment proceeds and returns YES
    with confidence 60 from the Moon's next aspect: the 30 cap was applied to
    the working confidence only, which that stage does not read. *)
Theorem void_moon_override_confidence_not_capped :
  _is_moon_void_of_course_enhanced void_orb_config carrying_moon_chart
  = Some {| void := true; exception := false |}
  /\ _identify_significators carrying_moon_chart seventh_house_question
     = Some (SigValid {| sg_querent := VENUS; sg_quesited := MARS;
                         sg_item_significator := None;
                         sg_transaction_type := false; sg_same_ruler := None;
                         sg_third_person_education := false;
                         sg_student := None |})
  /\ check_moon_translation_clean carrying_moon_chart VENUS MARS = Some true
  /\ (forall moon_testimony later_stages,
        _apply_enhanced_judgment void_orb_config days_to_sign_exit_fallback
          moon_testimony later_stages
          carrying_moon_chart seventh_house_question
          false false false false 15
        = Some {| result := "YES"; confidence := 60;
                  perfection_type := Some "moon_next_aspect"%string |}).
Proof.
  split; [vm_compute; reflexivity|].
  split; [vm_compute; reflexivity|].
  split; [vm_compute; reflexivity|].
  intros. vm_compute. reflexivity.
Qed.

(** The same sky with the ascendant at 1 Leo: the Moon is void with no
    exception and the override setting is off, and the judgment is NOT
    RADICAL with confidence 0. *)
Lemma void_moon_in_early_chart :
  _is_moon_void_of_course_enhanced void_orb_config early_ascendant_chart
  = Some {| void := true; exception := false |}
  /\ (forall moon_testimony later_stages,
        _apply_enhanced_judgment void_orb_config days_to_sign_exit_fallback
          moon_testimony later_stages
          early_ascendant_chart seventh_house_question
          false false false false 15
        = Some {| result := "NOT RADICAL"; confidence := 0;
                  perfection_type := None |}).
Proof.
  split; [vm_compute; reflexivity|].
  intros. vm_compute. reflexivity.
Qed.

(** With no Moon aspect to carry light (the Moon that failed in the
    ephemeris), the void Moon denies: NO with confidence 85. *)
Lemma void_moon_denial_example :
  forall moon_testimony later_stages,
    _apply_enhanced_judgment void_orb_config days_to_sign_exit_fallback
      moon_testimony later_stages
      fallback_moon_chart seventh_house_question
      false false false false 15
    = Some {| result := "NO"; confidence := 85;
              perfection_type := Some "void_moon_denial"%string |}.
Proof. intros. vm_compute. reflexivity. Qed.

(** ** Question analyzer: house arithmetic, question types, houses *)

Section QuestionHouseFacts.

Import Text QuestionAnalyzer QuestionHouses.

Lemma lower_char_idempotent (c : ascii) : lower_char (lower_char c) = lower_char c.
Proof. destruct c as [[] [] [] [] [] [] [] []]; reflexivity. Qed.

Lemma lower_idempotent (s : string) : lower (lower s) = lower s.
Proof.
  induction s as [|c s IH]; simpl; [reflexivity|].
  now rewrite lower_char_idempotent, IH.
Qed.

Lemma any_in_true (words : list string) (question : string) :
  any_in words question = true <->
  exists word, In word words /\ str_in word question = true.
Proof. unfold any_in. apply existsb_exists. Qed.

Lemma any_in_subset (small large : list string) (question : string) :
  incl small large ->
  any_in small question = true -> any_in large question = true.
Proof.
  intros Hincl H. apply any_in_true in H. destruct H as [w [Hin Hw]].
  apply any_in_true. exists w. split; [apply Hincl; exact Hin | exact Hw].
Qed.

Lemma sale_indicators_are_transaction_words :
  incl sale_indicators transaction_words.
Proof.
  intros w Hw. unfold sale_indicators in Hw. unfold transaction_words.
  simpl in Hw. simpl. intuition.
Qed.

(** Every entry of [matches] carries a key of [question_patterns]. *)
Lemma question_matches_keys (question : string) (m : string * list string) :
  In m (question_matches question) -> In (fst m) (map fst question_patterns).
Proof.
  unfold question_matches. intros H. apply filter_In in H. destruct H as [H _].
  apply in_map_iff in H. destruct H as [e [<- He]]. cbn [fst].
  apply in_map. exact He.
Qed.

Lemma general_is_no_pattern_key : ~ In "general"%string (map fst question_patterns).
Proof.
  intros H. vm_compute in H.
  repeat (destruct H as [H|H]; [discriminate H|]). exact H.
Qed.

(** The first entry of [matches] comes no later than any pattern whose
    keywords match. *)
Lemma first_match_not_after
  (question : string) (pre post : list (string * list string))
  (k : string) (kws : list string) :
  filter (keyword_matches question) kws <> [] ->
  exists m rest,
    filter (fun m => Reception.nonempty (snd m))
      (map (fun entry => (fst entry, filter (keyword_matches question) (snd entry)))
         (pre ++ (k, kws) :: post)) = m :: rest
    /\ In (fst m) (map fst pre ++ [k]).
Proof.
  intros Hne. induction pre as [|[k' kws'] pre IH].
  - cbn [app map filter fst snd].
    destruct (filter (keyword_matches question) kws) as [|x xs] eqn:E;
      [contradiction|].
    cbn [Reception.nonempty]. eexists. eexists. split; [reflexivity|].
    simpl. now left.
  - cbn [app map filter fst snd].
    destruct (Reception.nonempty (filter (keyword_matches question) kws')) eqn:E.
    + eexists. eexists. split; [reflexivity|]. simpl. now left.
    + destruct IH as [m [rest [Hm Hin]]]. exists m, rest. split; [exact Hm|].
      simpl. now right.
Qed.

End QuestionHouseFacts.

(** X1.  House derivation ("house from house") always lands on a house
    number between 1 and 12, whatever integers it is given; it is the turn of
    the base house by one step less than the derived house; deriving twice is
    deriving once by the combined count; and the first house derived from a
    house is that house. *)
Theorem house_derivation_wraps (b d1 d2 : Z) :
  1 <= QuestionHouses._apply_house_derivation b d1 <= 12
  /\ QuestionHouses._apply_house_derivation b d1 = QuestionHouses._turn b (d1 - 1)
  /\ QuestionHouses._apply_house_derivation
       (QuestionHouses._apply_house_derivation b d1) d2
     = QuestionHouses._apply_house_derivation b (d1 + d2 - 1)
  /\ (1 <= b <= 12 -> QuestionHouses._apply_house_derivation b 1 = b)
  /\ (1 <= b <= 12 ->
      QuestionHouses._get_derived_house_for_possessions b
      = if b =? 12 then 1 else b + 1).
Proof.
  unfold QuestionHouses._get_derived_house_for_possessions,
    QuestionHouses._apply_house_derivation, QuestionHouses._turn.
  repeat split.
  - pose proof (Z.mod_pos_bound (b - 1 + d1 - 1) 12 ltac:(lia)). lia.
  - pose proof (Z.mod_pos_bound (b - 1 + d1 - 1) 12 ltac:(lia)). lia.
  - f_equal. f_equal. lia.
  - f_equal.
    replace ((b - 1 + d1 - 1) mod 12 + 1 - 1 + d2 - 1)
      with ((b - 1 + d1 - 1) mod 12 + (d2 - 1)) by lia.
    rewrite Zplus_mod_idemp_l. f_equal. lia.
  - intros Hb. replace (b - 1 + 1 - 1) with (b - 1) by lia.
    rewrite Z.mod_small by lia. lia.
  - intros Hb. destruct (b =? 12) eqn:E.
    + apply Z.eqb_eq in E. subst b. reflexivity.
    + apply Z.eqb_neq in E. replace (b - 1 + 2 - 1) with b by lia.
      rewrite Z.mod_small by lia. reflexivity.
Qed.

Section QuestionTypeFacts.

Import Text QuestionAnalyzer QuestionHouses.

Lemma prefix_app_weaken (a b s : string) :
  String.prefix (a ++ b) s = true -> String.prefix a s = true.
Proof.
  revert s. induction a as [|c a IH]; intros s H; [destruct s; reflexivity|].
  destruct s as [|c' s]; [discriminate H|].
  cbn [String.append String.prefix] in *.
  destruct (Ascii.ascii_dec c c'); [apply IH; exact H | discriminate H].
Qed.

Lemma str_in_app_weaken (a b s : string) :
  str_in (a ++ b) s = true -> str_in a s = true.
Proof.
  induction s as [|c s IH]; cbn [str_in]; intros H.
  - rewrite orb_false_r in *. eapply prefix_app_weaken; exact H.
  - apply orb_true_iff in H. apply orb_true_iff. destruct H as [H|H].
    + left. eapply prefix_app_weaken; exact H.
    + right. apply IH; exact H.
Qed.

Lemma filter_not_nil {A : Type} (f : A -> bool) (l : list A) (x : A) :
  In x l -> f x = true -> filter f l <> [].
Proof.
  intros Hin Hf E.
  assert (H : In x (filter f l)) by (apply filter_In; split; assumption).
  rewrite E in H. exact H.
Qed.

Lemma type_of_matches (question : string) :
  any_in transaction_words question = false ->
  any_in possession_words question = false ->
  forall m rest,
    question_matches question = m :: rest ->
    _determine_question_type question = fst m
    \/ (has_match "education" (question_matches question) = true
        /\ has_match "lawsuit" (question_matches question) = true
        /\ (_determine_question_type question = "education"%string
            \/ _determine_question_type question = "lawsuit"%string)).
Proof.
  intros Ht Hp m rest E. unfold _determine_question_type.
  rewrite Ht, Hp, E. destruct rest as [|m' rest]; [now left|].
  rewrite <- E.
  destruct (has_match "education" (question_matches question)) eqn:He;
    [|now left].
  destruct (has_match "lawsuit" (question_matches question)) eqn:Hl;
    [|now left].
  cbn [andb].
  destruct (any_in education_indicators question);
    [right; repeat split; now left|].
  destruct (any_in legal_indicators question);
    [right; repeat split; now right|].
  now left.
Qed.

End QuestionTypeFacts.

(** X2.  A question that holds a transaction word or a possession word is a
    money question, whatever else it holds.  The type is always the word
    general or a key of the pattern table, and it is general exactly
    when the question holds no transaction word, no possession word and no
    keyword of any pattern. *)
Theorem question_type_priorities (question : string) :
  (QuestionHouses.any_in QuestionHouses.transaction_words question = true
   \/ QuestionHouses.any_in QuestionHouses.possession_words question = true ->
   QuestionHouses._determine_question_type question = "money"%string)
  /\ In (QuestionHouses._determine_question_type question)
        ("general"%string :: map fst QuestionHouses.question_patterns)
  /\ (QuestionHouses._determine_question_type question = "general"%string <->
      QuestionHouses.any_in QuestionHouses.transaction_words question = false
      /\ QuestionHouses.any_in QuestionHouses.possession_words question = false
      /\ QuestionHouses.question_matches question = []).
Proof.
  assert (Hmoney : In "money"%string
                     ("general"%string :: map fst QuestionHouses.question_patterns)).
  { vm_compute. do 8 right. now left. }
  assert (Hedu : In "education"%string
                   ("general"%string :: map fst QuestionHouses.question_patterns)).
  { vm_compute. do 13 right. now left. }
  assert (Hlaw : In "lawsuit"%string
                   ("general"%string :: map fst QuestionHouses.question_patterns)).
  { vm_compute. do 11 right. now left. }
  destruct (QuestionHouses.any_in QuestionHouses.transaction_words question) eqn:Ht.
  { assert (E : QuestionHouses._determine_question_type question = "money"%string).
    { unfold QuestionHouses._determine_question_type. now rewrite Ht. }
    rewrite E. split; [reflexivity|]. split; [exact Hmoney|].
    split; [discriminate | intros [H _]; discriminate H]. }
  destruct (QuestionHouses.any_in QuestionHouses.possession_words question) eqn:Hp.
  { assert (E : QuestionHouses._determine_question_type question = "money"%string).
    { unfold QuestionHouses._determine_question_type. now rewrite Ht, Hp. }
    rewrite E. split; [reflexivity|]. split; [exact Hmoney|].
    split; [discriminate | intros [_ [H _]]; discriminate H]. }
  split; [intros [H|H]; discriminate H|].
  destruct (QuestionHouses.question_matches question) as [|m rest] eqn:E.
  { assert (Eg : QuestionHouses._determine_question_type question = "general"%string).
    { unfold QuestionHouses._determine_question_type. now rewrite Ht, Hp, E. }
    rewrite Eg. split; [now left|]. split; [tauto | reflexivity]. }
  assert (Hkey : In (fst m) (map fst QuestionHouses.question_patterns)).
  { apply (question_matches_keys question). rewrite E. now left. }
  destruct (type_of_matches question Ht Hp m rest E) as [Em|[_ [_ [Em|Em]]]];
    rewrite Em.
  - split; [now right|]. split; [|intros [_ [_ H]]; discriminate H].
    intros Hg. exfalso. apply general_is_no_pattern_key. now rewrite <- Hg.
  - split; [exact Hedu|]. split; [discriminate | intros [_ [_ H]]; discriminate H].
  - split; [exact Hlaw|]. split; [discriminate | intros [_ [_ H]]; discriminate H].
Qed.

(** X3.  A question that holds the word exam is not classified as an
    education question unless a lawsuit keyword matches too: the
    relationship keyword ex occurs inside exam, and the relationship
    pattern comes before the education pattern. *)
Theorem exam_question_is_not_education (question : string) :
  Text.str_in "exam" question = true ->
  QuestionHouses.has_match "lawsuit" (QuestionHouses.question_matches question)
    = false ->
  QuestionHouses._determine_question_type question <> "education"%string.
Proof.
  intros Hexam Hlaw Hedu.
  destruct (QuestionHouses.any_in QuestionHouses.transaction_words question) eqn:Ht.
  { unfold QuestionHouses._determine_question_type in Hedu.
    rewrite Ht in Hedu. discriminate Hedu. }
  destruct (QuestionHouses.any_in QuestionHouses.possession_words question) eqn:Hp.
  { unfold QuestionHouses._determine_question_type in Hedu.
    rewrite Ht, Hp in Hedu. discriminate Hedu. }
  assert (Hex : Text.str_in "ex" question = true).
  { apply (str_in_app_weaken "ex" "am"). exact Hexam. }
  pose (kws := match nth_error QuestionHouses.question_patterns 11 with
               | Some e => snd e
               | None => []
               end).
  assert (Hsplit : QuestionHouses.question_patterns
                   = firstn 11 QuestionHouses.question_patterns
                     ++ ("relationship"%string, kws)
                     :: skipn 12 QuestionHouses.question_patterns)
    by reflexivity.
  assert (Hne : filter (QuestionHouses.keyword_matches question) kws <> []).
  { apply (filter_not_nil _ _ "ex"%string).
    - vm_compute. do 17 right. now left.
    - exact Hex. }
  destruct (first_match_not_after question
              (firstn 11 QuestionHouses.question_patterns)
              (skipn 12 QuestionHouses.question_patterns)
              "relationship" kws Hne)
    as [m [rest [Hm Hin]]].
  rewrite <- Hsplit in Hm.
  destruct (type_of_matches question Ht Hp m rest Hm) as [Em|[_ [Hl _]]].
  - rewrite Em in Hedu. rewrite Hedu in Hin. vm_compute in Hin.
    repeat (destruct Hin as [Hin|Hin]; [discriminate Hin|]). exact Hin.
  - rewrite Hl in Hlaw. discriminate Hlaw.
Qed.

Lemma exam_question_is_not_education_witness :
  QuestionHouses._determine_question_type "will he pass the exam?"
    <> "education"%string.
Proof.
  apply exam_question_is_not_education; vm_compute; reflexivity.
Defined.

Section QuestionHousesFacts.

Import Text QuestionAnalyzer QuestionHouses.

Lemma detected_subject_house (question : string) :
  let t := _detect_third_person_question question in
  (is_third_person t = true /\ subject_house t = Some 7)
  \/ (is_third_person t = false /\ subject_house t = None).
Proof.
  unfold _detect_third_person_question.
  destruct (find _ third_person_patterns); [now left|].
  destruct (existsb _ teacher_phrases); [now left | now right].
Qed.

Lemma natural_significator_shape (question : string) (ns : list (string * string)) :
  _detect_natural_significator question = Some (Some ns) ->
  exists item planet_name category,
    ns = [ (item, planet_name); ("category"%string, category);
           ("traditional_source"%string,
            "Based on classical horary significator assignments"%string) ]
    /\ str_in item question = true
    /\ In (item, planet_name)
         (flat_map (fun entry =>
                      map (fun keyword => (keyword, snd (fst (snd entry))))
                          (fst (fst (snd entry))))
                   natural_significators).
Proof.
  unfold _detect_natural_significator. intros H.
  destruct (find _ natural_significators) as [[name [[keywords significator] category]]|] eqn:E;
    [|discriminate H].
  apply find_some in E. destruct E as [Hentry _].
  destruct (find (fun keyword => str_in keyword question) keywords) as [item|] eqn:F;
    [|discriminate H].
  apply find_some in F. destruct F as [Hitem Hin].
  cbn [Py.bind] in H. injection H as <-.
  exists item, significator, category. split; [reflexivity|]. split; [exact Hin|].
  apply in_flat_map. exists (name, (keywords, significator, category)).
  split; [exact Hentry|]. cbn [fst snd]. apply in_map_iff.
  exists item. split; [reflexivity | exact Hitem].
Qed.

Lemma possession_analysis_shape (question : string) (pa : Possession) :
  _analyze_possession_questions question = Some (Some pa) ->
  In (pa_houses pa) [[1; 7]; [1; 7; 8]; [1; 4; 5]; [1; 10; 11]; [1; 2]]
  /\ (forall ns, pa_natural_significators pa = Some ns ->
        any_in sale_indicators question = true
        /\ pa_houses pa = [1; 7]
        /\ _detect_natural_significator question = Some (Some ns))
  /\ (any_in sale_indicators question = false ->
        any_in possession_indicators question = true).
Proof.
  unfold _analyze_possession_questions. intros H.
  destruct (any_in sale_indicators question) eqn:Es.
  - destruct (_detect_natural_significator question) as [[ns'|]|] eqn:En;
      cbn [Py.bind] in H; [| |discriminate H];
      injection H as <-; cbn [pa_houses pa_natural_significators].
    + split; [now left|]. split; [|discriminate].
      intros ns Hns. injection Hns as <-. repeat split; reflexivity.
    + split; [now left|]. split; [intros ns Hns; discriminate Hns|discriminate].
  - destruct (any_in possession_indicators question); [|discriminate H].
    repeat match type of H with
           | (if ?c then _ else _) = _ => destruct c
           end;
      injection H as <-; cbn [pa_houses pa_natural_significators];
      (split; [simpl; tauto|]);
      (split; [intros ns Hns; discriminate Hns | reflexivity]).
Qed.

Lemma add_keyword_houses_app
  (question : string) (meanings : list (Z * list string)) (houses : list Z) :
  exists extra,
    add_keyword_houses question houses meanings = houses ++ extra
    /\ Forall (fun h => In h (map fst meanings)) extra.
Proof.
  revert houses. induction meanings as [|[house keywords] rest IH]; intros houses.
  - exists []. split; [now rewrite app_nil_r | constructor].
  - cbn [add_keyword_houses].
    destruct (negb (Reception.Z_in house houses) && any_in keywords question).
    + destruct (IH (houses ++ [house])) as [extra [E F]].
      exists (house :: extra). split.
      * rewrite E, <- app_assoc. reflexivity.
      * constructor; [now left|].
        eapply Forall_impl; [|exact F]. intros h Hh. now right.
    + destruct (IH houses) as [extra [E F]]. exists extra. split; [exact E|].
      eapply Forall_impl; [|exact F]. intros h Hh. now right.
Qed.

Lemma house_meanings_keys (h : Z) :
  In h (map fst house_meanings) -> is_house h.
Proof.
  intros H. vm_compute in H. unfold is_house.
  repeat (destruct H as [H|H]; [subst h; lia|]). contradiction.
Qed.

Lemma primary_houses_shape
  (question q_type : string) (t : ThirdPerson) (houses : list Z) :
  subject_house t = Some 7 \/ subject_house t = None ->
  primary_houses question q_type (Some t) = Some houses ->
  hd_error houses = Some 1
  /\ Forall is_house houses
  /\ (2 <= List.length houses)%nat.
Proof.
  intros Ht H. unfold primary_houses in H.
  repeat match type of H with
         | (if ?c then _ else _) = _ =>
             destruct c; [try solve [primary_case H]|]
         end;
    try solve [primary_case H].
  destruct (subject_house t) as [s|]; [|discriminate H].
  destruct Ht as [Ht|Ht]; [|discriminate Ht]. injection Ht as ->.
  cbn [Py.bind] in H.
  change (_apply_house_derivation 7 3) with 9 in H. primary_case H.
Qed.

End QuestionHousesFacts.

Section AnalyzeQuestionFacts.

Import Text Calendar QuestionAnalyzer QuestionHouses.

Lemma analyze_question_inv (question : string) (now : datetime) (a : Analysis) :
  analyze_question question now = Some a ->
  let ql := lower question in
  let third := _detect_third_person_question ql in
  let q_type := _determine_question_type ql in
  exists pa,
    a_question_type a = q_type
    /\ a_third_person_analysis a = third
    /\ _determine_houses ql q_type (Some third) = Some (relevant_houses a, pa)
    /\ a_significators a
       = _determine_significators (relevant_houses a) q_type pa (Some third).
Proof.
  unfold analyze_question. intros H.
  destruct (_parse_question_timeframe (lower question) now) as [tf|];
    [|discriminate H].
  cbn [Py.bind] in H.
  destruct (_determine_houses _ _ _) as [[houses pa]|] eqn:E; [|discriminate H].
  cbn [Py.bind] in H. injection H as <-. exists pa.
  cbn [a_question_type a_third_person_analysis relevant_houses a_significators].
  repeat split.
Qed.

Lemma determine_houses_inv
  (ql q_type : string) (tp : option ThirdPerson)
  (houses : list Z) (pa : option Possession) :
  _determine_houses (lower ql) q_type tp = Some (houses, pa) ->
  (exists p, _analyze_possession_questions (lower ql) = Some (Some p)
             /\ pa = Some p /\ houses = pa_houses p)
  \/ (_analyze_possession_questions (lower ql) = Some None /\ pa = None
      /\ exists hs, primary_houses (lower ql) q_type tp = Some hs
                    /\ houses = if negb (String.eqb q_type "general")
                                then add_keyword_houses (lower ql) hs house_meanings
                                else hs).
Proof.
  unfold _determine_houses. rewrite lower_idempotent. intros H.
  destruct (_analyze_possession_questions (lower ql)) as [[p|]|];
    cbn [Py.bind] in H; [| |discriminate H].
  - injection H as <- <-. left. exists p. repeat split.
  - right. split; [reflexivity|].
    destruct (primary_houses (lower ql) q_type tp) as [hs|]; [|discriminate H].
    cbn [Py.bind] in H.
    set (c := negb (String.eqb q_type "general")) in *.
    remember (add_keyword_houses (lower ql) hs house_meanings) as added eqn:Ea.
    destruct c.
    + injection H as <- <-. split; [reflexivity|]. exists hs.
      split; [reflexivity | exact Ea].
    + injection H as <- <-. split; [reflexivity|]. exists hs. split; reflexivity.
Qed.

Lemma last_Forall {A : Type} (P : A -> Prop) (l : list A) (d : A) :
  Forall P l -> P d -> P (last l d).
Proof.
  induction l as [|x l IH]; intros Hl Hd; [exact Hd|].
  inversion Hl; subst. destruct l as [|y l]; [assumption|].
  apply IH; assumption.
Qed.

Lemma nth_or_Forall (P : Z -> Prop) (l : list Z) (n : nat) (d : Z) :
  Forall P l -> P d -> P (nth_or l n d).
Proof.
  intros Hl Hd. unfold nth_or. destruct (nth_error l n) as [h|] eqn:E; [|exact Hd].
  apply nth_error_In in E. rewrite Forall_forall in Hl. apply Hl. exact E.
Qed.

Lemma determined_houses_range
  (houses : list Z) (q_type : string)
  (pa : option Possession) (tp : option ThirdPerson) :
  Forall is_house houses ->
  let s := _determine_significators houses q_type pa tp in
  ds_querent_house s = 1 /\ is_house (ds_quesited_house s).
Proof.
  intros Hh. unfold _determine_significators.
  cbn [ds_querent_house ds_quesited_house].
  assert (H7 : is_house 7) by (unfold is_house; lia).
  assert (H10 : is_house 10) by (unfold is_house; lia).
  destruct (match pa with Some p => pa_natural_significators p | None => None end);
    [split; [reflexivity | exact H7]|].
  destruct (_ && String.eqb q_type "education");
    cbn [ds_querent_house ds_quesited_house];
    [split; [reflexivity | apply nth_or_Forall; assumption]|].
  split; [reflexivity|].
  repeat match goal with
         | |- is_house (if ?c then _ else _) => destruct c
         end; try exact H7.
  apply last_Forall; assumption.
Qed.

Lemma analyzed_houses_shape (question : string) (now : datetime) (a : Analysis) :
  analyze_question question now = Some a ->
  hd_error (relevant_houses a) = Some 1 /\ Forall is_house (relevant_houses a).
Proof.
  intros H. apply analyze_question_inv in H. destruct H as [pa [_ [_ [Hh _]]]].
  apply determine_houses_inv in Hh.
  destruct Hh as [[p [Hp [_ ->]]]|[_ [_ [hs [Hprim ->]]]]].
  - apply possession_analysis_shape in Hp. destruct Hp as [Hin _].
    unfold is_house. simpl in Hin.
    repeat (destruct Hin as [<-|Hin];
            [split; [reflexivity | repeat constructor; lia]|]).
    contradiction.
  - apply primary_houses_shape in Hprim.
    2:{ destruct (detected_subject_house (lower question)) as [[_ E]|[_ E]];
        [left | right]; exact E. }
    destruct Hprim as [Hhd [Hall _]].
    destruct (negb _); [|split; assumption].
    destruct (add_keyword_houses_app (lower question) house_meanings hs)
      as [extra [-> Hextra]].
    split.
    + destruct hs; [discriminate Hhd | exact Hhd].
    + apply Forall_app. split; [exact Hall|].
      eapply Forall_impl; [|exact Hextra]. apply house_meanings_keys.
Qed.

End AnalyzeQuestionFacts.

(** X4.  Whatever the question, the analysis lists house 1 first, lists only
    house numbers between 1 and 12, gives the querent house 1, and gives the
    quesited a house number between 1 and 12. *)
Theorem analyzed_houses_are_houses
  (question : string) (now : Calendar.datetime) (a : QuestionHouses.Analysis) :
  QuestionHouses.analyze_question question now = Some a ->
  hd_error (QuestionHouses.relevant_houses a) = Some 1
  /\ Forall (fun h => 1 <= h <= 12) (QuestionHouses.relevant_houses a)
  /\ QuestionHouses.ds_querent_house (QuestionHouses.a_significators a) = 1
  /\ 1 <= QuestionHouses.ds_quesited_house (QuestionHouses.a_significators a) <= 12.
Proof.
  intros H. destruct (analyzed_houses_shape question now a H) as [Hhd Hall].
  split; [exact Hhd|]. split; [exact Hall|].
  apply analyze_question_inv in H. destruct H as [pa [_ [_ [_ ->]]]].
  apply determined_houses_range. exact Hall.
Qed.


Lemma analyzed_houses_are_houses_witness :
  hd_error (QuestionHouses.relevant_houses marriage_analysis) = Some 1
  /\ Forall (fun h => 1 <= h <= 12) (QuestionHouses.relevant_houses marriage_analysis)
  /\ QuestionHouses.ds_querent_house
       (QuestionHouses.a_significators marriage_analysis) = 1
  /\ 1 <= QuestionHouses.ds_quesited_house
            (QuestionHouses.a_significators marriage_analysis) <= 12.
Proof.
  apply (analyzed_houses_are_houses "Will he marry me?" sample_now).
  vm_compute. reflexivity.
Defined.

Section AnalyzedSignificatorFacts.

Import Text Calendar QuestionAnalyzer QuestionHouses.

Lemma primary_houses_education (question : string) (t : ThirdPerson) :
  str_in "spouse" question = false ->
  is_third_person t = true ->
  subject_house t = Some 7 ->
  primary_houses question "education" (Some t) = Some [1; 7; 9; 10].
Proof.
  intros Hs Ht H7. unfold primary_houses. rewrite Hs, Ht, H7.
  eval_literal_tests. reflexivity.
Qed.

Lemma primary_houses_general (question : string) (tp : option ThirdPerson) :
  primary_houses question "general" tp = Some [1; 7].
Proof.
  unfold primary_houses. eval_literal_tests.
  destruct (str_in "spouse" question); cbv beta iota; [reflexivity|].
  destruct (any_in _ question); reflexivity.
Qed.

Lemma education_has_no_transaction_word (question : string) :
  _determine_question_type question = "education"%string ->
  any_in transaction_words question = false.
Proof.
  unfold _determine_question_type. intros H.
  destruct (any_in transaction_words question); [discriminate H | reflexivity].
Qed.

Lemma sale_is_money (question : string) :
  any_in sale_indicators question = true ->
  _determine_question_type question = "money"%string.
Proof.
  intros H. unfold _determine_question_type.
  now rewrite (any_in_subset _ _ _ sale_indicators_are_transaction_words H).
Qed.

(** In the transaction branch the special significators start with the item
    found in the question, and the planet name it carries is a planet. *)
Lemma transaction_significators
  (houses : list Z) (p : Possession) (tp : option ThirdPerson)
  (item planet_name category : string) :
  pa_natural_significators p
  = Some [ (item, planet_name); ("category"%string, category);
           ("traditional_source"%string,
            "Based on classical horary significator assignments"%string) ] ->
  In (item, planet_name)
     (flat_map (fun entry =>
                  map (fun keyword => (keyword, snd (fst (snd entry))))
                      (fst (fst (snd entry))))
               natural_significators) ->
  let s := _determine_significators houses "money" (Some p) tp in
  ds_transaction_type s = true
  /\ ds_quesited_house s = 7
  /\ ds_special_significators s
     = [ (item, planet_name); ("category"%string, category);
         ("traditional_source"%string,
          "Based on classical horary significator assignments"%string);
         ("jupiter"%string, "greater fortune"%string);
         ("venus"%string, "lesser fortune"%string) ]
  /\ exists planet,
       first_item_significator (ds_special_significators s) = Some planet
       /\ In planet [SUN; MOON; VENUS; MERCURY; MARS].
Proof.
  intros Hns Hin. unfold _determine_significators. rewrite Hns.
  cbn [ds_transaction_type ds_quesited_house ds_special_significators].
  split; [reflexivity|]. split; [reflexivity|].
  vm_compute in Hin.
  repeat (destruct Hin as [Hin|Hin];
          [ injection Hin as <- <-;
            split; [vm_compute; reflexivity|];
            eexists; split; [vm_compute; reflexivity | simpl; tauto]
          | ]).
  contradiction.
Qed.

End AnalyzedSignificatorFacts.

(** X5.  When a question is typed as education, is detected as asked about a
    third person and does not hold the word spouse, the quesited house is
    the tenth (success) house; without a possession keyword the houses start
    with 1, 7, 9, 10: the student is the seventh house and the preparation the
    ninth. *)
Theorem third_person_education_judges_tenth
  (question : string) (now : Calendar.datetime) (a : QuestionHouses.Analysis) :
  QuestionHouses.analyze_question question now = Some a ->
  QuestionHouses.a_question_type a = "education"%string ->
  QuestionAnalyzer.is_third_person (QuestionHouses.a_third_person_analysis a)
    = true ->
  Text.str_in "spouse" (Text.lower question) = false ->
  let s := QuestionHouses.a_significators a in
  QuestionHouses.ds_quesited_house s = 10
  /\ QuestionHouses.ds_success_house s = Some 10
  /\ QuestionHouses.ds_third_person_education s = true
  /\ QuestionHouses.ds_transaction_type s = false
  /\ (QuestionHouses._analyze_possession_questions (Text.lower question)
        = Some None ->
      firstn 4 (QuestionHouses.relevant_houses a) = [1; 7; 9; 10]
      /\ QuestionHouses.ds_student_house s = Some 7
      /\ QuestionHouses.ds_preparation_house s = Some 9).
Proof.
  intros H Htype Hthird Hspouse.
  destruct (analyze_question_inv question now a H) as [pa [Et [Eth [Hh Es]]]].
  rewrite Et in Htype. rewrite Eth in Hthird.
  rewrite Htype in Hh, Es.
  assert (H7 : QuestionAnalyzer.subject_house
                 (QuestionAnalyzer._detect_third_person_question
                    (Text.lower question)) = Some 7).
  { destruct (detected_subject_house (Text.lower question)) as [[_ E]|[E _]];
      [exact E | congruence]. }
  assert (Hnat : match pa with
                 | Some p => QuestionHouses.pa_natural_significators p
                 | None => None
                 end = None).
  { destruct pa as [p|]; [|reflexivity].
    destruct (QuestionHouses.pa_natural_significators p) as [ns|] eqn:En;
      [|reflexivity].
    exfalso. apply determine_houses_inv in Hh.
    destruct Hh as [[p' [Hp [Epa _]]]|[_ [Epa _]]]; [|discriminate Epa].
    injection Epa as <-.
    apply possession_analysis_shape in Hp. destruct Hp as [_ [Hp _]].
    destruct (Hp ns En) as [Hsale _].
    pose proof (any_in_subset _ _ _ sale_indicators_are_transaction_words Hsale)
      as Ht.
    rewrite (education_has_no_transaction_word _ Htype) in Ht.
    discriminate Ht. }
  cbv zeta. rewrite Es. unfold QuestionHouses._determine_significators.
  rewrite Hnat, Hthird.
  change (String.eqb "education" "education") with true. cbv beta iota.
  cbn [andb QuestionHouses.ds_quesited_house QuestionHouses.ds_success_house
       QuestionHouses.ds_third_person_education QuestionHouses.ds_transaction_type
       QuestionHouses.ds_student_house QuestionHouses.ds_preparation_house].
  apply determine_houses_inv in Hh.
  destruct Hh as [[p [Hp [_ Eh]]]|[Hnone [_ [hs [Hprim Eh]]]]].
  - rewrite Eh. pose proof (possession_analysis_shape _ _ Hp) as [Hin _].
    assert (E3 : QuestionHouses.nth_or (QuestionHouses.pa_houses p) 3 10 = 10).
    { simpl in Hin.
      repeat (destruct Hin as [<-|Hin]; [reflexivity|]). contradiction. }
    rewrite E3. do 4 (split; [reflexivity|]).
    intros Hn. rewrite Hn in Hp. discriminate Hp.
  - rewrite (primary_houses_education _ _ Hspouse Hthird H7) in Hprim.
    injection Hprim as <-.
    change (negb (String.eqb "education" "general")) with true in Eh.
    cbv beta iota in Eh.
    destruct (add_keyword_houses_app (Text.lower question)
                QuestionHouses.house_meanings [1; 7; 9; 10]) as [extra [E _]].
    rewrite E in Eh. rewrite Eh. repeat split.
Qed.

Lemma third_person_education_judges_tenth_witness :
  let s := QuestionHouses.a_significators test_analysis in
  QuestionHouses.ds_quesited_house s = 10
  /\ QuestionHouses.ds_success_house s = Some 10
  /\ QuestionHouses.ds_third_person_education s = true
  /\ QuestionHouses.ds_transaction_type s = false
  /\ (QuestionHouses._analyze_possession_questions
        (Text.lower "Will he pass the test?") = Some None ->
      firstn 4 (QuestionHouses.relevant_houses test_analysis) = [1; 7; 9; 10]
      /\ QuestionHouses.ds_student_house s = Some 7
      /\ QuestionHouses.ds_preparation_house s = Some 9).
Proof.
  apply (third_person_education_judges_tenth "Will he pass the test?" sample_now);
    vm_compute; reflexivity.
Defined.

(** X6.  When the analysis marks a question as a transaction, the question
    type is money, the houses are 1 and 7, the quesited house is the seventh,
    and the special significators start with an item keyword that occurs in
    the question, carrying the name of one of the Sun, the Moon, Venus,
    Mercury and Mars.  The significator stage then always finds the item
    significator: with rulers for houses 1 and 7 it returns a valid
    transaction setup. *)
Theorem transaction_question_names_its_item
  (question : string) (now : Calendar.datetime) (a : QuestionHouses.Analysis) :
  QuestionHouses.analyze_question question now = Some a ->
  QuestionHouses.ds_transaction_type (QuestionHouses.a_significators a) = true ->
  QuestionHouses.a_question_type a = "money"%string
  /\ QuestionHouses.relevant_houses a = [1; 7]
  /\ QuestionHouses.ds_quesited_house (QuestionHouses.a_significators a) = 7
  /\ exists item planet_name rest planet,
       QuestionHouses.ds_special_significators (QuestionHouses.a_significators a)
       = (item, planet_name) :: rest
       /\ Text.str_in item (Text.lower question) = true
       /\ In planet [SUN; MOON; VENUS; MERCURY; MARS]
       /\ forall chart querent_ruler quesited_ruler,
            house_rulers_get (house_rulers chart) 1 = Some querent_ruler ->
            house_rulers_get (house_rulers chart) 7 = Some quesited_ruler ->
            _identify_significators chart (QuestionHouses.question_analysis_of a)
            = Some (SigValid
                      {| sg_querent := querent_ruler;
                         sg_quesited := quesited_ruler;
                         sg_item_significator := Some planet;
                         sg_transaction_type := true;
                         sg_same_ruler := None;
                         sg_third_person_education := false;
                         sg_student := None |}).
Proof.
  intros H Htrans.
  destruct (analyze_question_inv question now a H) as [pa [Et [_ [Hh Es]]]].
  assert (Hnat : exists p ns, pa = Some p
                              /\ QuestionHouses.pa_natural_significators p = Some ns).
  { rewrite Es in Htrans. unfold QuestionHouses._determine_significators in Htrans.
    cbn [QuestionHouses.ds_transaction_type] in Htrans.
    destruct pa as [p|].
    - destruct (QuestionHouses.pa_natural_significators p) as [ns|] eqn:En.
      + exists p, ns. split; [reflexivity | exact En].
      + destruct (_ && _) in Htrans; discriminate Htrans.
    - destruct (_ && _) in Htrans; discriminate Htrans. }
  destruct Hnat as [p [ns [-> Hns]]].
  apply determine_houses_inv in Hh.
  destruct Hh as [[p' [Hp [Epa Eh]]]|[_ [Epa _]]]; [|discriminate Epa].
  injection Epa as <-.
  destruct (possession_analysis_shape _ _ Hp) as [_ [Hshape _]].
  destruct (Hshape ns Hns) as [Hsale [Hhouses Hdetect]].
  destruct (natural_significator_shape _ _ Hdetect)
    as [item [planet_name [category [Ens [Hitem Hin]]]]].
  rewrite Ens in Hns.
  assert (Htype : QuestionHouses.a_question_type a = "money"%string).
  { rewrite Et. apply sale_is_money. exact Hsale. }
  rewrite Et in Htype. rewrite Htype in Es.
  destruct (transaction_significators (QuestionHouses.relevant_houses a) p
              (Some (QuestionAnalyzer._detect_third_person_question
                       (Text.lower question)))
              item planet_name category Hns Hin)
    as [Ht [Hq [Hspecial [planet [Hfirst Hplanet]]]]].
  rewrite <- Es in Ht, Hq, Hspecial, Hfirst.
  split; [rewrite Et; exact Htype|].
  split; [rewrite Eh; exact Hhouses|].
  split; [exact Hq|].
  exists item, planet_name.
  eexists. exists planet.
  split; [exact Hspecial|]. split; [exact Hitem|]. split; [exact Hplanet|].
  intros chart querent_ruler quesited_ruler H1 H7.
  unfold _identify_significators, QuestionHouses.question_analysis_of.
  cbn [significators si_transaction_type si_quesited_house
       si_special_significators].
  rewrite Ht, Hq. cbn [Py.bind]. rewrite H1, H7, Hfirst. reflexivity.
Qed.

Lemma transaction_question_names_its_item_witness :
  QuestionHouses.a_question_type car_sale_analysis = "money"%string
  /\ QuestionHouses.relevant_houses car_sale_analysis = [1; 7]
  /\ QuestionHouses.ds_quesited_house
       (QuestionHouses.a_significators car_sale_analysis) = 7
  /\ exists item planet_name rest planet,
       QuestionHouses.ds_special_significators
         (QuestionHouses.a_significators car_sale_analysis)
       = (item, planet_name) :: rest
       /\ Text.str_in item (Text.lower "Will I sell my car?") = true
       /\ In planet [SUN; MOON; VENUS; MERCURY; MARS]
       /\ forall chart querent_ruler quesited_ruler,
            house_rulers_get (house_rulers chart) 1 = Some querent_ruler ->
            house_rulers_get (house_rulers chart) 7 = Some quesited_ruler ->
            _identify_significators chart
              (QuestionHouses.question_analysis_of car_sale_analysis)
            = Some (SigValid
                      {| sg_querent := querent_ruler;
                         sg_quesited := quesited_ruler;
                         sg_item_significator := Some planet;
                         sg_transaction_type := true;
                         sg_same_ruler := None;
                         sg_third_person_education := false;
                         sg_student := None |}).
Proof.
  apply (transaction_question_names_its_item "Will I sell my car?" sample_now);
    vm_compute; reflexivity.
Defined.

Section GeneralQuestionFacts.

Import Text Calendar QuestionAnalyzer QuestionHouses.

Lemma money_keyword_matches (question : string) :
  str_in "money" question = true -> question_matches question <> [].
Proof.
  intros Hm.
  pose (kws := match nth_error question_patterns 7 with
               | Some e => snd e
               | None => []
               end).
  assert (Hsplit : question_patterns
                   = firstn 7 question_patterns
                     ++ ("money"%string, kws) :: skipn 8 question_patterns)
    by reflexivity.
  assert (Hne : filter (keyword_matches question) kws <> []).
  { apply (filter_not_nil _ _ "money"%string); [vm_compute; now left | exact Hm]. }
  destruct (first_match_not_after question (firstn 7 question_patterns)
              (skipn 8 question_patterns) "money" kws Hne)
    as [m [rest [E _]]].
  rewrite <- Hsplit in E. unfold question_matches. rewrite E. discriminate.
Qed.

Lemma general_type_inv (question : string) :
  _determine_question_type question = "general"%string ->
  any_in transaction_words question = false
  /\ any_in possession_words question = false
  /\ question_matches question = [].
Proof.
  intros Hg.
  destruct (any_in transaction_words question) eqn:Ht.
  { unfold _determine_question_type in Hg. rewrite Ht in Hg. discriminate Hg. }
  destruct (any_in possession_words question) eqn:Hp.
  { unfold _determine_question_type in Hg. rewrite Ht, Hp in Hg. discriminate Hg. }
  destruct (question_matches question) as [|m rest] eqn:E; [repeat split|].
  exfalso.
  assert (Hkey : In (fst m) (map fst question_patterns)).
  { apply (question_matches_keys question). rewrite E. now left. }
  destruct (type_of_matches question Ht Hp m rest E) as [Em|[_ [_ [Em|Em]]]];
    rewrite Em in Hg; try discriminate Hg.
  apply general_is_no_pattern_key. now rewrite <- Hg.
Qed.

Lemma general_has_no_possession (question : string) :
  _determine_question_type question = "general"%string ->
  _analyze_possession_questions question = Some None.
Proof.
  intros Hg. destruct (general_type_inv question Hg) as [Ht [Hp Hm]].
  unfold _analyze_possession_questions.
  destruct (any_in sale_indicators question) eqn:Es.
  { rewrite (any_in_subset _ _ _ sale_indicators_are_transaction_words Es) in Ht.
    discriminate Ht. }
  destruct (any_in possession_indicators question) eqn:Ei; [|reflexivity].
  exfalso. apply any_in_true in Ei. destruct Ei as [w [Hw Hin]].
  simpl in Hw.
  destruct Hw as [<-|[<-|[<-|[<-|[<-|[]]]]]];
    try (assert (Hc : any_in possession_words question = true)
           by (apply any_in_true; eexists; split; [|exact Hin];
               simpl; tauto);
         rewrite Hc in Hp; discriminate Hp).
  exact (money_keyword_matches question Hin Hm).
Qed.

End GeneralQuestionFacts.

(** X7.  A question that matches no pattern (type general) is judged on
    houses 1 and 7: the quesited house is the seventh, no house is added from
    the house keywords, and no special significator is listed. *)
Theorem unclassified_question_uses_seventh_house
  (question : string) (now : Calendar.datetime) (a : QuestionHouses.Analysis) :
  QuestionHouses.analyze_question question now = Some a ->
  QuestionHouses.a_question_type a = "general"%string ->
  QuestionHouses.relevant_houses a = [1; 7]
  /\ QuestionHouses.ds_quesited_house (QuestionHouses.a_significators a) = 7
  /\ QuestionHouses.ds_special_significators (QuestionHouses.a_significators a) = []
  /\ QuestionHouses.ds_transaction_type (QuestionHouses.a_significators a) = false
  /\ QuestionHouses.ds_third_person_education (QuestionHouses.a_significators a)
     = false.
Proof.
  intros H Hg.
  destruct (analyze_question_inv question now a H) as [pa [Et [_ [Hh Es]]]].
  rewrite Et in Hg. rewrite Hg in Hh, Es.
  apply determine_houses_inv in Hh.
  rewrite (general_has_no_possession _ Hg) in Hh.
  destruct Hh as [[p [Hp _]]|[_ [Epa [hs [Hprim Eh]]]]]; [discriminate Hp|].
  rewrite primary_houses_general in Hprim. injection Hprim as <-.
  change (negb (String.eqb "general" "general")) with false in Eh.
  cbv beta iota in Eh. rewrite Es, Epa, Eh.
  unfold QuestionHouses._determine_significators.
  change (String.eqb "general" "education") with false.
  rewrite andb_false_r.
  repeat split.
Qed.

Lemma unclassified_question_uses_seventh_house_witness :
  QuestionHouses.relevant_houses general_analysis = [1; 7]
  /\ QuestionHouses.ds_quesited_house
       (QuestionHouses.a_significators general_analysis) = 7
  /\ QuestionHouses.ds_special_significators
       (QuestionHouses.a_significators general_analysis) = []
  /\ QuestionHouses.ds_transaction_type
       (QuestionHouses.a_significators general_analysis) = false
  /\ QuestionHouses.ds_third_person_education
       (QuestionHouses.a_significators general_analysis) = false.
Proof.
  apply (unclassified_question_uses_seventh_house "Am I happy?" sample_now);
    vm_compute; reflexivity.
Defined.

(** ** Reception calculator *)

Lemma Some_inj {A : Type} (a b : A) : Some a = Some b -> a = b.
Proof. intros H. injection H as H. exact H. Qed.

Section ReceptionFacts.

Import Reception.

Lemma classify_reception_swap (r12 r21 : list Dignity) :
  fst (_classify_reception r21 r12) = fst (_classify_reception r12 r21)
  /\ _calculate_reception_strength (fst (_classify_reception r21 r12))
       (snd (_classify_reception r21 r12))
     = _calculate_reception_strength (fst (_classify_reception r12 r21))
         (snd (_classify_reception r12 r21)).
Proof.
  unfold _classify_reception.
  destruct r12 as [|a r12], r21 as [|b r21]; cbn [nonempty negb andb];
    try (split; reflexivity).
  - destruct (has_dignity domicile (b :: r21)); cbn [andb];
      destruct (has_dignity exaltation (b :: r21)); split; try reflexivity;
      rewrite ?andb_false_r; reflexivity.
  - rewrite !andb_false_r. cbn [fst snd]. split; reflexivity.
  - rewrite (andb_comm (has_dignity domicile (b :: r21))).
    rewrite (andb_comm (has_dignity exaltation (b :: r21))).
    destruct (has_dignity domicile (a :: r12) && has_dignity domicile (b :: r21));
      [split; reflexivity|].
    destruct (has_dignity exaltation (a :: r12) && has_dignity exaltation (b :: r21));
      split; reflexivity.
Qed.

Lemma check_all_dignities_members
  (p : Planet) (pos : PlanetPosition) (is_day : bool) (d : Dignity) :
  In d (_check_all_dignities p pos is_day) ->
  has_dignity d (_check_all_dignities p pos is_day) = true.
Proof.
  intros H. unfold has_dignity. apply existsb_exists. exists d.
  split; [exact H | destruct d; reflexivity].
Qed.

Lemma unilateral_strength (l : list Dignity) :
  l <> [] ->
  3 <= _calculate_reception_strength unilateral l <= 5.
Proof.
  intros Hl. cbn [_calculate_reception_strength].
  destruct l as [|d l]; [contradiction|].
  unfold has_dignity. cbn [existsb].
  destruct d; cbn [Dignity_eqb orb]; try lia;
    repeat match goal with
           | |- context [if ?c then _ else _] => destruct c
           end; lia.
Qed.

Lemma calculate_comprehensive_reception_inv
  (chart : HoraryChart) (p1 p2 : Planet) (r : ReceptionData) :
  calculate_comprehensive_reception chart p1 p2 = Some r ->
  exists pos1 pos2 sun_pos sun_house,
    planets_get (planets chart) p1 = Some pos1
    /\ planets_get (planets chart) p2 = Some pos2
    /\ planets_get (planets chart) SUN = Some sun_pos
    /\ _calculate_house_position (longitude sun_pos) (houses chart) = Some sun_house
    /\ day_chart r = Z_in sun_house day_houses
    /\ planet1_receives_planet2 r = _check_all_dignities p1 pos2 (day_chart r)
    /\ planet2_receives_planet1 r = _check_all_dignities p2 pos1 (day_chart r)
    /\ rc_type r
       = fst (_classify_reception (planet1_receives_planet2 r)
                (planet2_receives_planet1 r))
    /\ traditional_strength r
       = _calculate_reception_strength (rc_type r)
           (snd (_classify_reception (planet1_receives_planet2 r)
                   (planet2_receives_planet1 r))).
Proof.
  unfold calculate_comprehensive_reception. intros H.
  destruct (planets_get (planets chart) p1) as [pos1|]; [|discriminate H].
  destruct (planets_get (planets chart) p2) as [pos2|]; [|discriminate H].
  destruct (planets_get (planets chart) SUN) as [sun_pos|]; [|discriminate H].
  lazy beta iota zeta delta [Py.bind] in H.
  destruct (_calculate_house_position (longitude sun_pos) (houses chart))
    as [sun_house|] eqn:Eh; [|discriminate H].
  lazy beta iota zeta delta [Py.bind] in H.
  destruct (_classify_reception _ _) as [t details] eqn:E.
  apply Some_inj in H. subst r.
  exists pos1, pos2, sun_pos, sun_house.
  lazy beta iota delta [day_chart planet1_receives_planet2
                          planet2_receives_planet1 rc_type traditional_strength].
  rewrite E. lazy beta iota delta [fst snd]. repeat split. exact Eh.
Qed.

End ReceptionFacts.

(** X8.  Reception does not depend on the order in which the two planets are
    given: asking for the reception of the second and the first gives the same
    type and the same strength, with the two dignity lists exchanged. *)
Theorem reception_is_symmetric
  (chart : HoraryChart) (p1 p2 : Planet) (r : Reception.ReceptionData) :
  Reception.calculate_comprehensive_reception chart p1 p2 = Some r ->
  exists r',
    Reception.calculate_comprehensive_reception chart p2 p1 = Some r'
    /\ Reception.rc_type r' = Reception.rc_type r
    /\ Reception.traditional_strength r' = Reception.traditional_strength r
    /\ Reception.planet1_receives_planet2 r' = Reception.planet2_receives_planet1 r
    /\ Reception.planet2_receives_planet1 r' = Reception.planet1_receives_planet2 r
    /\ Reception.day_chart r' = Reception.day_chart r.
Proof.
  unfold Reception.calculate_comprehensive_reception. intros H.
  destruct (planets_get (planets chart) p1) as [pos1|]; [|discriminate H].
  destruct (planets_get (planets chart) p2) as [pos2|]; [|discriminate H].
  destruct (planets_get (planets chart) SUN) as [sun_pos|]; [|discriminate H].
  lazy beta iota zeta delta [Py.bind] in *.
  destruct (Reception._calculate_house_position (longitude sun_pos) (houses chart))
    as [sun_house|]; [|discriminate H].
  lazy beta iota zeta delta [Py.bind] in *.
  set (is_day := Reception.Z_in sun_house Reception.day_houses) in *.
  set (r12 := Reception._check_all_dignities p1 pos2 is_day) in *.
  set (r21 := Reception._check_all_dignities p2 pos1 is_day) in *.
  destruct (classify_reception_swap r12 r21) as [Et Es].
  destruct (Reception._classify_reception r12 r21) as [t d].
  destruct (Reception._classify_reception r21 r12) as [t' d'].
  cbn [fst snd] in Et, Es. apply Some_inj in H. subst r.
  eexists. split; [reflexivity|].
  cbn [Reception.rc_type Reception.traditional_strength
       Reception.planet1_receives_planet2 Reception.planet2_receives_planet1
       Reception.day_chart].
  repeat split; assumption.
Qed.

Lemma reception_is_symmetric_witness :
  exists r r',
    Reception.calculate_comprehensive_reception carrying_moon_chart VENUS MARS
    = Some r
    /\ Reception.calculate_comprehensive_reception carrying_moon_chart MARS VENUS
       = Some r'
    /\ Reception.rc_type r' = Reception.rc_type r
    /\ Reception.traditional_strength r' = Reception.traditional_strength r.
Proof.
  destruct (Reception.calculate_comprehensive_reception carrying_moon_chart VENUS MARS)
    as [r|] eqn:E; [|vm_compute in E; discriminate E].
  destruct (reception_is_symmetric carrying_moon_chart VENUS MARS r E)
    as [r' [E' [Ht [Hs _]]]].
  exists r, r'. repeat split; assumption.
Defined.

(** X9.  The reception strength is 0 exactly when there is no reception, that
    is when neither planet has a dignity in the other's sign; every reception
    that is reported has a strength between 3 and 10, so the lowest value 2
    of the strength table is never returned; and a mutual rulership is
    reported exactly when each planet is the domicile ruler of the other's
    sign. *)
Theorem reception_strength_range
  (chart : HoraryChart) (p1 p2 : Planet) (r : Reception.ReceptionData) :
  Reception.calculate_comprehensive_reception chart p1 p2 = Some r ->
  (Reception.traditional_strength r = 0 <-> Reception.rc_type r = Reception.none)
  /\ (Reception.rc_type r = Reception.none <->
      Reception.planet1_receives_planet2 r = []
      /\ Reception.planet2_receives_planet1 r = [])
  /\ (Reception.rc_type r <> Reception.none ->
      3 <= Reception.traditional_strength r <= 10)
  /\ (Reception.rc_type r = Reception.mutual_rulership <->
      exists pos1 pos2,
        planets_get (planets chart) p1 = Some pos1
        /\ planets_get (planets chart) p2 = Some pos2
        /\ Sign_ruler (sign pos2) = p1 /\ Sign_ruler (sign pos1) = p2).
Proof.
  intros H.
  destruct (calculate_comprehensive_reception_inv chart p1 p2 r H)
    as [pos1 [pos2 [sun_pos [sun_house [H1 [H2 [_ [_ [_ [E12 [E21 [Et Es]]]]]]]]]]]].
  assert (Hdom : forall p pos is_day,
             Reception.has_dignity Reception.domicile
               (Reception._check_all_dignities p pos is_day) = true
             <-> Sign_ruler (sign pos) = p).
  { intros p pos is_day. unfold Reception._check_all_dignities, Reception.has_dignity.
    rewrite !existsb_app.
    destruct (Planet_eqb (Sign_ruler (sign pos)) p) eqn:Ep.
    - split; [intros _; now apply Planet_eqb_eq | reflexivity].
    - split; [|intros Hr; apply Planet_eqb_eq in Hr; congruence].
      intros Hx. exfalso.
      destruct (Reception.exaltations p) as [s|];
        [destruct (Sign_eqb s (sign pos))|];
        destruct (Reception._has_triplicity_dignity p (sign pos) is_day);
        discriminate Hx. }
  set (r12 := Reception.planet1_receives_planet2 r) in *.
  set (r21 := Reception.planet2_receives_planet1 r) in *.
  assert (Hcases :
            (r12 = [] /\ r21 = [] /\ Reception.rc_type r = Reception.none
             /\ Reception.traditional_strength r = 0)
            \/ ((r12 <> [] \/ r21 <> []) /\ Reception.rc_type r <> Reception.none
                /\ 3 <= Reception.traditional_strength r <= 10)).
  { rewrite Es, Et. unfold Reception._classify_reception.
    destruct r12 as [|a l12], r21 as [|b l21];
      cbn [Reception.nonempty negb andb fst snd].
    - left. repeat split.
    - right. rewrite !andb_false_l. cbn [fst snd].
      split; [right; discriminate|]. split; [discriminate|].
      pose proof (unilateral_strength (b :: l21) ltac:(discriminate)). lia.
    - right. rewrite !andb_false_r. cbn [fst snd].
      split; [left; discriminate|]. split; [discriminate|].
      pose proof (unilateral_strength (a :: l12) ltac:(discriminate)). lia.
    - right. split; [left; discriminate|].
      destruct (_ && _); cbn [fst snd Reception._calculate_reception_strength];
        [split; [discriminate | lia]|].
      destruct (_ && _); cbn [fst snd Reception._calculate_reception_strength];
        split; try discriminate; lia. }
  split; [|split; [|split]].
  - destruct Hcases as [[_ [_ [Ht Hs]]]|[_ [Ht Hs]]]; split; intros Hx;
      try assumption; try contradiction; lia.
  - destruct Hcases as [[Ha [Hb [Ht Hs]]]|[Hne [Ht Hs]]]; split; intros Hx.
    + split; assumption.
    + assumption.
    + contradiction.
    + destruct Hx as [Ha Hb]. destruct Hne; contradiction.
  - intros Hne. destruct Hcases as [[_ [_ [Ht _]]]|[_ [_ Hs]]];
      [contradiction | exact Hs].
  - rewrite Et. fold r12 r21. unfold Reception._classify_reception.
    assert (Hd12 : Reception.has_dignity Reception.domicile r12 = true
                   <-> Sign_ruler (sign pos2) = p1).
    { rewrite E12. apply Hdom. }
    assert (Hd21 : Reception.has_dignity Reception.domicile r21 = true
                   <-> Sign_ruler (sign pos1) = p2).
    { rewrite E21. apply Hdom. }
    split.
    + intros Hm.
      destruct (Reception.has_dignity Reception.domicile r12) eqn:D12.
      * destruct (Reception.has_dignity Reception.domicile r21) eqn:D21.
        -- exists pos1, pos2. repeat split; try assumption;
             [apply Hd12 | apply Hd21]; reflexivity.
        -- exfalso. rewrite andb_false_r in Hm. cbn [andb] in Hm.
           repeat match type of Hm with
                  | fst (if ?c then _ else _) = _ =>
                      destruct c; cbn [fst] in Hm; try discriminate Hm
                  end.
      * exfalso. cbn [andb] in Hm.
        repeat match type of Hm with
               | fst (if ?c then _ else _) = _ =>
                   destruct c; cbn [fst] in Hm; try discriminate Hm
               end.
    + intros [q1 [q2 [G1 [G2 [Hr1 Hr2]]]]].
      rewrite H1 in G1. rewrite H2 in G2.
      injection G1 as <-. injection G2 as <-.
      apply Hd12 in Hr1. apply Hd21 in Hr2.
      assert (N12 : Reception.nonempty r12 = true).
      { destruct r12; [discriminate Hr1 | reflexivity]. }
      rewrite N12, Hr1, Hr2. reflexivity.
Qed.

Lemma reception_strength_range_witness :
  exists r,
    Reception.calculate_comprehensive_reception carrying_moon_chart VENUS MARS
    = Some r
    /\ (Reception.traditional_strength r = 0
        <-> Reception.rc_type r = Reception.none).
Proof.
  destruct (Reception.calculate_comprehensive_reception carrying_moon_chart VENUS MARS)
    as [r|] eqn:E; [|vm_compute in E; discriminate E].
  exists r. split; [reflexivity|].
  exact (proj1 (reception_strength_range carrying_moon_chart VENUS MARS r E)).
Defined.

(** ** Chart calculator *)

(** Case analysis on the sign of the argument of one absolute value of the
    goal or of a hypothesis; the absolute value becomes a variable with its
    defining (in)equalities. *)
Ltac qabs_split x :=
  let Ha := fresh "Habs" in
  let a := fresh "a" in
  assert (Ha : ((Qabs x == x)%Q /\ (0 <= x)%Q) \/ ((Qabs x == - x)%Q /\ (x <= 0)%Q))
    by (destruct (Qlt_le_dec x 0);
        [ right; split; [apply Qabs_neg; lra | lra]
        | left; split; [apply Qabs_pos; assumption | assumption] ]);
  set (a := Qabs x) in *; clearbody a;
  destruct Ha as [[? ?]|[? ?]].

(** Case analysis on one comparison of floats, turned into an inequality. *)
Ltac qcmp_split :=
  match goal with
  | |- context [Py.Qltb ?x ?y] =>
      let E := fresh "Ecmp" in
      destruct (Py.Qltb x y) eqn:E;
      [apply Qltb_lt in E | apply Qltb_ge in E]
  | |- context [Py.Qleb ?x ?y] =>
      let E := fresh "Ecmp" in
      destruct (Py.Qleb x y) eqn:E;
      [apply Qleb_le in E | apply Qleb_gt in E]
  end.


Lemma Qmod_range (x m : Q) : (0 < m)%Q -> (0 <= Py.Qmod x m < m)%Q.
Proof.
  intros Hm. unfold Py.Qmod.
  pose proof (Qfloor_le (x / m)) as Hlo.
  pose proof (Qlt_floor (x / m)) as Hhi.
  rewrite inject_Z_plus in Hhi. change (inject_Z 1) with 1%Q in Hhi.
  set (f := inject_Z (Qfloor (x / m))) in *.
  assert (Hx : (x == m * (x / m))%Q) by (field; lra).
  assert (H1 : (m * f <= m * (x / m))%Q) by (apply Qmult_le_l; assumption).
  assert (H2 : (m * (x / m) < m * (f + 1))%Q) by (apply Qmult_lt_l; assumption).
  split; lra.
Qed.

Lemma Qleb_Qltb_false (a b l : Q) :
  Py.Qleb a l && Py.Qltb l b = false -> (a <= l)%Q -> (b <= l)%Q.
Proof.
  intros H Ha. apply andb_false_iff in H. destruct H as [H|H].
  - apply Qleb_gt in H. lra.
  - apply Qltb_ge in H. exact H.
Qed.

(** X10.  The sign of a longitude is the sign whose thirty degrees hold the
    longitude reduced to one turn; the fallback to Pisces at the end of the
    function is never needed. *)
Theorem get_sign_holds_longitude (lon : Q) :
  (inject_Z (Sign_start_degree (_get_sign lon)) <= Py.Qmod lon 360
   < inject_Z (Sign_start_degree (_get_sign lon)) + 30)%Q
  /\ exists s,
       find (fun s => Py.Qleb (Py.Qz (Sign_start_degree s)) (Py.Qmod lon 360)
                      && Py.Qltb (Py.Qmod lon 360)
                           (Py.Qz (Sign_start_degree s + 30)))
            all_signs = Some s.
Proof.
  pose proof (Qmod_range lon 360 ltac:(lra)) as [Hlo Hhi].
  unfold _get_sign. set (l := Py.Qmod lon 360) in *.
  cbn [find all_signs].
  repeat match goal with
         | |- context [if ?c then _ else _] =>
             let E := fresh "E" in
             destruct c eqn:E;
             [ apply andb_true_iff in E; destruct E as [Ea Eb];
               apply Qleb_le in Ea; apply Qltb_lt in Eb;
               split; [|eexists; reflexivity];
               cbn [Sign_start_degree] in *; unfold Py.Qz in *;
               rewrite ?inject_Z_plus in *; unfold inject_Z in *; lra
             | ]
         end.
  exfalso.
  repeat match goal with
         | E : Py.Qleb _ l && Py.Qltb l _ = false |- _ =>
             apply Qleb_Qltb_false in E;
             [ cbn [Sign_start_degree] in E; unfold Py.Qz in E;
               rewrite inject_Z_plus in E; unfold inject_Z in E
             | cbn [Sign_start_degree]; unfold Py.Qz, inject_Z; lra ]
         end.
  lra.
Qed.

Lemma angular_separation_range (l1 l2 : Q) :
  (0 <= l1 < 360)%Q -> (0 <= l2 < 360)%Q ->
  (0 <= angular_separation l1 l2 <= 180)%Q.
Proof.
  intros H1 H2. unfold angular_separation, Py.Qabs'.
  qabs_split (l1 - l2)%Q; qcmp_split; lra.
Qed.

Lemma angular_separation_sym (l1 l2 : Q) :
  (angular_separation l1 l2 == angular_separation l2 l1)%Q.
Proof.
  unfold angular_separation, Py.Qabs'.
  qabs_split (l1 - l2)%Q; qabs_split (l2 - l1)%Q;
    qcmp_split; qcmp_split; lra.
Qed.

Lemma Aspect_degrees_range (a : Aspect) :
  (0 <= inject_Z (Aspect_degrees a) <= 180)%Q.
Proof. destruct a; cbn [Aspect_degrees]; unfold inject_Z; lra. Qed.

(** X11.  The degrees to exactness of an aspect are never reported below a
    tenth of a degree; they do not depend on the order of the two bodies; and
    for longitudes within one turn they do not exceed 180. *)
Theorem degrees_to_exact_bounds (pos1 pos2 : PlanetPosition) (a : Aspect) :
  ((1 # 10) <= _calculate_enhanced_degrees_to_exact pos1 pos2 a)%Q
  /\ (_calculate_enhanced_degrees_to_exact pos1 pos2 a
      == _calculate_enhanced_degrees_to_exact pos2 pos1 a)%Q
  /\ ((0 <= longitude pos1 < 360)%Q -> (0 <= longitude pos2 < 360)%Q ->
      (_calculate_enhanced_degrees_to_exact pos1 pos2 a <= 180)%Q).
Proof.
  unfold _calculate_enhanced_degrees_to_exact, Py.Qabs', Py.Qz.
  pose proof (Aspect_degrees_range a) as Hd.
  pose proof (angular_separation_sym (longitude pos1) (longitude pos2)) as Hs.
  set (d := inject_Z (Aspect_degrees a)) in *.
  set (s12 := angular_separation (longitude pos1) (longitude pos2)) in *.
  set (s21 := angular_separation (longitude pos2) (longitude pos1)) in *.
  split; [|split].
  - qabs_split (s12 - d)%Q; qcmp_split; lra.
  - qabs_split (s12 - d)%Q; qabs_split (s21 - d)%Q;
      qcmp_split; qcmp_split; lra.
  - intros H1 H2.
    pose proof (angular_separation_range _ _ H1 H2) as Hr. fold s12 in Hr.
    qabs_split (s12 - d)%Q; qcmp_split; lra.
Qed.

Lemma all_signs_listed (s : Sign) : In s all_signs.
Proof. destruct s; simpl; tauto. Qed.

Lemma dignity_tables_check (p : Planet) (s : Sign) :
  Calculator.Sign_in s (Calculator.detriment_signs p)
  = existsb (fun s' => Planet_eqb (Sign_ruler s') p
                       && (Sign_start_degree s'
                           =? (Sign_start_degree s + 180) mod 360))
            all_signs
  /\ Calculator.falls_in p s
     = existsb (fun s' => Calculator.exalted_in p s'
                          && (Sign_start_degree s'
                              =? (Sign_start_degree s + 180) mod 360))
               all_signs.
Proof. destruct p, s; split; vm_compute; reflexivity. Qed.

(** X12.  The tables of debilities mirror the tables of dignities: a planet
    is in detriment exactly in the signs opposite the signs it rules, and in
    fall exactly in the sign opposite its exaltation. *)
Theorem debilities_oppose_dignities (p : Planet) (s : Sign) :
  (Calculator.Sign_in s (Calculator.detriment_signs p) = true <->
   exists s', Sign_ruler s' = p
              /\ Sign_start_degree s' = (Sign_start_degree s + 180) mod 360)
  /\ (Calculator.falls_in p s = true <->
      exists s', Calculator.exaltations p = Some s'
                 /\ Sign_start_degree s' = (Sign_start_degree s + 180) mod 360).
Proof.
  destruct (dignity_tables_check p s) as [Hd Hf]. rewrite Hd, Hf.
  split; rewrite existsb_exists; split.
  - intros [s' [_ H]]. apply andb_true_iff in H. destruct H as [H1 H2].
    exists s'. split; [now apply Planet_eqb_eq | now apply Z.eqb_eq].
  - intros [s' [H1 H2]]. exists s'. split; [apply all_signs_listed|].
    apply andb_true_iff. split; [now apply Planet_eqb_eq | now apply Z.eqb_eq].
  - intros [s' [_ H]]. apply andb_true_iff in H. destruct H as [H1 H2].
    exists s'. split; [|now apply Z.eqb_eq].
    unfold Calculator.exalted_in in H1.
    destruct (Calculator.exaltations p) as [e|]; [|discriminate H1].
    apply Sign_eqb_eq in H1. now subst e.
  - intros [s' [H1 H2]]. exists s'. split; [apply all_signs_listed|].
    apply andb_true_iff. split; [|now apply Z.eqb_eq].
    unfold Calculator.exalted_in. rewrite H1. now apply Sign_eqb_eq.
Qed.

(** *** Houses and angularity *)

Lemma house_scan_total (lon : Q) (hs : list Q) (idx : list nat) :
  (12 <= List.length hs)%nat -> Forall (fun i => (i < 12)%nat) idx ->
  exists h, Reception.house_scan lon hs idx = Some h /\ 1 <= h <= 12.
Proof.
  intros Hlen Hidx. induction Hidx as [|i rest Hi _ IH].
  - exists 1. split; [reflexivity | lia].
  - cbn [Reception.house_scan]. unfold Py.bind.
    destruct (nth_error hs i) as [c|] eqn:Ec.
    2:{ apply nth_error_None in Ec. lia. }
    destruct (nth_error hs (Nat.modulo (i + 1) 12)) as [n|] eqn:En.
    2:{ apply nth_error_None in En.
        pose proof (Nat.mod_upper_bound (i + 1) 12 ltac:(lia)). lia. }
    repeat match goal with
           | |- context [if ?c then _ else _] => destruct c
           end;
      try exact IH;
      (exists (Z.of_nat i + 1); split; [reflexivity | lia]).
Qed.

Lemma first_twelve : Forall (fun i => (i < 12)%nat) (seq 0 12).
Proof. cbn [seq]. repeat constructor; lia. Qed.

Lemma angularity_total (lon : Q) (hs : list Q) (h : Z) :
  (10 <= List.length hs)%nat ->
  exists c1 c4 c7 c10,
    nth_error hs 0 = Some c1 /\ nth_error hs 3 = Some c4
    /\ nth_error hs 6 = Some c7 /\ nth_error hs 9 = Some c10.
Proof.
  intro Hlen.
  destruct (nth_error hs 0) as [c1|] eqn:E1;
    [|apply nth_error_None in E1; lia].
  destruct (nth_error hs 3) as [c4|] eqn:E4;
    [|apply nth_error_None in E4; lia].
  destruct (nth_error hs 6) as [c7|] eqn:E7;
    [|apply nth_error_None in E7; lia].
  destruct (nth_error hs 9) as [c10|] eqn:E10;
    [|apply nth_error_None in E10; lia].
  exists c1, c4, c7, c10. repeat split.
Qed.

Lemma angularity_short (lon : Q) (hs : list Q) (h : Z) :
  (List.length hs < 10)%nat ->
  Calculator._get_traditional_angularity lon hs h = None.
Proof.
  intro Hlen. unfold Calculator._get_traditional_angularity, Py.bind.
  assert (E : nth_error hs 9 = None) by (apply nth_error_None; lia).
  rewrite E.
  destruct (nth_error hs 0); [|reflexivity].
  destruct (nth_error hs 3); [|reflexivity].
  destruct (nth_error hs 6); reflexivity.
Qed.

(** X13.  The comprehensive dignity of a planet is its dignity under the
    five-degree rule plus four further terms: triplicity, speed, the
    retrograde penalty and hayz.  With twelve house cusps or more it is
    always defined. *)
Theorem comprehensive_dignity_decomposes
  (cfg : Config) (dcfg : Calculator.DignityConfig) (p : Planet)
  (planet_pos : PlanetPosition) (hs : list Q) (sun_pos : PlanetPosition)
  (solar_analysis : option SolarAnalysis) :
  Calculator._calculate_comprehensive_traditional_dignity
    cfg dcfg p planet_pos hs sun_pos solar_analysis
  = (base <- Calculator._calculate_enhanced_dignity_with_5degree_rule
               dcfg p planet_pos hs solar_analysis ;;
     hayz <- Calculator._calculate_hayz_dignity dcfg p sun_pos hs ;;
     Some (base
           + DignityScorer._calculate_triplicity_dignity cfg p
               (_get_sign (longitude planet_pos)) sun_pos
           + Calculator._calculate_speed_dignity dcfg p (speed planet_pos)
           + (if retrograde planet_pos
              then Calculator.retrograde_dignity_penalty dcfg else 0)
           + hayz))
  /\ ((12 <= List.length hs)%nat ->
      exists score,
        Calculator._calculate_comprehensive_traditional_dignity
          cfg dcfg p planet_pos hs sun_pos solar_analysis = Some score).
Proof.
  assert (Heq :
    Calculator._calculate_comprehensive_traditional_dignity
      cfg dcfg p planet_pos hs sun_pos solar_analysis
    = (base <- Calculator._calculate_enhanced_dignity_with_5degree_rule
                 dcfg p planet_pos hs solar_analysis ;;
       hayz <- Calculator._calculate_hayz_dignity dcfg p sun_pos hs ;;
       Some (base
             + DignityScorer._calculate_triplicity_dignity cfg p
                 (_get_sign (longitude planet_pos)) sun_pos
             + Calculator._calculate_speed_dignity dcfg p (speed planet_pos)
             + (if retrograde planet_pos
                then Calculator.retrograde_dignity_penalty dcfg else 0)
             + hayz))).
  { unfold Calculator._calculate_comprehensive_traditional_dignity,
      Calculator._calculate_enhanced_dignity_with_5degree_rule, Py.bind.
    destruct (Calculator._get_traditional_angularity
                (longitude planet_pos) hs (house planet_pos)) as [w|];
      [|reflexivity].
    destruct (Calculator._calculate_hayz_dignity dcfg p sun_pos hs) as [hz|];
      [|reflexivity].
    f_equal. ring. }
  split; [exact Heq|].
  intro Hlen. rewrite Heq.
  unfold Calculator._calculate_enhanced_dignity_with_5degree_rule,
    Calculator._calculate_hayz_dignity, Calculator._calculate_house_position,
    Calculator._get_traditional_angularity, Py.bind.
  destruct (angularity_total (longitude planet_pos) hs (house planet_pos)
              ltac:(lia)) as [c1 [c4 [c7 [c10 [E1 [E4 [E7 E10]]]]]]].
  rewrite E1, E4, E7, E10.
  destruct (house_scan_total (Py.Qmod (longitude sun_pos) 360) hs (seq 0 12)
              Hlen first_twelve) as [sh [Esh _]].
  rewrite Esh.
  repeat match goal with
         | |- context [if ?c then Some _ else _] => destruct c
         end;
    eexists; reflexivity.
Qed.

Lemma comprehensive_dignity_decomposes_witness :
  exists score,
    Calculator._calculate_comprehensive_traditional_dignity
      sample_config sample_dignity VENUS venus_in_libra (equal_houses 10)
      sun_in_cancer None
    = Some score.
Proof.
  apply (proj2 (comprehensive_dignity_decomposes sample_config sample_dignity
                  VENUS venus_in_libra (equal_houses 10) sun_in_cancer None)).
  vm_compute. lia.
Defined.

Lemma nth_error_nth_Q (hs : list Q) (n : nat) (c : Q) :
  nth_error hs n = Some c -> nth n hs 0%Q = c.
Proof. intro H. exact (nth_error_nth hs n 0%Q H). Qed.

(** X14.  Angularity under the five-degree rule.  Fewer than ten house
    cusps raise an error.  Otherwise a planet is angular when it lies within
    five degrees of the cusp of house 1, 4, 7 or 10, or when its house is one
    of these; it is succedent when it is near none of these cusps and its
    house is 2, 5, 8 or 11; and it is cadent in every other case, which
    includes a house number that is no house at all. *)
Theorem angularity_five_degree_rule (lon : Q) (hs : list Q) (h : Z) :
  ((List.length hs < 10)%nat ->
   Calculator._get_traditional_angularity lon hs h = None)
  /\ ((10 <= List.length hs)%nat ->
      exists w,
        Calculator._get_traditional_angularity lon hs h = Some w
        /\ (w = "angular"%string <->
            existsb (Calculator.near_cusp lon)
              [nth 0 hs 0%Q; nth 3 hs 0%Q; nth 6 hs 0%Q; nth 9 hs 0%Q] = true
            \/ Reception.Z_in h [1; 4; 7; 10] = true)
        /\ (w = "succedent"%string <->
            existsb (Calculator.near_cusp lon)
              [nth 0 hs 0%Q; nth 3 hs 0%Q; nth 6 hs 0%Q; nth 9 hs 0%Q] = false
            /\ Reception.Z_in h [1; 4; 7; 10] = false
            /\ Reception.Z_in h [2; 5; 8; 11] = true)
        /\ (w = "cadent"%string <->
            existsb (Calculator.near_cusp lon)
              [nth 0 hs 0%Q; nth 3 hs 0%Q; nth 6 hs 0%Q; nth 9 hs 0%Q] = false
            /\ Reception.Z_in h [1; 4; 7; 10] = false
            /\ Reception.Z_in h [2; 5; 8; 11] = false)).
Proof.
  split; [apply angularity_short|].
  intro Hlen.
  destruct (angularity_total lon hs h Hlen)
    as [c1 [c4 [c7 [c10 [E1 [E4 [E7 E10]]]]]]].
  rewrite (nth_error_nth_Q _ _ _ E1), (nth_error_nth_Q _ _ _ E4),
    (nth_error_nth_Q _ _ _ E7), (nth_error_nth_Q _ _ _ E10).
  unfold Calculator._get_traditional_angularity, Py.bind.
  rewrite E1, E4, E7, E10.
  change (existsb _ [c1; c4; c7; c10])
    with (existsb (Calculator.near_cusp lon) [c1; c4; c7; c10]).
  destruct (existsb (Calculator.near_cusp lon) [c1; c4; c7; c10]).
  { eexists. split; [reflexivity|].
    split; [split; [intros _; now left | reflexivity]|].
    split; (split; [discriminate | intros [H _]; discriminate H]). }
  destruct (Reception.Z_in h [1; 4; 7; 10]).
  { eexists. split; [reflexivity|].
    split; [split; [intros _; now right | reflexivity]|].
    split; (split; [discriminate | intros [_ [H _]]; discriminate H]). }
  destruct (Reception.Z_in h [2; 5; 8; 11]).
  { eexists. split; [reflexivity|].
    split; [split; [discriminate | intros [H|H]; discriminate H]|].
    split; [split; [intros _; repeat split | reflexivity]|].
    split; [discriminate | intros [_ [_ H]]; discriminate H]. }
  eexists. split; [reflexivity|].
  split; [split; [discriminate | intros [H|H]; discriminate H]|].
  split; [split; [discriminate | intros [_ [_ H]]; discriminate H]|].
  split; [intros _; repeat split | reflexivity].
Qed.

Lemma angularity_five_degree_rule_witness :
  exists w,
    Calculator._get_traditional_angularity 8 (equal_houses 10) 12 = Some w
    /\ (w = "angular"%string <->
        existsb (Calculator.near_cusp 8)
          [nth 0 (equal_houses 10) 0%Q; nth 3 (equal_houses 10) 0%Q;
           nth 6 (equal_houses 10) 0%Q; nth 9 (equal_houses 10) 0%Q] = true
        \/ Reception.Z_in 12 [1; 4; 7; 10] = true).
Proof.
  destruct (proj2 (angularity_five_degree_rule 8 (equal_houses 10) 12))
    as [w [Hw [Ha _]]].
  - vm_compute. lia.
  - exists w. split; [exact Hw | exact Ha].
Defined.

(** *** Solar condition *)

Lemma combustion_exception_needs_ten_degrees
  (calculate_elongation : Q -> Q -> Q) (is_planet_oriental : Q -> Q -> bool)
  (sun_altitude_at_civil_twilight : Q -> Q -> Q -> Q)
  (p : Planet) (planet_pos sun_pos : PlanetPosition) (lat lon jd_ut : Q) :
  Calculator._check_enhanced_combustion_exception calculate_elongation
    is_planet_oriental sun_altitude_at_civil_twilight
    p planet_pos sun_pos lat lon jd_ut = true ->
  (10 <= calculate_elongation (longitude planet_pos) (longitude sun_pos))%Q.
Proof.
  unfold Calculator._check_enhanced_combustion_exception.
  destruct (Py.Qltb _ 10) eqn:E; [discriminate|].
  intros _. now apply Qltb_ge in E.
Qed.

(** X15.  The solar condition of a planet.  The Sun itself is always free
    of the Sun.  A traditional exception is only ever granted to Mercury or
    Venus, at ten degrees of elongation or more, and always leaves the planet
    free.  So with a combustion orb under ten degrees, every planet other than
    the Sun whose elongation is past the cazimi orb and within the combustion
    orb is combust: the exception cannot excuse combustion, only the Sun's
    beams. *)
Theorem solar_condition_cases
  (cfg : Config) (orbs : Calculator.SolarOrbs)
  (calculate_elongation : Q -> Q -> Q) (is_planet_oriental : Q -> Q -> bool)
  (sun_altitude_at_civil_twilight : Q -> Q -> Q -> Q)
  (p : Planet) (planet_pos sun_pos : PlanetPosition) (lat lon jd_ut : Q) :
  let sa :=
    Calculator._analyze_enhanced_solar_condition cfg orbs calculate_elongation
      is_planet_oriental sun_altitude_at_civil_twilight
      p planet_pos sun_pos lat lon jd_ut in
  let elongation :=
    calculate_elongation (longitude planet_pos) (longitude sun_pos) in
  (p = SUN -> sa_condition sa = FREE /\ traditional_exception sa = false)
  /\ (traditional_exception sa = true ->
      sa_condition sa = FREE /\ (p = MERCURY \/ p = VENUS)
      /\ (10 <= elongation)%Q)
  /\ (p <> SUN -> (combustion_orb cfg < 10)%Q ->
      (Calculator.cazimi_orb_arcmin orbs / 60 < elongation)%Q ->
      (elongation <= combustion_orb cfg)%Q ->
      sa_condition sa = COMBUSTION /\ traditional_exception sa = false).
Proof.
  intros sa elongation. subst sa.
  unfold Calculator._analyze_enhanced_solar_condition.
  fold elongation.
  split; [|split].
  - intros ->. cbn [Planet_eqb]. split; reflexivity.
  - destruct (Planet_eqb p SUN) eqn:Ep; [cbn; discriminate|].
    destruct (Calculator.Planet_in p [MERCURY; VENUS]) eqn:Ein.
    + assert (Hp : p = MERCURY \/ p = VENUS)
        by (destruct p; try discriminate Ein; auto).
      destruct (Calculator._check_enhanced_combustion_exception
                  calculate_elongation is_planet_oriental
                  sun_altitude_at_civil_twilight
                  p planet_pos sun_pos lat lon jd_ut) eqn:Ex.
      * apply combustion_exception_needs_ten_degrees in Ex.
        repeat match goal with
               | |- context [if ?c then _ else _] => destruct c
               end;
          cbn; intro H; try discriminate H; repeat split; auto.
      * repeat match goal with
               | |- context [if ?c then _ else _] => destruct c
               end;
          cbn; intro H; discriminate H.
    + repeat match goal with
             | |- context [if ?c then _ else _] => destruct c
             end;
        cbn; intro H; discriminate H.
  - intros Hp Horb Hlo Hhi.
    destruct (Planet_eqb p SUN) eqn:Ep;
      [apply Planet_eqb_eq in Ep; contradiction|].
    destruct (Py.Qleb elongation (Calculator.cazimi_orb_arcmin orbs / 60)) eqn:Ec.
    { apply Qleb_le in Ec. lra. }
    destruct (Py.Qleb elongation (combustion_orb cfg)) eqn:Eb.
    2:{ apply Qleb_gt in Eb. lra. }
    assert (Ex : (if Calculator.Planet_in p [MERCURY; VENUS]
                  then Calculator._check_enhanced_combustion_exception
                         calculate_elongation is_planet_oriental
                         sun_altitude_at_civil_twilight
                         p planet_pos sun_pos lat lon jd_ut
                  else false) = false).
    { destruct (Calculator.Planet_in p [MERCURY; VENUS]); [|reflexivity].
      destruct (Calculator._check_enhanced_combustion_exception
                  calculate_elongation is_planet_oriental
                  sun_altitude_at_civil_twilight
                  p planet_pos sun_pos lat lon jd_ut) eqn:Ex; [|reflexivity].
      apply combustion_exception_needs_ten_degrees in Ex.
      fold elongation in Ex. lra. }
    rewrite Ex. split; reflexivity.
Qed.

Lemma solar_condition_cases_witness :
  sa_condition
    (Calculator._analyze_enhanced_solar_condition sample_config
       sample_solar_orbs angular_separation (fun _ _ => true)
       (fun _ _ _ => (-10)%Q) MERCURY mercury_in_gemini sun_in_gemini 0 0 0)
  = COMBUSTION.
Proof.
  apply (proj2 (proj2 (solar_condition_cases sample_config sample_solar_orbs
                         angular_separation (fun _ _ => true)
                         (fun _ _ _ => (-10)%Q) MERCURY mercury_in_gemini
                         sun_in_gemini 0 0 0))).
  - discriminate.
  - vm_compute. reflexivity.
  - vm_compute. reflexivity.
  - vm_compute. discriminate.
Defined.

(** *** The Moon's next aspect *)

(** [a] is no later than [b], for ETAs where [None] is infinity. *)
Lemma eta_le_trans (a b c : option Q) :
  eta_ltb b a = false -> eta_ltb c b = false -> eta_ltb c a = false.
Proof.
  destruct a as [x|], b as [y|], c as [z|]; cbn [eta_ltb];
    try discriminate; try reflexivity.
  intros H1 H2. apply Qltb_ge in H1. apply Qltb_ge in H2.
  apply Qltb_ge. lra.
Qed.

Lemma eta_le_refl (a : option Q) : eta_ltb a a = false.
Proof.
  destruct a as [x|]; cbn [eta_ltb]; [|reflexivity]. apply Qltb_ge. lra.
Qed.

Lemma eta_lt_le (a b : option Q) : eta_ltb a b = true -> eta_ltb b a = false.
Proof.
  destruct a as [x|], b as [y|]; cbn [eta_ltb];
    try discriminate; try reflexivity.
  intro H. apply Qltb_lt in H. apply Qltb_ge. lra.
Qed.

Lemma soonest_In (best : LunarAspect) (l : list LunarAspect) :
  In (soonest best l) (best :: l).
Proof.
  revert best. induction l as [|x rest IH]; intro best; [now left|].
  cbn [soonest].
  destruct (eta_ltb (perfection_eta_days x) (perfection_eta_days best)).
  - right. exact (IH x).
  - destruct (IH best) as [H|H]; [left; exact H | right; right; exact H].
Qed.

Lemma soonest_le_best (best : LunarAspect) (l : list LunarAspect) :
  eta_ltb (perfection_eta_days best)
          (perfection_eta_days (soonest best l)) = false.
Proof.
  revert best. induction l as [|x rest IH]; intro best;
    [apply eta_le_refl|].
  cbn [soonest].
  destruct (eta_ltb (perfection_eta_days x) (perfection_eta_days best)) eqn:E.
  - apply eta_le_trans with (b := perfection_eta_days x);
      [apply IH | now apply eta_lt_le].
  - apply IH.
Qed.

Lemma soonest_least (best : LunarAspect) (l : list LunarAspect) (b : LunarAspect) :
  In b (best :: l) ->
  eta_ltb (perfection_eta_days b)
          (perfection_eta_days (soonest best l)) = false.
Proof.
  revert best. induction l as [|x rest IH]; intros best Hin.
  - destruct Hin as [<-|[]]. apply eta_le_refl.
  - cbn [soonest].
    destruct (eta_ltb (perfection_eta_days x) (perfection_eta_days best)) eqn:E.
    + destruct Hin as [<-|[<-|Hin]].
      * apply eta_le_trans with (b := perfection_eta_days x);
          [apply soonest_le_best | now apply eta_lt_le].
      * apply soonest_le_best.
      * apply IH. now right.
    + destruct Hin as [<-|[<-|Hin]].
      * apply soonest_le_best.
      * apply eta_le_trans with (b := perfection_eta_days best);
          [apply soonest_le_best | exact E].
      * apply IH. now right.
Qed.

Lemma moon_applying_aspects_with_inv
  (cfg : Config) (moon_pos : PlanetPosition) (moon_speed : Q)
  (p : Planet) (planet_pos : PlanetPosition) (a : LunarAspect) :
  In a (moon_applying_aspects_with cfg moon_pos moon_speed p planet_pos) ->
  la_planet a = p /\ la_applying a = true
  /\ (la_orb a <= Aspect_orb cfg (la_aspect a))%Q
  /\ (la_orb a
      == Py.Qabs' (angular_separation (longitude moon_pos) (longitude planet_pos)
                   - Py.Qz (Aspect_degrees (la_aspect a))))%Q
  /\ _is_moon_applying_to_aspect moon_pos planet_pos (la_aspect a) moon_speed
     = true.
Proof.
  unfold moon_applying_aspects_with. rewrite in_flat_map.
  intros [asp [_ H]].
  destruct (Py.Qleb _ (Aspect_orb cfg asp)
            && _is_moon_applying_to_aspect moon_pos planet_pos asp moon_speed)
    eqn:E; [|destruct H].
  apply andb_true_iff in E. destruct E as [E1 E2]. apply Qleb_le in E1.
  destruct H as [<-|[]]. cbn.
  repeat split; auto.
Qed.

(** X16.  The Moon's next aspect, when there is one, is an applying aspect
    to a body of the chart other than the Moon, within the configured orb of
    its aspect type; and no applying aspect of the Moon within orb perfects
    sooner.  Without the Moon in the chart the calculation raises. *)
Theorem moon_next_aspect_is_soonest
  (cfg : Config) (ps : Planets) (moon_speed : Q) :
  (planets_get ps MOON = None ->
   _calculate_moon_next_aspect cfg ps moon_speed = None)
  /\ forall moon_pos next,
       planets_get ps MOON = Some moon_pos ->
       _calculate_moon_next_aspect cfg ps moon_speed = Some (Some next) ->
       la_applying next = true
       /\ la_planet next <> MOON
       /\ (exists planet_pos,
             In (la_planet next, planet_pos) ps
             /\ (la_orb next <= Aspect_orb cfg (la_aspect next))%Q
             /\ _is_moon_applying_to_aspect moon_pos planet_pos
                  (la_aspect next) moon_speed = true)
       /\ forall p planet_pos other,
            In (p, planet_pos) ps -> p <> MOON ->
            In other (moon_applying_aspects_with cfg moon_pos moon_speed
                        p planet_pos) ->
            eta_ltb (perfection_eta_days other) (perfection_eta_days next)
            = false.
Proof.
  split.
  { intro H. unfold _calculate_moon_next_aspect, Py.bind. now rewrite H. }
  intros moon_pos next Hmoon H.
  unfold _calculate_moon_next_aspect, Py.bind in H. rewrite Hmoon in H.
  set (candidates :=
         flat_map
           (fun kv : Planet * PlanetPosition =>
              if Planet_eqb (fst kv) MOON then []
              else moon_applying_aspects_with cfg moon_pos moon_speed
                     (fst kv) (snd kv)) ps) in *.
  destruct candidates as [|x rest] eqn:Ec; [discriminate H|].
  apply Some_inj in H. apply Some_inj in H.
  assert (Hin : In next candidates).
  { rewrite Ec, <- H. apply soonest_In. }
  assert (Hall : forall b, In b candidates ->
                 eta_ltb (perfection_eta_days b) (perfection_eta_days next)
                 = false).
  { intros b Hb. rewrite <- H. apply soonest_least. now rewrite <- Ec. }
  clear H Ec.
  unfold candidates in Hin. apply in_flat_map in Hin.
  destruct Hin as [[p planet_pos] [Hps Hnext]]. cbn [fst snd] in Hnext.
  destruct (Planet_eqb p MOON) eqn:Ep; [destruct Hnext|].
  apply Planet_eqb_neq in Ep.
  apply moon_applying_aspects_with_inv in Hnext.
  destruct Hnext as [Hp [Happ [Horb [_ Hmove]]]].
  split; [exact Happ|].
  split; [now rewrite Hp|].
  split.
  { exists planet_pos. rewrite Hp. repeat split; assumption. }
  intros q q_pos other Hq Hneq Hother.
  apply Hall. unfold candidates. apply in_flat_map.
  exists (q, q_pos). split; [exact Hq|]. cbn [fst snd].
  apply Planet_eqb_neq in Hneq. now rewrite Hneq.
Qed.

Lemma moon_next_aspect_is_soonest_witness :
  exists next,
    _calculate_moon_next_aspect sample_config carrying_moon_planets 13
    = Some (Some next)
    /\ la_applying next = true /\ la_planet next <> MOON.
Proof.
  destruct (_calculate_moon_next_aspect sample_config carrying_moon_planets 13)
    as [[next|]|] eqn:E; try (vm_compute in E; discriminate E).
  destruct (planets_get carrying_moon_planets MOON) as [moon_pos|] eqn:Em;
    [|vm_compute in Em; discriminate Em].
  exists next. split; [reflexivity|].
  destruct (proj2 (moon_next_aspect_is_soonest sample_config
                     carrying_moon_planets 13) moon_pos next Em E)
    as [H1 [H2 _]].
  split; assumption.
Defined.

(** *** The Moon's last aspect *)

Lemma Qmod_small (x m : Q) : (0 <= x < m)%Q -> (Py.Qmod x m == x)%Q.
Proof.
  intros [Hlo Hhi]. unfold Py.Qmod.
  assert (Hm : (0 < m)%Q) by lra.
  assert (H0 : (0 <= x / m)%Q).
  { apply Qle_shift_div_l; [exact Hm | lra]. }
  assert (H1 : (x / m < 1)%Q).
  { apply Qlt_shift_div_r; [exact Hm | lra]. }
  pose proof (Qfloor_le (x / m)) as Hf.
  pose proof (Qlt_floor (x / m)) as Hc.
  assert (Hz : Qfloor (x / m) = 0).
  { assert (Ha : (inject_Z (Qfloor (x / m)) < inject_Z 1)%Q)
      by (change (inject_Z 1) with 1%Q; lra).
    assert (Hb : (inject_Z (-1) < inject_Z (Qfloor (x / m)))%Q).
    { rewrite inject_Z_plus in Hc. change (inject_Z 1) with 1%Q in Hc.
      change (inject_Z (-1)) with (-1)%Q. lra. }
    rewrite <- Zlt_Qlt in Ha, Hb. lia. }
  rewrite Hz. change (inject_Z 0) with 0%Q. ring.
Qed.

(** The Moon is never both applying to and separating from an aspect. *)
Lemma moon_applying_excludes_separating
  (moon_pos planet_pos : PlanetPosition) (a : Aspect) (moon_speed : Q) :
  _is_moon_applying_to_aspect moon_pos planet_pos a moon_speed = true ->
  Calculator._is_moon_separating_from_aspect moon_pos planet_pos a moon_speed
  = false.
Proof.
  unfold _is_moon_applying_to_aspect,
    Calculator._is_moon_separating_from_aspect.
  intro H. apply Qltb_lt in H. apply Qltb_ge. lra.
Qed.

(** A Moon that stands still within one turn moves neither way. *)
Lemma still_moon_not_separating
  (moon_pos planet_pos : PlanetPosition) (a : Aspect) (moon_speed : Q) :
  (0 <= longitude moon_pos < 360)%Q -> (moon_speed == 0)%Q ->
  Calculator._is_moon_separating_from_aspect moon_pos planet_pos a moon_speed
  = false.
Proof.
  intros Hlon Hs. unfold Calculator._is_moon_separating_from_aspect.
  apply Qltb_ge.
  assert (Hf : (Py.Qmod (longitude moon_pos + moon_speed * (1 # 10)) 360
                == longitude moon_pos)%Q).
  { rewrite Qmod_small; [rewrite Hs; ring|]. rewrite Hs. lra. }
  set (f := Py.Qmod (longitude moon_pos + moon_speed * (1 # 10)) 360) in *.
  clearbody f.
  unfold angular_separation, Py.Qabs', Py.Qz.
  set (l := longitude moon_pos) in *. set (q := longitude planet_pos).
  set (d := inject_Z (Aspect_degrees a)).
  assert (E1 : (Qabs (f - q) == Qabs (l - q))%Q) by (now rewrite Hf).
  set (x := Qabs (f - q)) in *. set (y := Qabs (l - q)) in *.
  destruct (Py.Qltb 180 x) eqn:Ex; destruct (Py.Qltb 180 y) eqn:Ey;
    try apply Qltb_lt in Ex; try apply Qltb_ge in Ex;
    try apply Qltb_lt in Ey; try apply Qltb_ge in Ey;
    try lra.
  - assert (E2 : (360 - x - d == 360 - y - d)%Q) by lra.
    rewrite E2. lra.
  - assert (E2 : (x - d == y - d)%Q) by lra.
    rewrite E2. lra.
Qed.

Lemma moon_separating_aspects_with_defined
  (cfg : Config) (moon_pos : PlanetPosition) (moon_speed : Q)
  (p : Planet) (planet_pos : PlanetPosition) (types : list Aspect) :
  (0 <= longitude moon_pos < 360)%Q \/ ~ (moon_speed == 0)%Q ->
  exists l, moon_separating_aspects_with cfg moon_pos moon_speed
              p planet_pos types = Some l.
Proof.
  intro Hok. induction types as [|a rest [l IH]]; [now exists []|].
  cbn [moon_separating_aspects_with].
  destruct (Calculator._is_moon_separating_from_aspect
              moon_pos planet_pos a moon_speed) eqn:Es.
  2:{ rewrite andb_false_r. now exists l. }
  destruct (Py.Qleb _ _); cbn [andb]; [|now exists l].
  destruct (Py.Qeqb moon_speed 0) eqn:E0.
  - exfalso. apply Qeq_bool_iff in E0. destruct Hok as [Hlon|Hne].
    + rewrite (still_moon_not_separating moon_pos planet_pos a moon_speed
                 Hlon E0) in Es. discriminate Es.
    + exact (Hne E0).
  - rewrite IH. cbn [Py.bind]. eexists. reflexivity.
Qed.

Lemma moon_separating_aspects_with_inv
  (cfg : Config) (moon_pos : PlanetPosition) (moon_speed : Q)
  (p : Planet) (planet_pos : PlanetPosition) (types : list Aspect)
  (l : list LunarAspect) (x : LunarAspect) :
  moon_separating_aspects_with cfg moon_pos moon_speed p planet_pos types
  = Some l ->
  In x l ->
  la_planet x = p /\ la_applying x = false
  /\ Calculator._is_moon_separating_from_aspect
       moon_pos planet_pos (la_aspect x) moon_speed = true.
Proof.
  revert l. induction types as [|a rest IH]; intros l H Hin.
  - apply Some_inj in H. subst l. destruct Hin.
  - cbn [moon_separating_aspects_with] in H.
    destruct (Py.Qleb _ _
              && Calculator._is_moon_separating_from_aspect
                   moon_pos planet_pos a moon_speed) eqn:E.
    + destruct (Py.Qeqb moon_speed 0); [discriminate H|].
      destruct (moon_separating_aspects_with cfg moon_pos moon_speed
                  p planet_pos rest) as [later|]; [|discriminate H].
      cbn [Py.bind] in H. apply Some_inj in H. subst l.
      apply andb_true_iff in E. destruct E as [_ E].
      destruct Hin as [<-|Hin]; [cbn; auto|].
      exact (IH later eq_refl Hin).
    + exact (IH l H Hin).
Qed.

Lemma moon_separating_aspects_defined
  (cfg : Config) (moon_pos : PlanetPosition) (moon_speed : Q) (ps : Planets) :
  (0 <= longitude moon_pos < 360)%Q \/ ~ (moon_speed == 0)%Q ->
  exists l, moon_separating_aspects cfg moon_pos moon_speed ps = Some l.
Proof.
  intro Hok. induction ps as [|[p planet_pos] rest [l IH]]; [now exists []|].
  cbn [moon_separating_aspects].
  destruct (Planet_eqb p MOON); [now exists l|].
  destruct (moon_separating_aspects_with_defined cfg moon_pos moon_speed
              p planet_pos all_aspects Hok) as [here Hhere].
  rewrite Hhere, IH. cbn [Py.bind]. eexists. reflexivity.
Qed.

Lemma moon_separating_aspects_inv
  (cfg : Config) (moon_pos : PlanetPosition) (moon_speed : Q) (ps : Planets)
  (l : list LunarAspect) (x : LunarAspect) :
  moon_separating_aspects cfg moon_pos moon_speed ps = Some l ->
  In x l ->
  la_applying x = false
  /\ exists planet_pos,
       In (la_planet x, planet_pos) ps
       /\ Calculator._is_moon_separating_from_aspect
            moon_pos planet_pos (la_aspect x) moon_speed = true.
Proof.
  revert l. induction ps as [|[p planet_pos] rest IH]; intros l H Hin.
  - apply Some_inj in H. subst l. destruct Hin.
  - cbn [moon_separating_aspects] in H.
    destruct (Planet_eqb p MOON).
    + destruct (IH l H Hin) as [Ha [pos [Hp Hs]]].
      split; [exact Ha|]. exists pos. split; [now right | exact Hs].
    + destruct (moon_separating_aspects_with cfg moon_pos moon_speed
                  p planet_pos all_aspects) as [here|] eqn:Eh;
        [|discriminate H].
      destruct (moon_separating_aspects cfg moon_pos moon_speed rest)
        as [later|]; [|discriminate H].
      cbn [Py.bind] in H. apply Some_inj in H. subst l.
      apply in_app_or in Hin. destruct Hin as [Hin|Hin].
      * destruct (moon_separating_aspects_with_inv _ _ _ _ _ _ _ _ Eh Hin)
          as [Hp [Ha Hs]].
        split; [exact Ha|]. exists planet_pos. split; [|exact Hs].
        left. now rewrite Hp.
      * destruct (IH later eq_refl Hin) as [Ha [pos [Hp Hs]]].
        split; [exact Ha|]. exists pos. split; [now right | exact Hs].
Qed.

Lemma planets_unique_value
  (ps : Planets) (p : Planet) (pos1 pos2 : PlanetPosition) :
  NoDup (planets_keys ps) -> In (p, pos1) ps -> In (p, pos2) ps -> pos1 = pos2.
Proof.
  unfold planets_keys. induction ps as [|[k v] rest IH]; intros Hnd H1 H2.
  - destruct H1.
  - cbn [map fst] in Hnd. inversion Hnd as [|? ? Hnotin Hrest]; subst.
    destruct H1 as [H1|H1], H2 as [H2|H2].
    + congruence.
    + exfalso. apply Hnotin. injection H1 as -> _.
      apply in_map_iff. now exists (p, pos2).
    + exfalso. apply Hnotin. injection H2 as -> _.
      apply in_map_iff. now exists (p, pos1).
    + exact (IH Hrest H1 H2).
Qed.

(** X17.  The Moon's last aspect.  With the Moon in the chart, the
    calculation is defined when the Moon's longitude lies within one turn or
    its speed is not zero (the division by the speed is never reached for a
    Moon that stands still).  The aspect it returns is separating, and it is
    never the same aspect to the same body as the Moon's next aspect. *)
Theorem moon_last_aspect_is_not_the_next
  (cfg : Config) (ps : Planets) (moon_speed : Q) (moon_pos : PlanetPosition) :
  planets_get ps MOON = Some moon_pos ->
  ((0 <= longitude moon_pos < 360)%Q \/ ~ (moon_speed == 0)%Q ->
   exists r, _calculate_moon_last_aspect cfg ps moon_speed = Some r)
  /\ forall last,
       _calculate_moon_last_aspect cfg ps moon_speed = Some (Some last) ->
       la_applying last = false
       /\ forall next,
            NoDup (planets_keys ps) ->
            _calculate_moon_next_aspect cfg ps moon_speed = Some (Some next) ->
            ~ (la_planet last = la_planet next
               /\ la_aspect last = la_aspect next).
Proof.
  intro Hmoon. split.
  { intro Hok. unfold _calculate_moon_last_aspect, Py.bind. rewrite Hmoon.
    destruct (moon_separating_aspects_defined cfg moon_pos moon_speed ps Hok)
      as [l Hl].
    rewrite Hl. destruct l; eexists; reflexivity. }
  intros last Hlast.
  unfold _calculate_moon_last_aspect, Py.bind in Hlast. rewrite Hmoon in Hlast.
  destruct (moon_separating_aspects cfg moon_pos moon_speed ps)
    as [l|] eqn:El; [|discriminate Hlast].
  destruct l as [|x rest]; [discriminate Hlast|].
  apply Some_inj in Hlast. apply Some_inj in Hlast.
  assert (Hin : In last (x :: rest)) by (rewrite <- Hlast; apply soonest_In).
  destruct (moon_separating_aspects_inv _ _ _ _ _ _ El Hin)
    as [Ha [pos [Hpos Hsep]]].
  split; [exact Ha|].
  intros next Hnd Hnext [Hp Hasp].
  unfold _calculate_moon_next_aspect, Py.bind in Hnext.
  rewrite Hmoon in Hnext.
  set (candidates :=
         flat_map
           (fun kv : Planet * PlanetPosition =>
              if Planet_eqb (fst kv) MOON then []
              else moon_applying_aspects_with cfg moon_pos moon_speed
                     (fst kv) (snd kv)) ps) in *.
  destruct candidates as [|y more] eqn:Ec; [discriminate Hnext|].
  apply Some_inj in Hnext. apply Some_inj in Hnext.
  assert (Hn : In next candidates).
  { rewrite Ec, <- Hnext. apply soonest_In. }
  unfold candidates in Hn. apply in_flat_map in Hn.
  destruct Hn as [[p planet_pos] [Hps Hn]]. cbn [fst snd] in Hn.
  destruct (Planet_eqb p MOON); [destruct Hn|].
  apply moon_applying_aspects_with_inv in Hn.
  destruct Hn as [Hpn [_ [_ [_ Happ]]]].
  rewrite <- Hpn, <- Hp in Hps.
  rewrite (planets_unique_value ps _ _ _ Hnd Hps Hpos) in Happ.
  rewrite <- Hasp in Happ.
  apply moon_applying_excludes_separating in Happ.
  rewrite Happ in Hsep. discriminate Hsep.
Qed.

Lemma carrying_moon_planets_distinct : NoDup (planets_keys carrying_moon_planets).
Proof. vm_compute. repeat constructor; simpl; intuition discriminate. Qed.

Lemma moon_last_aspect_is_not_the_next_witness :
  exists last next,
    _calculate_moon_last_aspect sample_config carrying_moon_planets 13
    = Some (Some last)
    /\ _calculate_moon_next_aspect sample_config carrying_moon_planets 13
       = Some (Some next)
    /\ ~ (la_planet last = la_planet next /\ la_aspect last = la_aspect next).
Proof.
  destruct (planets_get carrying_moon_planets MOON) as [moon_pos|] eqn:Em;
    [|vm_compute in Em; discriminate Em].
  destruct (_calculate_moon_last_aspect sample_config carrying_moon_planets 13)
    as [[last|]|] eqn:El; try (vm_compute in El; discriminate El).
  destruct (_calculate_moon_next_aspect sample_config carrying_moon_planets 13)
    as [[next|]|] eqn:En; try (vm_compute in En; discriminate En).
  exists last, next. split; [reflexivity|]. split; [reflexivity|].
  exact (proj2 (proj2 (moon_last_aspect_is_not_the_next sample_config
                         carrying_moon_planets 13 moon_pos Em) last El)
           next carrying_moon_planets_distinct En).
Defined.
